(** * A windowed SQLite viewer: the chunk cache, the keyset reader, the detail
      pipeline and the seeding routine, embedded from the Python sources.

    Python integers are unbounded and are modelled by [Z]; [//] on integers is
    floor division, as [Z.div] is.  A [dict] keeps its keys in insertion order
    and the eviction loop of the threaded model depends on that order, so a
    dict is an association list in insertion order with one entry per key.
    A Qt signal is modelled by the list of its emissions, oldest first. *)

From stdpp Require Import base numbers list gmap strings pretty.
From stdpp Require Import sorting.
Local Open Scope Z_scope.

(** ** Python values and exceptions *)

Inductive py_exception : Type :=
| NotImplementedError (msg : string)
| IndexError (msg : string)
| ZeroDivisionError (msg : string)
| AssertionError (msg : string)
| OtherException (msg : string)
| NonException (msg : string).

(** [str(exc)] *)
Definition str_exc (e : py_exception) : string :=
  match e with
  | NotImplementedError s | IndexError s | ZeroDivisionError s
  | AssertionError s | OtherException s | NonException s => s
  end.

(** [isinstance(e, Exception)]: [NonException] stands for the classes that
    derive from [BaseException] only ([SystemExit], [KeyboardInterrupt]). *)
Definition isinstance_Exception (e : py_exception) : bool :=
  match e with NonException _ => false | _ => true end.

Definition isinstance_NotImplementedError (e : py_exception) : bool :=
  match e with NotImplementedError _ => true | _ => false end.

Inductive py_result (A : Type) : Type :=
| Return (a : A)
| Raise (e : py_exception).
Arguments Return {A} a.
Arguments Raise {A} e.

Definition py_bind {A B} (r : py_result A) (k : A -> py_result B) : py_result B :=
  match r with
  | Return a => k a
  | Raise e => Raise e
  end.

(** [a // b] *)
Definition py_floordiv (a b : Z) : py_result Z :=
  if b =? 0 then Raise (ZeroDivisionError "integer division or modulo by zero")
  else Return (a / b).

(** [len(l)] *)
Definition len {A} (l : list A) : Z := Z.of_nat (length l).

(** A row of [texts] as [fetchall] returns it: the tuple [(id, value)]. *)
Abbreviation record := (Z * string)%type.

(** What a cell of the table holds: an [int] or a [str]. *)
Inductive cell : Type :=
| CellInt (n : Z)
| CellStr (s : string).

(** [record[i]] on a 2-tuple, negative indices included. *)
Definition tuple_getitem (r : record) (i : Z) : py_result cell :=
  if (i =? 0) || (i =? -2) then Return (CellInt r.1)
  else if (i =? 1) || (i =? -1) then Return (CellStr r.2)
  else Raise (IndexError "tuple index out of range").

(** ** Python [dict] with integer keys, in insertion order *)

Abbreviation dict V := (list (Z * V)) (only parsing).

Definition dict_keys {V} (d : dict V) : list Z := d.*1.

(** [d.get(k)] *)
Fixpoint dict_get {V} (k : Z) (d : dict V) : option V :=
  match d with
  | [] => None
  | (k', v) :: d' => if k' =? k then Some v else dict_get k d'
  end.

(** [k in d] *)
Definition dict_contains {V} (k : Z) (d : dict V) : bool :=
  match dict_get k d with Some _ => true | None => false end.

(** [d[k] = v]: an existing key keeps its place, a new key goes last. *)
Fixpoint dict_setitem {V} (k : Z) (v : V) (d : dict V) : dict V :=
  match d with
  | [] => [(k, v)]
  | (k', v') :: d' => if k' =? k then (k, v) :: d' else (k', v') :: dict_setitem k v d'
  end.

(** [del d[k]] for a key that is present *)
Definition dict_delitem {V} (k : Z) (d : dict V) : dict V :=
  filter (fun kv => kv.1 ≠ k) d.

(** [next(iter(d))] *)
Definition dict_first {V} (d : dict V) : option Z := head (dict_keys d).

(** ** The [texts] table and the three queries the program issues *)

Module Sqlite.

(** The table is the list of its rows; [id] is the primary key. *)
Abbreviation table := (list record) (only parsing).

(** [SELECT COUNT( * ) FROM texts] *)
Definition select_count (t : table) : Z := len t.

(** [SELECT MIN(id) FROM texts]: NULL on an empty table. *)
Definition select_min_id (t : table) : option Z :=
  match t with
  | [] => None
  | r :: t' => Some (foldr (fun r' m => Z.min r'.1 m) r.1 t')
  end.

Fixpoint insert_by_id (r : record) (l : list record) : list record :=
  match l with
  | [] => [r]
  | x :: l' => if r.1 <=? x.1 then r :: l else x :: insert_by_id r l'
  end.

(** [ORDER BY id] *)
Definition order_by_id (l : list record) : list record :=
  foldr insert_by_id [] l.

(** [LIMIT n]: a negative limit means no limit. *)
Definition limit {A} (n : Z) (l : list A) : list A :=
  if n <? 0 then l else take (Z.to_nat n) l.

(** [SELECT id, value FROM texts WHERE id >= ? ORDER BY id LIMIT ?] *)
Definition select_from (t : table) (start_id lim : Z) : list record :=
  limit lim (order_by_id (filter (fun r => start_id ≤ r.1) t)).

(** The largest rowid in the table, 0 when it is empty. *)
Definition max_id (t : table) : Z := foldr (fun r m => Z.max r.1 m) 0 t.

(** A database file: the table and the [sqlite_sequence] counter that
    [AUTOINCREMENT] keeps. *)
Record database := { texts : table; sqlite_sequence : Z }.

(** [INSERT INTO texts(value) VALUES (?)]: the new id is one more than the
    largest id the table ever held. *)
Definition insert_value (db : database) (value : string) : database :=
  let new_id := Z.max (sqlite_sequence db) (max_id (texts db)) + 1 in
  {| texts := texts db ++ [(new_id, value)]; sqlite_sequence := new_id |}.

(** [executemany] of the same insert over a list of values *)
Definition executemany (db : database) (values : list string) : database :=
  foldl insert_value db values.

End Sqlite.

(** ** The part of Qt the models rely on *)

Module Qt.

Definition DisplayRole : Z := 0.

Record QModelIndex := { isValid : bool; row : Z; column : Z }.

(** [QModelIndex()] *)
Definition invalid_index : QModelIndex :=
  {| isValid := false; row := -1; column := -1 |}.

(** [QAbstractTableModel.index(row, column)]: a valid index only inside
    the table ([hasIndex]), the invalid index otherwise. *)
Definition index (rowCount columnCount r c : Z) : QModelIndex :=
  if (0 <=? r) && (0 <=? c) && (r <? rowCount) && (c <? columnCount)
  then {| isValid := true; row := r; column := c |}
  else invalid_index.

End Qt.

(** ** pyside6_sqlite_million_sample_keyset_threaded.py *)

Module Threaded.

(** *** [ChunkLoaderWorker] *)

(** [w_first_id] and [w_conn] are the worker's [_first_id] and [_conn].
    [_conn] is [None] until the first read opens the connection; the
    database file the connection reads is an argument of [load_chunk]. *)
Record ChunkLoaderWorker := {
  w_first_id : Z;
  w_conn : bool;
}.

Definition ChunkLoaderWorker_init (first_id : Z) : ChunkLoaderWorker :=
  {| w_first_id := first_id; w_conn := false |}.

Definition _ensure_connection (self : ChunkLoaderWorker) : ChunkLoaderWorker :=
  {| w_first_id := w_first_id self; w_conn := true |}.

(** [load_chunk]: the worker after the call and the emission of
    [chunk_loaded], a pair [(start_row, rows)]. *)
Definition load_chunk (self : ChunkLoaderWorker) (db : Sqlite.table)
    (start_row chunk_size : Z) : ChunkLoaderWorker * (Z * list record) :=
  let self := _ensure_connection self in
  let start_id := w_first_id self + start_row in
  let rows := Sqlite.select_from db start_id chunk_size in
  (self, (start_row, rows)).

Definition close_connection (self : ChunkLoaderWorker) : ChunkLoaderWorker :=
  {| w_first_id := w_first_id self; w_conn := false |}.

(** *** [SqliteTableModel] *)

Record SqliteTableModel := {
  _row_count : Z;
  _first_id : Z;
  _headers : list string;
  _chunk_cache : dict (list record);
  _pending_chunks : gset Z;
  _cache_size : Z;
  _max_cached_chunks : Z;
  (** emissions of the signal [request_chunk], oldest first *)
  request_chunk : list (Z * Z);
  (** emissions of the signal [dataChanged], oldest first *)
  dataChanged : list (Qt.QModelIndex * Qt.QModelIndex);
}.

Definition SqliteTableModel_init (db : Sqlite.table) : SqliteTableModel :=
  {| _row_count := Sqlite.select_count db;
     _first_id := match Sqlite.select_min_id db with Some i => i | None => 1 end;
     _headers := ["id"; "value"]%string;
     _chunk_cache := [];
     _pending_chunks := ∅;
     _cache_size := 1000;
     _max_cached_chunks := 8;
     request_chunk := [];
     dataChanged := [] |}.

Definition rowCount (self : SqliteTableModel) : Z := _row_count self.

Definition columnCount (self : SqliteTableModel) : Z := len (_headers self).

(** [self.index(row, column)] *)
Definition index (self : SqliteTableModel) (r c : Z) : Qt.QModelIndex :=
  Qt.index (rowCount self) (columnCount self) r c.

Definition set_cache (self : SqliteTableModel) (pending : gset Z)
    (cache : dict (list record)) : SqliteTableModel :=
  {| _row_count := _row_count self;
     _first_id := _first_id self;
     _headers := _headers self;
     _chunk_cache := cache;
     _pending_chunks := pending;
     _cache_size := _cache_size self;
     _max_cached_chunks := _max_cached_chunks self;
     request_chunk := request_chunk self;
     dataChanged := dataChanged self |}.

Definition emit_request_chunk (self : SqliteTableModel) (chunk_start size : Z)
    : SqliteTableModel :=
  {| _row_count := _row_count self;
     _first_id := _first_id self;
     _headers := _headers self;
     _chunk_cache := _chunk_cache self;
     _pending_chunks := _pending_chunks self;
     _cache_size := _cache_size self;
     _max_cached_chunks := _max_cached_chunks self;
     request_chunk := request_chunk self ++ [(chunk_start, size)];
     dataChanged := dataChanged self |}.

Definition emit_dataChanged (self : SqliteTableModel)
    (top_left bottom_right : Qt.QModelIndex) : SqliteTableModel :=
  {| _row_count := _row_count self;
     _first_id := _first_id self;
     _headers := _headers self;
     _chunk_cache := _chunk_cache self;
     _pending_chunks := _pending_chunks self;
     _cache_size := _cache_size self;
     _max_cached_chunks := _max_cached_chunks self;
     request_chunk := request_chunk self;
     dataChanged := dataChanged self ++ [(top_left, bottom_right)] |}.

Definition _request_chunk (self : SqliteTableModel) (chunk_start : Z)
    : SqliteTableModel :=
  if bool_decide (chunk_start ∈ _pending_chunks self)
     || dict_contains chunk_start (_chunk_cache self) then self
  else if (chunk_start <? 0) || (chunk_start >=? _row_count self) then self
  else
    let self := set_cache self ({[chunk_start]} ∪ _pending_chunks self)
                  (_chunk_cache self) in
    emit_request_chunk self chunk_start (_cache_size self).

(** [data]: what the call returns or raises, and the model after it. *)
Definition data (self : SqliteTableModel) (index : Qt.QModelIndex) (role : Z)
    : py_result (option cell) * SqliteTableModel :=
  if negb (Qt.isValid index) || negb (role =? Qt.DisplayRole)
  then (Return None, self)
  else
    let row := Qt.row index in
    match py_floordiv row (_cache_size self) with
    | Raise e => (Raise e, self)
    | Return q =>
        let chunk_start := q * _cache_size self in
        match dict_get chunk_start (_chunk_cache self) with
        | None => (Return None, _request_chunk self chunk_start)
        | Some rows =>
            let offset := row - chunk_start in
            if (offset <? 0) || (offset >=? len rows) then (Return None, self)
            else
              match rows !! Z.to_nat offset with
              | None => (Raise (IndexError "list index out of range"), self)
              | Some record =>
                  (py_bind (tuple_getitem record (Qt.column index))
                     (fun v => Return (Some v)), self)
              end
        end
    end.

(** The eviction loop of [_on_chunk_loaded].  [next(iter(cache))] is the key
    of the first entry, and since a dict holds a key once, deleting that key
    leaves the rest of the list: the loop is a recursion on the list.  On an
    empty dict [next] would raise [StopIteration]; the loop runs after
    [chunk_start] was stored and stops at it, so it never sees one. *)
Fixpoint evict_oldest (max_cached_chunks chunk_start : Z)
    (cache : dict (list record)) : dict (list record) :=
  match cache with
  | [] => []
  | (oldest_start, _) :: rest =>
      if len cache >? max_cached_chunks then
        if oldest_start =? chunk_start then cache
        else evict_oldest max_cached_chunks chunk_start rest
      else cache
  end.

Definition _on_chunk_loaded (self : SqliteTableModel) (chunk_start : Z)
    (rows : list record) : SqliteTableModel :=
  let loaded_rows := rows in
  let pending := _pending_chunks self ∖ {[chunk_start]} in
  let cache := dict_setitem chunk_start loaded_rows (_chunk_cache self) in
  let cache := evict_oldest (_max_cached_chunks self) chunk_start cache in
  let self := set_cache self pending cache in
  match loaded_rows with
  | [] => self
  | _ :: _ =>
      let start := chunk_start in
      let end_ := Z.min (chunk_start + len loaded_rows - 1) (_row_count self - 1) in
      let top_left := index self start 0 in
      let bottom_right := index self end_ (len (_headers self) - 1) in
      emit_dataChanged self top_left bottom_right
  end.

(** What can happen to a model between its construction and [close]: the view
    asks for a cell, or a [chunk_loaded] emission reaches the slot. *)
Inductive event : Type :=
| EvData (index : Qt.QModelIndex) (role : Z)
| EvChunkLoaded (chunk_start : Z) (rows : list record).

Definition step (self : SqliteTableModel) (ev : event) : SqliteTableModel :=
  match ev with
  | EvData i r => (data self i r).2
  | EvChunkLoaded c rows => _on_chunk_loaded self c rows
  end.

Definition run (self : SqliteTableModel) (evs : list event) : SqliteTableModel :=
  foldl step self evs.

(** The states a model built by [SqliteTableModel_init] can be in. *)
Definition reachable (self : SqliteTableModel) : Prop :=
  exists db evs, self = run (SqliteTableModel_init db) evs.

End Threaded.

(** ** pyside6_sqlite_million_sample_keyset_thread.py *)

Module Thread.

(** *** [SqliteTableModel], the synchronous one-window model of this file *)

Record SqliteTableModel := {
  (** the table as the model's connection reads it *)
  conn : Sqlite.table;
  _row_count : Z;
  _first_id : Z;
  _headers : list string;
  _cache_start : Z;
  _cache_rows : list record;
  _cache_size : Z;
}.

Definition SqliteTableModel_init (db : Sqlite.table) : SqliteTableModel :=
  {| conn := db;
     _row_count := Sqlite.select_count db;
     _first_id := match Sqlite.select_min_id db with Some i => i | None => 1 end;
     _headers := ["id"; "value"]%string;
     _cache_start := -1;
     _cache_rows := [];
     _cache_size := 1000 |}.

Definition rowCount (self : SqliteTableModel) : Z := _row_count self.

Definition columnCount (self : SqliteTableModel) : Z := len (_headers self).

Definition index (self : SqliteTableModel) (r c : Z) : Qt.QModelIndex :=
  Qt.index (rowCount self) (columnCount self) r c.

Definition _ensure_cache (self : SqliteTableModel) (row : Z) : SqliteTableModel :=
  if (_cache_start self <=? row) && (row <? _cache_start self + len (_cache_rows self))
  then self
  else
    let start := Z.max 0 (row - _cache_size self / 2) in
    let start_id := _first_id self + start in
    let rows := Sqlite.select_from (conn self) start_id (_cache_size self) in
    {| conn := conn self;
       _row_count := _row_count self;
       _first_id := _first_id self;
       _headers := _headers self;
       _cache_start := start;
       _cache_rows := rows;
       _cache_size := _cache_size self |}.

Definition data (self : SqliteTableModel) (index : Qt.QModelIndex) (role : Z)
    : py_result (option cell) * SqliteTableModel :=
  if negb (Qt.isValid index) || negb (role =? Qt.DisplayRole)
  then (Return None, self)
  else
    let row := Qt.row index in
    let self := _ensure_cache self row in
    let offset := row - _cache_start self in
    if (offset <? 0) || (offset >=? len (_cache_rows self)) then (Return None, self)
    else
      match _cache_rows self !! Z.to_nat offset with
      | None => (Raise (IndexError "list index out of range"), self)
      | Some record =>
          (py_bind (tuple_getitem record (Qt.column index))
             (fun v => Return (Some v)), self)
      end.

(** *** [DetailTransformTask] *)

(** The two signals of [DetailTransformSignals], with their arguments. *)
Inductive signal : Type :=
| finished (request_id : Z) (display_value : string)
| failed (request_id : Z) (error_message : string).

Definition signal_request_id (s : signal) : Z :=
  match s with finished r _ | failed r _ => r end.

Record DetailTransformTask := {
  _request_id : Z;
  _row_id : Z;
  _row_value : string;
}.

(** [MainWindow.transform_detail_data] as the file has it: the extension
    point is not implemented. *)
Definition transform_detail_data (row_id : Z) (row_value : string)
    : py_result string :=
  Raise (NotImplementedError EmptyString).

Section detail_pipeline.

(** [self._transform_fn]: the window hands its [transform_detail_data] to
    every task, and a deployment overrides that method. *)
Variable transform_fn : Z -> string -> py_result string.

(** [int(s)] on a [str], the built-in. *)
Variable int_of_str : string -> py_result Z.

(** [DetailTransformTask.run]: the signal it emits, or the exception that
    leaves [run] when no clause catches it. *)
Definition run (self : DetailTransformTask) : py_result signal :=
  match transform_fn (_row_id self) (_row_value self) with
  | Return display_value => Return (finished (_request_id self) display_value)
  | Raise exc =>
      if isinstance_NotImplementedError exc
      then Return (finished (_request_id self) (_row_value self))
      else if isinstance_Exception exc
      then Return (failed (_request_id self) (str_exc exc))
      else Raise exc
  end.

(** *** [MainWindow] *)

Record MainWindow := {
  model : SqliteTableModel;
  (** the text shown by the widget [detail_value] *)
  detail_value : string;
  _detail_request_id : Z;
  (** the tasks handed to the pool that have not begun to run *)
  _detail_thread_pool : list DetailTransformTask;
}.

Definition MainWindow_init (db : Sqlite.table) : MainWindow :=
  {| model := SqliteTableModel_init db;
     detail_value := EmptyString;
     _detail_request_id := 0;
     _detail_thread_pool := [] |}.

Definition setPlainText (self : MainWindow) (text : string) : MainWindow :=
  {| model := model self;
     detail_value := text;
     _detail_request_id := _detail_request_id self;
     _detail_thread_pool := _detail_thread_pool self |}.

Definition set_model (self : MainWindow) (m : SqliteTableModel) : MainWindow :=
  {| model := m;
     detail_value := detail_value self;
     _detail_request_id := _detail_request_id self;
     _detail_thread_pool := _detail_thread_pool self |}.

Definition set_request_id (self : MainWindow) (n : Z) : MainWindow :=
  {| model := model self;
     detail_value := detail_value self;
     _detail_request_id := n;
     _detail_thread_pool := _detail_thread_pool self |}.

Definition set_pool (self : MainWindow) (p : list DetailTransformTask) : MainWindow :=
  {| model := model self;
     detail_value := detail_value self;
     _detail_request_id := _detail_request_id self;
     _detail_thread_pool := p |}.

(** [int(row_id)] and [str(row_value)] on what [data] returned. *)
Definition py_int (c : cell) : py_result Z :=
  match c with CellInt n => Return n | CellStr s => int_of_str s end.

Definition py_str (c : cell) : string :=
  match c with CellInt n => pretty n | CellStr s => s end.

(** The slot of [currentRowChanged].  An exception that leaves the slot
    keeps what the slot had done until then. *)
Definition _on_current_row_changed (self : MainWindow) (current : Qt.QModelIndex)
    : MainWindow :=
  let self := set_request_id self (_detail_request_id self + 1) in
  if negb (Qt.isValid current) then setPlainText self EmptyString
  else
    let id_index := index (model self) (Qt.row current) 0 in
    let value_index := index (model self) (Qt.row current) 1 in
    match data (model self) id_index Qt.DisplayRole with
    | (Raise _, m) => set_model self m
    | (Return row_id, m) =>
        match data m value_index Qt.DisplayRole with
        | (Raise _, m) => set_model self m
        | (Return row_value, m) =>
            let self := set_model self m in
            match row_id, row_value with
            | Some row_id, Some row_value =>
                let request_id := _detail_request_id self in
                let self := set_pool self [] in
                match py_int row_id with
                | Raise _ => self
                | Return n =>
                    let task := {| _request_id := request_id;
                                   _row_id := n;
                                   _row_value := py_str row_value |} in
                    set_pool self (_detail_thread_pool self ++ [task])
                end
            | _, _ => self
            end
        end
    end.

Definition _on_detail_ready (self : MainWindow) (request_id : Z)
    (display_value : string) : MainWindow :=
  if negb (request_id =? _detail_request_id self) then self
  else setPlainText self display_value.

Definition _on_detail_failed (self : MainWindow) (request_id : Z)
    (error_message : string) : MainWindow :=
  if negb (request_id =? _detail_request_id self) then self
  else setPlainText self
         ("詳細表示の処理でエラーが発生しました: " ++ error_message)%string.

(** The slot a signal is connected to. *)
Definition deliver (self : MainWindow) (s : signal) : MainWindow :=
  match s with
  | finished r v => _on_detail_ready self r v
  | failed r e => _on_detail_failed self r e
  end.

(** A running session: the window, and the signals that tasks have emitted
    on the worker thread and that wait in the event queue of the window. *)
Record session := {
  window : MainWindow;
  posted : list signal;
}.

Inductive event : Type :=
| EvCurrentRowChanged (current : Qt.QModelIndex)
| EvPoolRunsTask
| EvDeliver (n : nat).

Definition step (s : session) (ev : event) : session :=
  match ev with
  | EvCurrentRowChanged current =>
      {| window := _on_current_row_changed (window s) current;
         posted := posted s |}
  | EvPoolRunsTask =>
      match _detail_thread_pool (window s) with
      | [] => s
      | task :: rest =>
          {| window := set_pool (window s) rest;
             posted := match run task with
                       | Return sig => posted s ++ [sig]
                       | Raise _ => posted s
                       end |}
      end
  | EvDeliver n =>
      match posted s !! n with
      | None => s
      | Some sig =>
          {| window := deliver (window s) sig;
             posted := delete n (posted s) |}
      end
  end.

Definition run_session (s : session) (evs : list event) : session :=
  foldl step s evs.

End detail_pipeline.

End Thread.

(** ** database.py *)

Module Database.

Section ensure_database.

(** [config.BATCH_SIZE]: the module [config] of the package is not among the
    sources; the two single-file versions of the program set 10_000. *)
Variable BATCH_SIZE : Z.

(** The state of the module [random], and [random_text()] drawing from it. *)
Variable rng : Type.
Variable random_text : rng -> string * rng.

(** [[(random_text(),) for _ in range(chunk)]] *)
Fixpoint random_values (n : nat) (g : rng) : list string * rng :=
  match n with
  | O => ([], g)
  | S n' =>
      let '(s, g) := random_text g in
      let '(l, g) := random_values n' g in
      (s :: l, g)
  end.

(** The [while rows_to_insert > 0] loop.  [commits] lists the number of rows
    of every committed batch; the result is [None] when the fuel ends before
    the loop does. *)
Fixpoint insert_loop (fuel : nat) (rows_to_insert : Z) (db : Sqlite.database)
    (commits : list Z) (g : rng) : option (Sqlite.database * list Z * rng) :=
  if rows_to_insert >? 0 then
    match fuel with
    | O => None
    | S fuel' =>
        let chunk := Z.min BATCH_SIZE rows_to_insert in
        let '(values, g) := random_values (Z.to_nat chunk) g in
        let db := Sqlite.executemany db values in
        insert_loop fuel' (rows_to_insert - chunk) db (commits ++ [len values]) g
    end
  else Some (db, commits, g).

(** [ensure_database]: the pragmas and the two [CREATE ... IF NOT EXISTS]
    leave the rows as they are. *)
Definition ensure_database (db : Sqlite.database) (target_rows : Z) (g : rng)
    : option (Sqlite.database * list Z * rng) :=
  let current_rows := Sqlite.select_count (Sqlite.texts db) in
  if current_rows >=? target_rows then Some (db, [], g)
  else
    let rows_to_insert := target_rows - current_rows in
    insert_loop (Z.to_nat rows_to_insert) rows_to_insert db [] g.

End ensure_database.

End Database.

(** ** Invariant, sequences of completions, dense tables *)

(** What every reachable threaded model satisfies: the settings of
    [SqliteTableModel_init], a dict with one entry per key, no more resident
    windows than [_max_cached_chunks], and no pending window in the cache. *)
Definition cache_inv (m : Threaded.SqliteTableModel) : Prop :=
  Threaded._cache_size m = 1000
  /\ Threaded._max_cached_chunks m = 8
  /\ Threaded._headers m = ["id"; "value"]%string
  /\ NoDup (dict_keys (Threaded._chunk_cache m))
  /\ len (Threaded._chunk_cache m) <= 8
  /\ (forall c, c ∈ Threaded._pending_chunks m ->
                c ∉ dict_keys (Threaded._chunk_cache m)).

(** A list of [chunk_loaded] emissions reaching the slot one after the
    other. *)
Definition complete_fetches (m : Threaded.SqliteTableModel)
    (l : list (Z * list record)) : Threaded.SqliteTableModel :=
  foldl (fun m c => Threaded._on_chunk_loaded m c.1 c.2) m l.

(** The table with the keys [first], [first + 1], ... and no gap, [n] rows. *)
Definition dense_table (first n : Z) (v : Z -> string) : list record :=
  (fun k => (k, v k)) <$> seqZ first n.

(** The scenario of three million rows with keys from 1, for any values. *)
Definition table3M (v : Z -> string) : list record := dense_table 1 3000000 v.

(** ** Sample sessions *)

(** A table of three rows and the threaded model over it. *)
Definition three_rows : Sqlite.table :=
  [(1, "alpha"); (2, "beta"); (3, "gamma")]%string.

Definition model3 : Threaded.SqliteTableModel :=
  Threaded.SqliteTableModel_init three_rows.

(** [model3] after the view asked for the value of row 1: window 0 pending. *)
Definition model3_pending : Threaded.SqliteTableModel :=
  (Threaded.data model3 (Threaded.index model3 1 1) Qt.DisplayRole).2.

(** [model3] after a fetch of window 0 delivered one row only. *)
Definition model3_short : Threaded.SqliteTableModel :=
  Threaded._on_chunk_loaded model3_pending 0 [(1, "alpha"%string)].

(** [model3] after eight windows were delivered to the slot, none with
    rows: the cache is full. *)
Definition model3_full : Threaded.SqliteTableModel :=
  Threaded.run model3
    ((fun k => Threaded.EvChunkLoaded (1000 * k) []) <$> seqZ 0 8).

(** A table of five rows. *)
Definition five_rows : list record :=
  three_rows ++ [(4, "delta"); (5, "epsilon")]%string.

(** A session over 9000 rows in which the view asked for a cell of each of
    the nine windows before any fetch came back. *)
Definition table9000 : list record := dense_table 1 9000 (fun _ => "v"%string).

Definition model9000 : Threaded.SqliteTableModel :=
  Threaded.SqliteTableModel_init table9000.

Definition windows9 : list Z := (fun k => 1000 * k) <$> seqZ 0 9.

Definition model9000_requested : Threaded.SqliteTableModel :=
  Threaded.run model9000
    ((fun c => Threaded.EvData (Threaded.index model9000 c 1) Qt.DisplayRole)
       <$> windows9).

(** What the worker emits for the request of window [c]. *)
Definition fetch9000 (c : Z) : Z * list record :=
  (Threaded.load_chunk
     (Threaded.ChunkLoaderWorker_init (Threaded._first_id model9000))
     table9000 c 1000).2.

Definition fetches9 : list (Z * list record) := fetch9000 <$> windows9.

(** A window of the single-window program over the three rows, an
    extension point that fails with an ordinary exception, and the task of
    a selection of row 1. *)
Definition failing_transform (row_id : Z) (row_value : string) : py_result string :=
  Raise (OtherException "boom").

Definition no_int_of_str (s : string) : py_result Z :=
  Raise (OtherException "invalid literal for int()").

Definition window3 : Thread.MainWindow := Thread.MainWindow_init three_rows.

Definition task_of_row_1 : Thread.DetailTransformTask :=
  {| Thread._request_id := 1; Thread._row_id := 2; Thread._row_value := "beta" |}.

(** [window3] after row 1 was selected: the counter is 1. *)
Definition window3_row_1 : Thread.MainWindow :=
  Thread._on_current_row_changed no_int_of_str window3
    (Thread.index (Thread.model window3) 1 0).

(** A generator of values that numbers its draws, and a database file that
    holds the three rows. *)
Definition counting_random_text (g : nat) : string * nat := ("text"%string, S g).

Definition database3 : Sqlite.database :=
  {| Sqlite.texts := three_rows; Sqlite.sqlite_sequence := 3 |}.

(** ** The window of pyside6_sqlite_million_sample_keyset_threaded.py *)

Module ThreadedWindow.

Record MainWindow := {
  model : Threaded.SqliteTableModel;
  (** the text shown by the widget [detail_value] *)
  detail_value : string;
  (** [self.table.currentIndex()] *)
  currentIndex : Qt.QModelIndex;
}.

Definition setPlainText (self : MainWindow) (text : string) : MainWindow :=
  {| model := model self;
     detail_value := text;
     currentIndex := currentIndex self |}.

Definition set_model (self : MainWindow) (m : Threaded.SqliteTableModel)
    : MainWindow :=
  {| model := m;
     detail_value := detail_value self;
     currentIndex := currentIndex self |}.

Section slots.

(** [self.transform_detail_data], the extension point, and [int(s)] on a
    [str]. *)
Variable transform_fn : Z -> string -> py_result string.
Variable int_of_str : string -> py_result Z.

(** The slot of [currentRowChanged].  The [try] catches
    [NotImplementedError] only; any other exception leaves the slot and the
    text stays as it was. *)
Definition _on_current_row_changed (self : MainWindow) (current : Qt.QModelIndex)
    : MainWindow :=
  if negb (Qt.isValid current) then setPlainText self EmptyString
  else
    let id_index := Threaded.index (model self) (Qt.row current) 0 in
    let value_index := Threaded.index (model self) (Qt.row current) 1 in
    match Threaded.data (model self) id_index Qt.DisplayRole with
    | (Raise _, m) => set_model self m
    | (Return row_id, m) =>
        match Threaded.data m value_index Qt.DisplayRole with
        | (Raise _, m) => set_model self m
        | (Return row_value, m) =>
            let self := set_model self m in
            match row_id, row_value with
            | Some row_id, Some row_value =>
                match py_bind (Thread.py_int int_of_str row_id)
                        (fun n => transform_fn n (Thread.py_str row_value)) with
                | Return display_value => setPlainText self display_value
                | Raise exc =>
                    if isinstance_NotImplementedError exc
                    then setPlainText self (Thread.py_str row_value)
                    else self
                end
            | _, _ => setPlainText self "Loading..."
            end
        end
    end.

(** The slot of the model's [dataChanged]. *)
Definition _on_model_data_changed (self : MainWindow)
    (top_left bottom_right : Qt.QModelIndex) : MainWindow :=
  let current := currentIndex self in
  if negb (Qt.isValid current) then self
  else
    let row := Qt.row current in
    if (Qt.row top_left <=? row) && (row <=? Qt.row bottom_right)
    then _on_current_row_changed self current
    else self.

(** The user makes [current] the current index of the table: the view
    records it and emits [currentRowChanged]. *)
Definition select (self : MainWindow) (current : Qt.QModelIndex) : MainWindow :=
  _on_current_row_changed
    {| model := model self;
       detail_value := detail_value self;
       currentIndex := current |} current.

(** A [chunk_loaded] emission reaches the model of the window: the model
    stores the rows, and every [dataChanged] it emits in doing so runs
    [_on_model_data_changed]. *)
Definition chunk_loaded (self : MainWindow) (chunk_start : Z)
    (rows : list record) : MainWindow :=
  let before := length (Threaded.dataChanged (model self)) in
  let m := Threaded._on_chunk_loaded (model self) chunk_start rows in
  foldl (fun w e => _on_model_data_changed w e.1 e.2)
    (set_model self m) (drop before (Threaded.dataChanged m)).

(** [MainWindow.__init__]: the first row is selected when there is one.
    The slot reads the row of the index only. *)
Definition MainWindow_init (db : Sqlite.table) : MainWindow :=
  let self := {| model := Threaded.SqliteTableModel_init db;
                 detail_value := EmptyString;
                 currentIndex := Qt.invalid_index |} in
  if Threaded.rowCount (model self) >? 0
  then select self (Threaded.index (model self) 0 0)
  else self.

End slots.

End ThreadedWindow.

(** ** main_controller.py, with the view of main_window.py

    The model class of sqlite_table_model.py is, statement for statement,
    the [SqliteTableModel] of the single-window file: [Thread.SqliteTableModel]
    stands for both. *)

Module Mvc.

Record MainController := {
  model : Thread.SqliteTableModel;
  (** the text shown by [view.detail_value] *)
  detail_value : string;
}.

(** [view.set_detail_text] and [view.clear_detail_text] *)
Definition set_detail_text (self : MainController) (text : string)
    : MainController :=
  {| model := model self; detail_value := text |}.

Definition clear_detail_text (self : MainController) : MainController :=
  set_detail_text self EmptyString.

Definition set_model (self : MainController) (m : Thread.SqliteTableModel)
    : MainController :=
  {| model := m; detail_value := detail_value self |}.

(** [view.get_row_data_indexes] *)
Definition get_row_data_indexes (self : MainController) (row : Z)
    : Qt.QModelIndex * Qt.QModelIndex :=
  (Thread.index (model self) row 0, Thread.index (model self) row 1).

Section controller.

Variable transform_fn : Z -> string -> py_result string.
Variable int_of_str : string -> py_result Z.

(** [int(x)] and [str(x)] on what [data] returned, [None] included.  The
    [TypeError] of [int(None)] is an [Exception] that is not a
    [NotImplementedError]: it stands as an [OtherException]. *)
Definition py_int (o : option cell) : py_result Z :=
  match o with
  | None =>
      Raise (OtherException
               "int() argument must be a string, a bytes-like object or a real number, not 'NoneType'")
  | Some c => Thread.py_int int_of_str c
  end.

Definition py_str (o : option cell) : string :=
  match o with
  | None => "None"
  | Some c => Thread.py_str c
  end.

(** [on_current_row_changed]: the exception that leaves the handler, if
    any, and the controller after it. *)
Definition on_current_row_changed (self : MainController)
    (current : Qt.QModelIndex) : py_result unit * MainController :=
  if negb (Qt.isValid current) then (Return tt, clear_detail_text self)
  else
    let '(id_index, value_index) := get_row_data_indexes self (Qt.row current) in
    match Thread.data (model self) id_index Qt.DisplayRole with
    | (Raise e, m) => (Raise e, set_model self m)
    | (Return row_id, m) =>
        match Thread.data m value_index Qt.DisplayRole with
        | (Raise e, m) => (Raise e, set_model self m)
        | (Return row_value, m) =>
            let self := set_model self m in
            match py_bind (py_int row_id)
                    (fun n => transform_fn n (py_str row_value)) with
            | Return display_value => (Return tt, set_detail_text self display_value)
            | Raise exc =>
                if isinstance_NotImplementedError exc
                then (Return tt, set_detail_text self (py_str row_value))
                else (Raise exc, self)
            end
        end
    end.

(** [MainController.__init__] with [view.select_first_row_if_available]. *)
Definition MainController_init (db : Sqlite.table)
    : py_result unit * MainController :=
  let self := {| model := Thread.SqliteTableModel_init db;
                 detail_value := EmptyString |} in
  if Thread.rowCount (model self) >? 0
  then on_current_row_changed self (Thread.index (model self) 0 0)
  else (Return tt, self).

End controller.

End Mvc.

(** ** Sessions of the models *)

(** A [chunk_loaded] emission as the worker makes them: the rows are what
    [load_chunk] read, from whatever the table held then, for the window
    size of the model. *)
Definition served (ev : Threaded.event) : Prop :=
  match ev with
  | Threaded.EvData _ _ => True
  | Threaded.EvChunkLoaded c rows =>
      exists w db, rows = (Threaded.load_chunk w db c 1000).2.2
  end.

(** The number of records the cache holds. *)
Definition cached_records (m : Threaded.SqliteTableModel) : Z :=
  foldr (fun kv n => len kv.2 + n) 0 (Threaded._chunk_cache m).

(** A synchronous model after a list of cell requests, each for an index
    the model built itself. *)
Definition sync_requests (m : Thread.SqliteTableModel)
    (calls : list (Z * Z * Z)) : Thread.SqliteTableModel :=
  foldl (fun m c => (Thread.data m (Thread.index m c.1.1 c.1.2) c.2).2) m calls.

(** The number of selection changes among the events of a session. *)
Definition is_selection_change (ev : Thread.event) : bool :=
  match ev with
  | Thread.EvCurrentRowChanged _ => true
  | _ => false
  end.

Definition selection_changes (evs : list Thread.event) : Z :=
  len (filter (fun ev => is_selection_change ev = true) evs).

(** What every request a reachable model has emitted satisfies, and what
    every pending window does. *)
Definition request_inv (m : Threaded.SqliteTableModel) : Prop :=
  Forall (fun rq => rq.2 = 1000 /\ 0 <= rq.1 < Threaded._row_count m
                    /\ rq.1 `mod` 1000 = 0)
    (Threaded.request_chunk m)
  /\ (forall c, c ∈ Threaded._pending_chunks m ->
                (c, 1000) ∈ Threaded.request_chunk m).

(** What a synchronous model over the dense table [dense_table first n v]
    satisfies: the snapshot of the construction, and a cache that is empty
    or holds the rows of the table from [_cache_start] on. *)
Definition sync_inv (first n : Z) (v : Z -> string)
    (m : Thread.SqliteTableModel) : Prop :=
  Thread.conn m = dense_table first n v
  /\ Thread._row_count m = n
  /\ Thread._first_id m = first
  /\ Thread._cache_size m = 1000
  /\ Thread._headers m = ["id"; "value"]%string
  /\ (Thread._cache_rows m = []
      \/ (0 <= Thread._cache_start m <= n
          /\ Thread._cache_rows m
             = dense_table (first + Thread._cache_start m)
                 (Z.min 1000 (n - Thread._cache_start m)) v)).

(** A synchronous model that counted three rows, after the table lost
    them; the controller and the window over it. *)
Definition emptied_model : Thread.SqliteTableModel :=
  {| Thread.conn := [];
     Thread._row_count := 3;
     Thread._first_id := 1;
     Thread._headers := ["id"; "value"]%string;
     Thread._cache_start := -1;
     Thread._cache_rows := [];
     Thread._cache_size := 1000 |}.

Definition emptied_controller : Mvc.MainController :=
  {| Mvc.model := emptied_model; Mvc.detail_value := "shown before" |}.

Definition emptied_window : Thread.MainWindow :=
  {| Thread.model := emptied_model;
     Thread.detail_value := "shown before";
     Thread._detail_request_id := 4;
     Thread._detail_thread_pool := [] |}.

(** A database file whose table holds the keys 1 to [k] without a gap and
    whose [AUTOINCREMENT] counter stands at [k]: what inserts alone leave. *)
Definition dense_db (k : Z) (db : Sqlite.database) : Prop :=
  0 <= k
  /\ (Sqlite.texts db).*1 = seqZ 1 k
  /\ Sqlite.sqlite_sequence db = k.

(** A database file that was just created. *)
Definition fresh_database : Sqlite.database :=
  {| Sqlite.texts := []; Sqlite.sqlite_sequence := 0 |}.

(** What every session of the single-window program satisfies: at most one
    task waits in the pool, and no task and no signal carries a tag beyond
    the counter. *)
Definition session_inv (s : Thread.session) : Prop :=
  0 <= Thread._detail_request_id (Thread.window s)
  /\ (length (Thread._detail_thread_pool (Thread.window s)) <= 1)%nat
  /\ Forall (fun t => 1 <= Thread._request_id t
                      <= Thread._detail_request_id (Thread.window s))
       (Thread._detail_thread_pool (Thread.window s))
  /\ Forall (fun sig => 1 <= Thread.signal_request_id sig
                        <= Thread._detail_request_id (Thread.window s))
       (Thread.posted s).

(** * Properties *)

(** ** The dict model *)

Section dict_facts.
Context {V : Type}.
Implicit Types (d : dict V) (k : Z) (v : V).

Lemma dict_get_app k d1 d2 :
  dict_get k (d1 ++ d2) =
  match dict_get k d1 with Some v => Some v | None => dict_get k d2 end.
Proof.
  induction d1 as [|[k' v'] d1 IH]; simpl; [done|].
  destruct (k' =? k); [done|apply IH].
Qed.

Lemma dict_get_None k d : dict_get k d = None <-> k ∉ dict_keys d.
Proof.
  unfold dict_keys. induction d as [|[k' v'] d IH]; simpl.
  - split; [intros _; apply not_elem_of_nil|done].
  - rewrite not_elem_of_cons. destruct (Z.eqb_spec k' k) as [->|Hne].
    + split; [done|intros [? _]; done].
    + rewrite IH. split; [intros ?; split; [congruence|done]|intros [_ ?]; done].
Qed.

Lemma dict_get_Some k v d :
  NoDup (dict_keys d) -> dict_get k d = Some v <-> (k, v) ∈ d.
Proof.
  unfold dict_keys. induction d as [|[k' v'] d IH]; simpl; intros Hnd.
  - split; [done|intros H; by apply elem_of_nil in H].
  - apply NoDup_cons in Hnd as [Hk' Hnd]. rewrite elem_of_cons.
    destruct (Z.eqb_spec k' k) as [->|Hne].
    + split; [intros [= ->]; by left|].
      intros [[= ->]|Hin]; [done|].
      exfalso. apply Hk'. apply list_elem_of_fmap. by exists (k, v).
    + rewrite (IH Hnd). split; [by right|].
      intros [[= -> _]|Hin]; [done|done].
Qed.

Lemma dict_contains_true k d : dict_contains k d = true <-> k ∈ dict_keys d.
Proof.
  unfold dict_contains. destruct (dict_get k d) eqn:E.
  - split; [intros _|done].
    destruct (decide (k ∈ dict_keys d)) as [|Hn]; [done|].
    apply dict_get_None in Hn. congruence.
  - apply dict_get_None in E. split; [done|intros; contradiction].
Qed.

Lemma dict_setitem_old k v d :
  k ∈ dict_keys d -> dict_keys (dict_setitem k v d) = dict_keys d.
Proof.
  unfold dict_keys. induction d as [|[k' v'] d IH]; simpl; intros Hin.
  - by apply elem_of_nil in Hin.
  - destruct (Z.eqb_spec k' k) as [->|Hne]; [done|].
    simpl. f_equal. apply IH. apply elem_of_cons in Hin as [?|?]; [congruence|done].
Qed.

Lemma dict_setitem_new k v d :
  k ∉ dict_keys d -> dict_setitem k v d = d ++ [(k, v)].
Proof.
  unfold dict_keys. induction d as [|[k' v'] d IH]; simpl; intros Hin; [done|].
  apply not_elem_of_cons in Hin as [Hne Hin].
  destruct (Z.eqb_spec k' k) as [->|_]; [done|]. by rewrite IH.
Qed.

Lemma dict_setitem_length_old k v d :
  k ∈ dict_keys d -> length (dict_setitem k v d) = length d.
Proof.
  intros Hin. rewrite <- (length_fmap fst (dict_setitem k v d)).
  fold (dict_keys (dict_setitem k v d)). rewrite (dict_setitem_old _ _ _ Hin).
  unfold dict_keys. by rewrite length_fmap.
Qed.

Lemma dict_setitem_NoDup k v d :
  NoDup (dict_keys d) -> NoDup (dict_keys (dict_setitem k v d)).
Proof.
  intros Hnd. destruct (decide (k ∈ dict_keys d)) as [Hin|Hin].
  - by rewrite dict_setitem_old.
  - rewrite dict_setitem_new by done. unfold dict_keys in *.
    rewrite fmap_app. simpl. apply NoDup_app. split; [done|].
    split; [|apply NoDup_singleton].
    intros x Hx Hx'. apply list_elem_of_singleton in Hx'. by subst.
Qed.

Lemma dict_get_setitem k v d : dict_get k (dict_setitem k v d) = Some v.
Proof.
  induction d as [|[k' v'] d IH]; simpl.
  - by rewrite Z.eqb_refl.
  - destruct (Z.eqb_spec k' k) as [->|Hne]; simpl.
    + by rewrite Z.eqb_refl.
    + destruct (Z.eqb_spec k' k); [done|apply IH].
Qed.

(** Deleting the first key of a dict leaves the entries after it. *)
Lemma dict_delitem_first k v d :
  NoDup (dict_keys ((k, v) :: d)) -> dict_delitem k ((k, v) :: d) = d.
Proof.
  unfold dict_keys, dict_delitem. simpl. intros [Hk _]%NoDup_cons.
  rewrite filter_cons_False by (simpl; intros H; by apply H).
  induction d as [|[k' v'] d IH]; [done|].
  simpl in Hk. apply not_elem_of_cons in Hk as [Hne Hk].
  rewrite filter_cons_True by (simpl; congruence). by rewrite IH.
Qed.

End dict_facts.

(** ** The queries on a table with dense keys *)

Section dense_tables.
Implicit Types (first n s lim : Z) (v : Z -> string).

Lemma dense_table_length first n v : length (dense_table first n v) = Z.to_nat n.
Proof. unfold dense_table. by rewrite length_fmap, length_seqZ. Qed.

Lemma dense_table_cons first n v :
  0 < n ->
  dense_table first n v = (first, v first) :: dense_table (first + 1) (n - 1) v.
Proof.
  intros Hn. unfold dense_table. rewrite seqZ_cons by done.
  by replace (Z.succ first) with (first + 1) by lia.
Qed.

Lemma dense_table_nil first n v : n <= 0 -> dense_table first n v = [].
Proof. intros Hn. unfold dense_table. by rewrite seqZ_nil. Qed.

Lemma dense_table_app first n1 n2 v :
  0 <= n1 -> 0 <= n2 ->
  dense_table first (n1 + n2) v
  = dense_table first n1 v ++ dense_table (first + n1) n2 v.
Proof.
  intros H1 H2. unfold dense_table. by rewrite seqZ_app, fmap_app.
Qed.

Lemma dense_table_keys first n v :
  (dense_table first n v).*1 = seqZ first n.
Proof.
  unfold dense_table. rewrite <- list_fmap_compose.
  rewrite <- (list_fmap_id (seqZ first n)) at 2. by apply list_fmap_ext.
Qed.

Lemma dense_table_Forall first n v (P : record -> Prop) :
  (forall k, first <= k < first + n -> P (k, v k)) ->
  Forall P (dense_table first n v).
Proof.
  intros H. unfold dense_table. apply Forall_fmap, Forall_seqZ.
  intros k Hk. by apply H.
Qed.

Lemma dense_table_lookup first n v (i : nat) :
  Z.of_nat i < n ->
  dense_table first n v !! i = Some (first + Z.of_nat i, v (first + Z.of_nat i)).
Proof.
  intros Hi. unfold dense_table. by rewrite list_lookup_fmap, lookup_seqZ_lt.
Qed.

Lemma select_count_dense first n v :
  0 <= n -> Sqlite.select_count (dense_table first n v) = n.
Proof.
  intros Hn. unfold Sqlite.select_count, len. rewrite dense_table_length. lia.
Qed.

Lemma foldr_min_lower_bound (l : list record) a :
  Forall (fun r => a <= r.1) l -> foldr (fun r m => Z.min r.1 m) a l = a.
Proof. induction 1 as [|r l Hr _ IH]; simpl; [done|]. rewrite IH. lia. Qed.

Lemma select_min_id_dense first n v :
  0 < n -> Sqlite.select_min_id (dense_table first n v) = Some first.
Proof.
  intros Hn. rewrite dense_table_cons by done. simpl. f_equal.
  apply foldr_min_lower_bound, dense_table_Forall. simpl. lia.
Qed.

Lemma filter_Forall_id {A} (P : A -> Prop) `{!forall x, Decision (P x)} (l : list A) :
  Forall P l -> filter P l = l.
Proof.
  induction 1 as [|x l Hx _ IH]; [done|].
  by rewrite filter_cons_True, IH.
Qed.

Lemma filter_Forall_nil {A} (P : A -> Prop) `{!forall x, Decision (P x)} (l : list A) :
  Forall (fun x => ~ P x) l -> filter P l = [].
Proof.
  induction 1 as [|x l Hx _ IH]; [done|].
  by rewrite filter_cons_False, IH.
Qed.

(** [WHERE id >= s] keeps the rows from key [s] on. *)
Lemma filter_dense first n s v :
  first <= s <= first + n ->
  filter (fun r : record => s <= r.1) (dense_table first n v)
  = dense_table s (first + n - s) v.
Proof.
  intros Hs.
  replace n with ((s - first) + (first + n - s)) at 1 by lia.
  rewrite dense_table_app by lia. rewrite filter_app.
  rewrite filter_Forall_nil, filter_Forall_id.
  - simpl. by replace (first + (s - first)) with s by lia.
  - apply dense_table_Forall. simpl. lia.
  - apply dense_table_Forall. simpl. lia.
Qed.

(** A dense table is in the order of its keys already. *)
Lemma order_by_id_dense s n v :
  Sqlite.order_by_id (dense_table s n v) = dense_table s n v.
Proof.
  destruct (decide (n <= 0)) as [Hn|Hn]; [by rewrite dense_table_nil|].
  rewrite <- (Z2Nat.id n) by lia. generalize (Z.to_nat n) as k. clear n Hn.
  intros k. revert s. induction k as [|k IH]; intros s.
  - by rewrite dense_table_nil.
  - rewrite dense_table_cons by lia.
    replace (Z.of_nat (S k) - 1) with (Z.of_nat k) by lia.
    unfold Sqlite.order_by_id in *. simpl. rewrite IH.
    destruct k as [|k]; [by rewrite dense_table_nil|].
    rewrite dense_table_cons by lia. simpl.
    by destruct (Z.leb_spec s (s + 1)); [|lia].
Qed.

Lemma limit_dense s n lim v :
  0 <= lim -> Sqlite.limit lim (dense_table s n v) = dense_table s (Z.min lim n) v.
Proof.
  intros Hlim. unfold Sqlite.limit.
  destruct (Z.ltb_spec lim 0) as [?|_]; [lia|].
  destruct (decide (lim <= n)) as [Hle|Hgt].
  - replace n with (lim + (n - lim)) at 1 by lia.
    rewrite dense_table_app by lia. rewrite take_app_length'.
    + by rewrite Z.min_l.
    + by rewrite dense_table_length.
  - rewrite take_ge by (rewrite dense_table_length; lia).
    by rewrite Z.min_r by lia.
Qed.

(** The keyset query on a dense table: the [lim] rows from key [s] on, or
    those that are left. *)
Lemma select_from_dense first n s lim v :
  first <= s <= first + n -> 0 <= lim ->
  Sqlite.select_from (dense_table first n v) s lim
  = dense_table s (Z.min lim (first + n - s)) v.
Proof.
  intros Hs Hlim. unfold Sqlite.select_from.
  by rewrite filter_dense, order_by_id_dense, limit_dense.
Qed.

End dense_tables.

(** ** The threaded model: cell requests *)

Section threaded_data.
Import Threaded.
Implicit Types (m : SqliteTableModel) (i : Qt.QModelIndex).

(** [_request_chunk] and [data] touch neither the cache nor the settings. *)
Lemma request_chunk_cache m c :
  _chunk_cache (_request_chunk m c) = _chunk_cache m.
Proof.
  unfold _request_chunk.
  destruct (_ || _); [done|]. by destruct (_ || _).
Qed.

Lemma data_cache m i role :
  _chunk_cache (data m i role).2 = _chunk_cache m.
Proof.
  unfold data. destruct (_ || _); [done|].
  destruct (py_floordiv _ _) as [q|e]; [|done]. simpl.
  destruct (dict_get _ _) as [rows|]; simpl.
  - destruct (_ || _); [done|]. by destruct (rows !! _).
  - apply request_chunk_cache.
Qed.

Lemma request_chunk_noop m c :
  c ∈ _pending_chunks m \/ dict_contains c (_chunk_cache m) = true ->
  _request_chunk m c = m.
Proof.
  intros H. unfold _request_chunk.
  destruct H as [H|H].
  - by rewrite bool_decide_eq_true_2.
  - rewrite H. by rewrite orb_true_r.
Qed.

Lemma data_noop m i role :
  Qt.row i / _cache_size m * _cache_size m ∈ _pending_chunks m
  \/ dict_contains (Qt.row i / _cache_size m * _cache_size m) (_chunk_cache m) = true ->
  (data m i role).2 = m.
Proof.
  intros H. unfold data. destruct (_ || _); [done|].
  unfold py_floordiv. destruct (_ =? 0); [done|]. simpl.
  destruct (dict_get _ _) as [rows|]; simpl.
  - destruct (_ || _); [done|]. by destruct (rows !! _).
  - by apply request_chunk_noop.
Qed.

End threaded_data.

(** C2. While a window is pending or cached, [_request_chunk] for it does
    nothing, and no sequence of [data] calls for positions of that window
    changes the model: the list of emitted fetch requests, the pending set
    and the cache stay as they were, so no second request is enqueued. *)
Theorem C2_no_duplicate_fetch (m : Threaded.SqliteTableModel) (chunk_start : Z)
    (calls : list (Qt.QModelIndex * Z)) :
  chunk_start ∈ Threaded._pending_chunks m
    \/ dict_contains chunk_start (Threaded._chunk_cache m) = true ->
  Forall (fun c => Qt.row c.1 / Threaded._cache_size m * Threaded._cache_size m
                   = chunk_start) calls ->
  Threaded._request_chunk m chunk_start = m
  /\ Threaded.run m ((fun c => Threaded.EvData c.1 c.2) <$> calls) = m
  /\ Threaded.request_chunk
       (Threaded.run m ((fun c => Threaded.EvData c.1 c.2) <$> calls))
     = Threaded.request_chunk m.
Proof.
  intros Hin Hcalls.
  assert (Hrun : Threaded.run m ((fun c => Threaded.EvData c.1 c.2) <$> calls) = m).
  { induction Hcalls as [|[i role] calls Hc _ IH]; [done|].
    simpl in *. unfold Threaded.run in *. simpl.
    rewrite data_noop; [exact IH|]. by rewrite Hc. }
  split; [by apply request_chunk_noop|]. split; [done|by rewrite Hrun].
Qed.

Lemma C2_no_duplicate_fetch_witness :
  Threaded.request_chunk model3_pending = [(0, 1000)]
  /\ Threaded._request_chunk model3_pending 0 = model3_pending
  /\ Threaded.run model3_pending
       ((fun c => Threaded.EvData c.1 c.2) <$>
          [(Threaded.index model3 0 1, Qt.DisplayRole);
           (Threaded.index model3 2 0, Qt.DisplayRole)]) = model3_pending
  /\ Threaded.request_chunk
       (Threaded.run model3_pending
          ((fun c => Threaded.EvData c.1 c.2) <$>
             [(Threaded.index model3 0 1, Qt.DisplayRole);
              (Threaded.index model3 2 0, Qt.DisplayRole)]))
     = Threaded.request_chunk model3_pending.
Proof.
  split; [reflexivity|].
  apply (C2_no_duplicate_fetch model3_pending 0).
  - left. refine (bool_decide_unpack _ _). vm_compute. exact I.
  - repeat constructor.
Defined.

(** C10. When the window of a position is cached and holds fewer rows than
    the offset of the position in it, [data] returns [None], raises nothing
    and leaves the model as it was. *)
Theorem C10_short_window_absent (m : Threaded.SqliteTableModel)
    (i : Qt.QModelIndex) (role : Z) (rows : list record) :
  Threaded._cache_size m <> 0 ->
  dict_get (Qt.row i / Threaded._cache_size m * Threaded._cache_size m)
    (Threaded._chunk_cache m) = Some rows ->
  len rows <= Qt.row i - Qt.row i / Threaded._cache_size m * Threaded._cache_size m ->
  Threaded.data m i role = (Return None, m).
Proof.
  intros Hsz Hget Hshort. unfold Threaded.data.
  destruct (_ || _); [done|].
  unfold py_floordiv. destruct (Z.eqb_spec (Threaded._cache_size m) 0); [done|].
  simpl. rewrite Hget.
  assert (E : (Qt.row i - Qt.row i / Threaded._cache_size m * Threaded._cache_size m
               >=? len rows) = true) by lia.
  rewrite E. by rewrite orb_true_r.
Qed.

Lemma C10_short_window_absent_witness :
  Threaded.data model3_short (Threaded.index model3_short 2 1) Qt.DisplayRole
  = (Return None, model3_short).
Proof.
  apply (C10_short_window_absent model3_short _ _ [(1, "alpha"%string)]).
  - vm_compute. discriminate.
  - reflexivity.
  - vm_compute. discriminate.
Defined.

(** C9, as the claim has it, fails: in a model of three rows the request for
    row 5 does not raise [AssertionError]; it returns [None]. *)
Lemma C9_counterexample :
  ~ (Threaded.rowCount model3 <= 5 ->
     exists msg,
       (Threaded.data model3 (Threaded.index model3 5 1) Qt.DisplayRole).1
       = Raise (AssertionError msg)).
Proof.
  intros H. destruct H as [msg H]; [vm_compute; discriminate|].
  vm_compute in H. discriminate.
Qed.

(** C9, amended. For a row position at or beyond [rowCount] the index the
    model builds is invalid; [data] on it returns [None], raises nothing and
    leaves the model unchanged, so no fetch is requested.  [_request_chunk]
    ignores every window start outside the table. *)
Theorem C9_out_of_range_absent (m : Threaded.SqliteTableModel) (p c role : Z) :
  Threaded.rowCount m <= p ->
  Qt.isValid (Threaded.index m p c) = false
  /\ Threaded.data m (Threaded.index m p c) role = (Return None, m)
  /\ Threaded._request_chunk m p = m.
Proof.
  intros Hp. unfold Threaded.index, Qt.index.
  assert (E : (p <? Threaded.rowCount m) = false) by lia.
  rewrite E, andb_false_r. simpl. split; [done|]. split; [done|].
  unfold Threaded._request_chunk. destruct (_ || _); [done|].
  unfold Threaded.rowCount in Hp.
  assert (E' : (p >=? Threaded._row_count m) = true) by lia.
  by rewrite E', orb_true_r.
Qed.

Lemma C9_out_of_range_absent_witness :
  Qt.isValid (Threaded.index model3 5 1) = false
  /\ Threaded.data model3 (Threaded.index model3 5 1) Qt.DisplayRole
     = (Return None, model3)
  /\ Threaded._request_chunk model3 5 = model3.
Proof.
  apply (C9_out_of_range_absent model3 5 1 Qt.DisplayRole).
  vm_compute. discriminate.
Defined.

(** ** The threaded model: fetch completion and eviction *)

Section threaded_cache.
Import Threaded.
Implicit Types (m : SqliteTableModel) (d : dict (list record)).

Lemma evict_oldest_noop max c d : len d <= max -> evict_oldest max c d = d.
Proof.
  intros H. destruct d as [|[k v] d]; [done|]. simpl.
  assert (E : (len ((k, v) :: d) >? max) = false) by lia.
  by rewrite E.
Qed.

(** The loop removes a prefix of the dict, and never the window just stored. *)
Lemma evict_oldest_suffix max c d :
  exists evicted, d = evicted ++ evict_oldest max c d /\ c ∉ dict_keys evicted.
Proof.
  induction d as [|[k v] d IH].
  - exists []. split; [done|apply not_elem_of_nil].
  - simpl. destruct (len ((k, v) :: d) >? max).
    + destruct (Z.eqb_spec k c) as [->|Hne].
      * exists []. split; [done|apply not_elem_of_nil].
      * destruct IH as (ev & Heq & Hnin). exists ((k, v) :: ev). split.
        -- simpl. by rewrite <- Heq.
        -- unfold dict_keys in *. simpl. apply not_elem_of_cons. split; [congruence|done].
    + exists []. split; [done|apply not_elem_of_nil].
Qed.

(** After a new key was appended the loop is FIFO: it drops just as many of
    the oldest entries as exceed the capacity. *)
Lemma evict_oldest_new max c rows d :
  1 <= max -> c ∉ dict_keys d ->
  evict_oldest max c (d ++ [(c, rows)])
  = drop (Z.to_nat (len d + 1 - max)) (d ++ [(c, rows)]).
Proof.
  intros Hmax. unfold dict_keys, len. induction d as [|[k v] d IH]; intros Hnin.
  - cbn [app evict_oldest].
    destruct (Z.gtb_spec (len [(c, rows)]) max) as [Hgt|Hle].
    + unfold len in Hgt. simpl in Hgt. lia.
    + simpl. by replace (Z.to_nat _) with 0%nat by lia.
  - simpl in Hnin. apply not_elem_of_cons in Hnin as [Hne Hnin].
    cbn [app evict_oldest]. unfold len.
    destruct (Z.gtb_spec (Z.of_nat (length ((k, v) :: d ++ [(c, rows)]))) max) as [Hgt|Hle].
    + destruct (Z.eqb_spec k c) as [->|_]; [done|].
      rewrite IH by done. rewrite length_cons, length_app in Hgt. simpl in Hgt.
      rewrite length_cons.
      replace (Z.to_nat (Z.of_nat (S (length d)) + 1 - max))
        with (S (Z.to_nat (Z.of_nat (length d) + 1 - max))) by lia.
      done.
    + rewrite length_cons, length_app in Hle. simpl in Hle. rewrite length_cons.
      by replace (Z.to_nat (Z.of_nat (S (length d)) + 1 - max)) with 0%nat by lia.
Qed.

Lemma on_chunk_loaded_cache m c rows :
  _chunk_cache (_on_chunk_loaded m c rows)
  = evict_oldest (_max_cached_chunks m) c (dict_setitem c rows (_chunk_cache m)).
Proof. unfold _on_chunk_loaded. by destruct rows. Qed.

(** The window just delivered is in the cache when the slot returns. *)
Lemma on_chunk_loaded_resident m c rows :
  dict_get c (_chunk_cache (_on_chunk_loaded m c rows)) = Some rows.
Proof.
  rewrite on_chunk_loaded_cache.
  destruct (evict_oldest_suffix (_max_cached_chunks m) c
              (dict_setitem c rows (_chunk_cache m))) as (ev & Heq & Hev).
  pose proof (dict_get_setitem c rows (_chunk_cache m)) as Hget.
  rewrite Heq, dict_get_app in Hget.
  apply dict_get_None in Hev. by rewrite Hev in Hget.
Qed.

Lemma on_chunk_loaded_pending m c rows :
  _pending_chunks (_on_chunk_loaded m c rows) = _pending_chunks m ∖ {[c]}.
Proof. unfold _on_chunk_loaded. by destruct rows. Qed.

Lemma on_chunk_loaded_settings m c rows :
  _cache_size (_on_chunk_loaded m c rows) = _cache_size m
  /\ _max_cached_chunks (_on_chunk_loaded m c rows) = _max_cached_chunks m
  /\ _headers (_on_chunk_loaded m c rows) = _headers m
  /\ _row_count (_on_chunk_loaded m c rows) = _row_count m
  /\ _first_id (_on_chunk_loaded m c rows) = _first_id m.
Proof. unfold _on_chunk_loaded. by destruct rows. Qed.

Lemma request_chunk_cases m c :
  _request_chunk m c = m
  \/ (dict_contains c (_chunk_cache m) = false
      /\ _request_chunk m c
         = emit_request_chunk
             (set_cache m ({[c]} ∪ _pending_chunks m) (_chunk_cache m))
             c (_cache_size m)).
Proof.
  unfold _request_chunk.
  destruct (bool_decide _); [by left|].
  destruct (dict_contains c _); [by left|]. simpl.
  destruct (_ || _); [by left|]. by right.
Qed.

Lemma data_cases m i role :
  (data m i role).2 = m
  \/ exists c, (data m i role).2 = _request_chunk m c.
Proof.
  unfold data. destruct (_ || _); [by left|].
  destruct (py_floordiv _ _) as [q|e]; [|by left]. simpl.
  destruct (dict_get _ _) as [rows|]; simpl.
  - destruct (_ || _); [by left|]. destruct (rows !! _); by left.
  - right. by eexists.
Qed.

Lemma cache_inv_init db : cache_inv (SqliteTableModel_init db).
Proof.
  unfold cache_inv. simpl. repeat split; try done.
  apply NoDup_nil_2.
Qed.

Lemma cache_inv_request_chunk m c : cache_inv m -> cache_inv (_request_chunk m c).
Proof.
  intros Hinv. destruct (request_chunk_cases m c) as [->|[Hc ->]]; [done|].
  destruct Hinv as (H1 & H2 & H3 & H4 & H5 & H6).
  unfold cache_inv. simpl. repeat split; try done.
  intros c' [Hc'|Hc']%elem_of_union; [|by apply H6].
  apply elem_of_singleton in Hc'. subst c'.
  intros Hin%dict_contains_true. congruence.
Qed.

Lemma cache_inv_data m i role : cache_inv m -> cache_inv (data m i role).2.
Proof.
  intros Hinv. destruct (data_cases m i role) as [->|[c ->]]; [done|].
  by apply cache_inv_request_chunk.
Qed.

Lemma NoDup_keys_suffix d1 d2 :
  NoDup (dict_keys (d1 ++ d2)) -> NoDup (dict_keys d2).
Proof. unfold dict_keys. rewrite fmap_app. by intros (_ & _ & ?)%NoDup_app. Qed.

Lemma cache_inv_on_chunk_loaded m c rows :
  cache_inv m -> cache_inv (_on_chunk_loaded m c rows).
Proof.
  intros (H1 & H2 & H3 & H4 & H5 & H6).
  destruct (on_chunk_loaded_settings m c rows) as (E1 & E2 & E3 & _).
  unfold cache_inv. rewrite E1, E2, E3, on_chunk_loaded_cache, on_chunk_loaded_pending, H2.
  destruct (evict_oldest_suffix 8 c (dict_setitem c rows (_chunk_cache m)))
    as (ev & Heq & Hev).
  pose proof (dict_setitem_NoDup c rows _ H4) as Hnd.
  repeat split; try done.
  - rewrite Heq in Hnd. by apply NoDup_keys_suffix in Hnd.
  - destruct (decide (c ∈ dict_keys (_chunk_cache m))) as [Hin|Hnin].
    + rewrite evict_oldest_noop; unfold len; rewrite dict_setitem_length_old; done.
    + rewrite dict_setitem_new by done. rewrite evict_oldest_new by (done || lia).
      unfold len in *. rewrite length_drop, length_app. simpl. lia.
  - intros c' [Hc' Hne]%elem_of_difference Hin.
    assert (c' ∈ dict_keys (dict_setitem c rows (_chunk_cache m))) as Hin'.
    { rewrite Heq. unfold dict_keys. rewrite fmap_app. apply elem_of_app. by right. }
    destruct (decide (c ∈ dict_keys (_chunk_cache m))) as [Hc|Hc].
    + rewrite dict_setitem_old in Hin' by done. by apply (H6 c').
    + rewrite dict_setitem_new in Hin' by done. unfold dict_keys in Hin'.
      rewrite fmap_app in Hin'. apply elem_of_app in Hin' as [Hin'|Hin'].
      * by apply (H6 c').
      * simpl in Hin'. apply list_elem_of_singleton in Hin'. set_solver.
Qed.

Lemma cache_inv_step m ev : cache_inv m -> cache_inv (step m ev).
Proof.
  destruct ev as [i role|c rows]; simpl.
  - apply cache_inv_data.
  - apply cache_inv_on_chunk_loaded.
Qed.

Lemma cache_inv_run m evs : cache_inv m -> cache_inv (run m evs).
Proof.
  unfold run. revert m. induction evs as [|ev evs IH]; intros m Hinv; [done|].
  simpl. apply IH. by apply cache_inv_step.
Qed.

Lemma reachable_cache_inv m : reachable m -> cache_inv m.
Proof. intros (db & evs & ->). apply cache_inv_run, cache_inv_init. Qed.

End threaded_cache.

(** C3. In every state a model can reach, when a fetch completion has
    settled the cache holds at most [_max_cached_chunks] = 8 windows, the
    window just delivered is resident with the rows delivered, and what was
    evicted is a prefix of the dict in insertion order, the oldest entries,
    which does not contain the window just delivered. *)
Theorem C3_eviction_bound (m : Threaded.SqliteTableModel) (chunk_start : Z)
    (rows : list record) :
  Threaded.reachable m ->
  let m' := Threaded._on_chunk_loaded m chunk_start rows in
  Threaded._max_cached_chunks m' = 8
  /\ len (Threaded._chunk_cache m') <= Threaded._max_cached_chunks m'
  /\ dict_get chunk_start (Threaded._chunk_cache m') = Some rows
  /\ exists evicted,
       dict_setitem chunk_start rows (Threaded._chunk_cache m)
       = evicted ++ Threaded._chunk_cache m'
       /\ chunk_start ∉ dict_keys evicted.
Proof.
  intros Hreach m'.
  pose proof (reachable_cache_inv _ Hreach) as Hinv.
  pose proof (cache_inv_on_chunk_loaded m chunk_start rows Hinv)
    as (_ & Hmax & _ & _ & Hlen & _).
  fold m' in Hmax, Hlen. split; [done|]. split; [by rewrite Hmax|].
  subst m'. split; [apply on_chunk_loaded_resident|].
  rewrite on_chunk_loaded_cache.
  apply evict_oldest_suffix.
Qed.

Lemma C3_eviction_bound_witness :
  let m' := Threaded._on_chunk_loaded model3_full 8000 three_rows in
  Threaded._max_cached_chunks m' = 8
  /\ len (Threaded._chunk_cache m') <= Threaded._max_cached_chunks m'
  /\ dict_get 8000 (Threaded._chunk_cache m') = Some three_rows
  /\ exists evicted,
       dict_setitem 8000 three_rows (Threaded._chunk_cache model3_full)
       = evicted ++ Threaded._chunk_cache m'
       /\ 8000 ∉ dict_keys evicted.
Proof.
  apply (C3_eviction_bound model3_full 8000 three_rows).
  exists three_rows,
    ((fun k => Threaded.EvChunkLoaded (1000 * k) []) <$> seqZ 0 8).
  reflexivity.
Defined.

(** The ninth window pushes the oldest one out. *)
Example model3_full_evicts_window_0 :
  dict_keys (Threaded._chunk_cache model3_full)
  = [0; 1000; 2000; 3000; 4000; 5000; 6000; 7000]
  /\ dict_keys (Threaded._chunk_cache
                  (Threaded._on_chunk_loaded model3_full 8000 three_rows))
     = [1000; 2000; 3000; 4000; 5000; 6000; 7000; 8000].
Proof. split; vm_compute; reflexivity. Qed.

(** ** The threaded model: order of completions *)

Section completion_order.
Import Threaded.
Implicit Types (m : SqliteTableModel) (l : list (Z * list record)).

Lemma complete_fetches_pending m l :
  _pending_chunks (complete_fetches m l)
  = _pending_chunks m ∖ list_to_set l.*1.
Proof.
  unfold complete_fetches. revert m.
  induction l as [|[c rows] l IH]; intros m; simpl.
  - set_solver.
  - rewrite IH, on_chunk_loaded_pending. set_solver.
Qed.

Lemma cache_inv_complete_fetches m l : cache_inv m -> cache_inv (complete_fetches m l).
Proof.
  unfold complete_fetches. revert m.
  induction l as [|[c rows] l IH]; intros m Hinv; [done|].
  simpl. apply IH. by apply cache_inv_on_chunk_loaded.
Qed.

Lemma elem_of_keys_drop {V} n (d : list (Z * V)) k :
  k ∈ dict_keys (drop n d) -> k ∈ dict_keys d.
Proof.
  unfold dict_keys. rewrite fmap_drop.
  intros H. eapply elem_of_sublist; [exact H|apply sublist_drop].
Qed.

(** Completions of windows that are not resident are FIFO through the
    cache: what remains is the tail of the old entries followed by the new
    ones, cut to the capacity. *)
Lemma complete_fetches_fifo m l :
  cache_inv m -> NoDup l.*1 ->
  (forall c, c ∈ l.*1 -> c ∉ dict_keys (_chunk_cache m)) ->
  _chunk_cache (complete_fetches m l)
  = drop (Z.to_nat (len (_chunk_cache m) + len l - 8)) (_chunk_cache m ++ l).
Proof.
  unfold complete_fetches. revert m.
  induction l as [|[c rows] l IH]; intros m Hinv Hnd Hfresh.
  - destruct Hinv as (_ & _ & _ & _ & Hlen & _). simpl.
    rewrite app_nil_r. unfold len in *. simpl.
    by replace (Z.to_nat _) with 0%nat by lia.
  - simpl in Hnd. apply NoDup_cons in Hnd as [Hc Hnd].
    assert (Hcm : c ∉ dict_keys (_chunk_cache m)).
    { apply Hfresh. simpl. apply elem_of_cons. by left. }
    pose proof (cache_inv_on_chunk_loaded m c rows Hinv) as Hinv1.
    assert (E1 : _chunk_cache (_on_chunk_loaded m c rows)
                 = drop (Z.to_nat (len (_chunk_cache m) + 1 - 8))
                        (_chunk_cache m ++ [(c, rows)])).
    { rewrite on_chunk_loaded_cache.
      destruct Hinv as (_ & -> & _). rewrite dict_setitem_new by done.
      by apply evict_oldest_new. }
    simpl. rewrite IH; [|done|done|].
    + rewrite E1. destruct Hinv as (_ & _ & _ & _ & Hlen & _).
      unfold len in *. rewrite length_drop, length_app, length_cons. simpl.
      destruct (decide (length (_chunk_cache m) < 8)%nat) as [Hlt|Hge].
      * replace (Z.to_nat (Z.of_nat (length (_chunk_cache m)) + 1 - 8)) with 0%nat by lia.
        rewrite drop_0, <- app_assoc. simpl. f_equal. lia.
      * destruct (_chunk_cache m) as [|y d'] eqn:Ed; [simpl in Hge; lia|].
        simpl in Hlen, Hge. simpl.
        replace (Z.to_nat (Z.of_nat (S (length d')) + 1 - 8)) with 1%nat by lia.
        cbn [drop]. rewrite drop_0, <- app_assoc. cbn [app].
        replace (Z.to_nat (Z.of_nat (S (length d')) + Z.of_nat (S (length l)) - 8))
          with (S (length l)) by lia.
        cbn [drop]. f_equal. lia.
    + intros c' Hc' Hin. rewrite E1 in Hin. apply elem_of_keys_drop in Hin.
      unfold dict_keys in Hin. rewrite fmap_app in Hin.
      apply elem_of_app in Hin as [Hin|Hin].
      * apply (Hfresh c'); [|done]. simpl. apply elem_of_cons. by right.
      * simpl in Hin. apply list_elem_of_singleton in Hin. by subst.
Qed.

End completion_order.

(** The session over 9000 rows: what the nine [data] calls leave behind.
    Only the number of rows of the table matters for it. *)
Lemma requested9_generic (db : list record) :
  Sqlite.select_count db = 9000 ->
  let m0 := Threaded.SqliteTableModel_init db in
  let m := Threaded.run m0
             ((fun c => Threaded.EvData (Threaded.index m0 c 1) Qt.DisplayRole)
                <$> windows9) in
  Threaded.request_chunk m = (fun c => (c, 1000)) <$> windows9
  /\ Threaded._pending_chunks m = list_to_set windows9
  /\ Threaded._chunk_cache m = []
  /\ Threaded._max_cached_chunks m = 8.
Proof.
  intros H m0 m. subst m m0. unfold Threaded.SqliteTableModel_init, Threaded.index.
  unfold Threaded.rowCount. cbn [Threaded._row_count]. rewrite H.
  vm_compute. done.
Qed.

Lemma model9000_requested_facts :
  Threaded.request_chunk model9000_requested = (fun c => (c, 1000)) <$> windows9
  /\ Threaded._pending_chunks model9000_requested = list_to_set windows9
  /\ Threaded._chunk_cache model9000_requested = []
  /\ Threaded._max_cached_chunks model9000_requested = 8.
Proof. apply (requested9_generic table9000). apply select_count_dense. lia. Qed.

Lemma model9000_requested_reachable : Threaded.reachable model9000_requested.
Proof.
  exists table9000,
    ((fun c => Threaded.EvData (Threaded.index model9000 c 1) Qt.DisplayRole)
       <$> windows9).
  reflexivity.
Qed.

Lemma fetches9_keys : fetches9.*1 = windows9.
Proof.
  unfold fetches9. rewrite <- list_fmap_compose.
  rewrite <- (list_fmap_id windows9) at 2. by apply list_fmap_ext.
Qed.

(** With an empty cache, the windows that remain after a list of
    completions are the last eight that completed. *)
Lemma complete_fetches_keys_from_empty (m : Threaded.SqliteTableModel)
    (l : list (Z * list record)) :
  Threaded.reachable m -> Threaded._chunk_cache m = [] -> NoDup l.*1 ->
  dict_keys (Threaded._chunk_cache (complete_fetches m l))
  = drop (Z.to_nat (len l - 8)) l.*1.
Proof.
  intros Hreach Hempty Hnd.
  rewrite complete_fetches_fifo; [|by apply reachable_cache_inv|done|].
  - rewrite Hempty. unfold dict_keys. by rewrite fmap_drop.
  - intros c _. rewrite Hempty. apply not_elem_of_nil.
Qed.

(** C5, as the claim has it, fails.  Nine windows of a table of 9000 rows
    are requested; delivered in request order windows 1000 to 8000 remain,
    delivered in the opposite order window 0 remains and window 8000 does
    not: the two final caches are different mappings. *)
Lemma C5_counterexample :
  ~ (Threaded.request_chunk model9000_requested
       = (fun c => (c, 1000)) <$> windows9 ->
     forall k,
       dict_get k (Threaded._chunk_cache
                     (complete_fetches model9000_requested (reverse fetches9)))
       = dict_get k (Threaded._chunk_cache
                       (complete_fetches model9000_requested fetches9))).
Proof.
  intros H.
  destruct model9000_requested_facts as (Hreq & _ & Hcache & _).
  specialize (H Hreq 0).
  assert (Hin : dict_get 0 (Threaded._chunk_cache
                  (complete_fetches model9000_requested fetches9)) = None).
  { apply dict_get_None.
    rewrite complete_fetches_keys_from_empty;
      [|apply model9000_requested_reachable|done|].
    - rewrite fetches9_keys. refine (bool_decide_unpack _ _). vm_compute. exact I.
    - rewrite fetches9_keys. refine (bool_decide_unpack _ _). vm_compute. exact I. }
  rewrite Hin in H. apply dict_get_None in H. apply H.
  rewrite complete_fetches_keys_from_empty;
    [|apply model9000_requested_reachable|done|].
  - rewrite fmap_reverse, fetches9_keys.
    refine (bool_decide_unpack _ _). vm_compute. exact I.
  - rewrite fmap_reverse, fetches9_keys.
    refine (bool_decide_unpack _ _). vm_compute. exact I.
Qed.

(** C5, amended.  When at most [_max_cached_chunks] windows are pending,
    delivering their fetches in any order leaves the same mapping from
    window start to rows, the same entries up to the order inside the dict,
    and the same pending set as delivering them in the order of the
    requests. *)
Theorem C5_order_within_capacity (m : Threaded.SqliteTableModel)
    (l l' : list (Z * list record)) :
  Threaded.reachable m ->
  NoDup l.*1 ->
  (forall c, c ∈ l.*1 -> c ∈ Threaded._pending_chunks m) ->
  len l <= Threaded._max_cached_chunks m ->
  l' ≡ₚ l ->
  (forall k,
     dict_get k (Threaded._chunk_cache (complete_fetches m l'))
     = dict_get k (Threaded._chunk_cache (complete_fetches m l)))
  /\ Threaded._chunk_cache (complete_fetches m l')
     ≡ₚ Threaded._chunk_cache (complete_fetches m l)
  /\ Threaded._pending_chunks (complete_fetches m l')
     = Threaded._pending_chunks (complete_fetches m l).
Proof.
  intros Hreach Hnd Hpend Hcap Hperm.
  pose proof (reachable_cache_inv _ Hreach) as Hinv.
  pose proof Hinv as (_ & Hmax & _ & _ & Hlen & Hdisj).
  rewrite Hmax in Hcap.
  assert (Hnd' : NoDup l'.*1) by (by rewrite Hperm).
  assert (Hfresh : forall c, c ∈ l.*1 -> c ∉ dict_keys (Threaded._chunk_cache m))
    by (intros c Hc; by apply Hdisj, Hpend).
  assert (Hfresh' : forall c, c ∈ l'.*1 -> c ∉ dict_keys (Threaded._chunk_cache m))
    by (intros c Hc; apply Hfresh; by rewrite <- Hperm).
  assert (Hcache : forall l0, l0 ≡ₚ l ->
            Threaded._chunk_cache (complete_fetches m l0)
            = drop (Z.to_nat (len (Threaded._chunk_cache m) + len l - 8))
                (Threaded._chunk_cache m) ++ l0).
  { intros l0 H0. rewrite complete_fetches_fifo; [|done| |].
    - unfold len in *. rewrite (Permutation_length H0).
      apply drop_app_le. lia.
    - by rewrite H0.
    - intros c Hc. apply Hfresh. by rewrite <- H0. }
  assert (Hp : Threaded._chunk_cache (complete_fetches m l')
               ≡ₚ Threaded._chunk_cache (complete_fetches m l)).
  { rewrite (Hcache l' Hperm), (Hcache l (reflexivity l)). by rewrite Hperm. }
  split; [|split; [done|]].
  - intros k. apply option_eq. intros rows.
    pose proof (cache_inv_complete_fetches m l Hinv) as (_ & _ & _ & Hn & _).
    pose proof (cache_inv_complete_fetches m l' Hinv) as (_ & _ & _ & Hn' & _).
    rewrite !dict_get_Some by done. by rewrite Hp.
  - rewrite !complete_fetches_pending. f_equal.
    apply list_to_set_perm_L. by rewrite Hperm.
Qed.

Lemma C5_order_within_capacity_witness :
  (forall k,
     dict_get k (Threaded._chunk_cache
                   (complete_fetches model9000_requested (reverse (take 8 fetches9))))
     = dict_get k (Threaded._chunk_cache
                     (complete_fetches model9000_requested (take 8 fetches9))))
  /\ Threaded._chunk_cache
       (complete_fetches model9000_requested (reverse (take 8 fetches9)))
     ≡ₚ Threaded._chunk_cache
          (complete_fetches model9000_requested (take 8 fetches9))
  /\ Threaded._pending_chunks
       (complete_fetches model9000_requested (reverse (take 8 fetches9)))
     = Threaded._pending_chunks
         (complete_fetches model9000_requested (take 8 fetches9)).
Proof.
  destruct model9000_requested_facts as (_ & Hpend & _ & Hmax).
  apply (C5_order_within_capacity model9000_requested).
  - apply model9000_requested_reachable.
  - rewrite fmap_take, fetches9_keys.
    refine (bool_decide_unpack _ _). vm_compute. exact I.
  - rewrite fmap_take, fetches9_keys, Hpend. apply Forall_forall.
    refine (bool_decide_unpack _ _). vm_compute. exact I.
  - rewrite Hmax. unfold len, fetches9. rewrite length_take, length_fmap.
    vm_compute. discriminate.
  - apply reverse_Permutation.
Defined.

(** ** The threaded model: the change notification *)

Section threaded_notification.
Import Threaded.
Implicit Types (m : SqliteTableModel).

Lemma request_chunk_settings m c :
  _cache_size (_request_chunk m c) = _cache_size m
  /\ _max_cached_chunks (_request_chunk m c) = _max_cached_chunks m
  /\ _headers (_request_chunk m c) = _headers m
  /\ _row_count (_request_chunk m c) = _row_count m
  /\ _first_id (_request_chunk m c) = _first_id m
  /\ dataChanged (_request_chunk m c) = dataChanged m.
Proof. by destruct (request_chunk_cases m c) as [->|[_ ->]]. Qed.

Lemma on_chunk_loaded_empty m c :
  dataChanged (_on_chunk_loaded m c []) = dataChanged m.
Proof. done. Qed.

Lemma on_chunk_loaded_notifies m c rows :
  rows <> [] ->
  dataChanged (_on_chunk_loaded m c rows)
  = dataChanged m
    ++ [(Qt.index (_row_count m) (len (_headers m)) c 0,
         Qt.index (_row_count m) (len (_headers m))
           (Z.min (c + len rows - 1) (_row_count m - 1))
           (len (_headers m) - 1))].
Proof. intros Hne. unfold _on_chunk_loaded. by destruct rows. Qed.

End threaded_notification.

(** The notification of a completion, for any rows.  In every reachable
    state, a completion for a window start inside the table that delivers
    at least one row emits one notification, from column 0 of row
    [chunk_start] to the last column of row
    [min (chunk_start + len rows - 1) (rowCount - 1)]; this is row
    [chunk_start + len rows - 1] whenever the delivered rows end inside the
    table.  A completion that delivers no rows emits nothing. *)
Lemma change_notification_clamped (m : Threaded.SqliteTableModel) (chunk_start : Z)
    (rows : list record) :
  Threaded.reachable m ->
  0 <= chunk_start < Threaded.rowCount m ->
  let m' := Threaded._on_chunk_loaded m chunk_start rows in
  (rows = [] -> Threaded.dataChanged m' = Threaded.dataChanged m)
  /\ (rows <> [] ->
      Threaded.dataChanged m'
      = Threaded.dataChanged m
        ++ [({| Qt.isValid := true; Qt.row := chunk_start; Qt.column := 0 |},
             {| Qt.isValid := true;
                Qt.row := Z.min (chunk_start + len rows - 1) (Threaded.rowCount m - 1);
                Qt.column := Threaded.columnCount m - 1 |})])
  /\ (rows <> [] -> chunk_start + len rows <= Threaded.rowCount m ->
      Threaded.dataChanged m'
      = Threaded.dataChanged m
        ++ [({| Qt.isValid := true; Qt.row := chunk_start; Qt.column := 0 |},
             {| Qt.isValid := true; Qt.row := chunk_start + len rows - 1;
                Qt.column := Threaded.columnCount m - 1 |})]).
Proof.
  intros Hreach Hcs m'.
  pose proof (reachable_cache_inv _ Hreach) as (_ & _ & Hhd & _).
  unfold Threaded.rowCount, Threaded.columnCount in *.
  assert (Hmin : rows <> [] ->
            Threaded.dataChanged m'
            = Threaded.dataChanged m
              ++ [({| Qt.isValid := true; Qt.row := chunk_start; Qt.column := 0 |},
                   {| Qt.isValid := true;
                      Qt.row := Z.min (chunk_start + len rows - 1)
                                  (Threaded._row_count m - 1);
                      Qt.column := len (Threaded._headers m) - 1 |})]).
  { intros Hne. subst m'. rewrite on_chunk_loaded_notifies by done.
    rewrite Hhd. unfold Qt.index.
    assert (Hlen : 1 <= len rows).
    { destruct rows; [done|]. unfold len. simpl. lia. }
    replace (len ["id"; "value"]%string) with 2 by reflexivity.
    assert (E1 : ((0 <=? chunk_start) && (0 <=? 0)
                  && (chunk_start <? Threaded._row_count m) && (0 <? 2)) = true).
    { rewrite !andb_true_iff. repeat split; lia. }
    rewrite E1.
    assert (E2 : ((0 <=? Z.min (chunk_start + len rows - 1) (Threaded._row_count m - 1))
                  && (0 <=? 2 - 1)
                  && (Z.min (chunk_start + len rows - 1) (Threaded._row_count m - 1)
                      <? Threaded._row_count m)
                  && (2 - 1 <? 2)) = true).
    { rewrite !andb_true_iff. repeat split; lia. }
    by rewrite E2. }
  split; [|split].
  - intros ->. apply on_chunk_loaded_empty.
  - exact Hmin.
  - intros Hne Hend. rewrite (Hmin Hne). by rewrite Z.min_l by lia.
Qed.

(** ** The threaded model: a request from the miss to the value *)

Section threaded_round_trip.
Import Threaded.
Implicit Types (m : SqliteTableModel) (i : Qt.QModelIndex).

(** A miss: [data] answers [None] and hands the window to [_request_chunk]. *)
Lemma data_miss m i :
  Qt.isValid i = true -> _cache_size m <> 0 ->
  dict_get (Qt.row i / _cache_size m * _cache_size m) (_chunk_cache m) = None ->
  data m i Qt.DisplayRole
  = (Return None, _request_chunk m (Qt.row i / _cache_size m * _cache_size m)).
Proof.
  intros Hv Hsz Hget. unfold data. rewrite Hv. simpl.
  unfold py_floordiv. destruct (Z.eqb_spec (_cache_size m) 0); [done|].
  by rewrite Hget.
Qed.

(** A hit: [data] answers with the field of the cached record. *)
Lemma data_hit m i rows r :
  Qt.isValid i = true -> _cache_size m <> 0 ->
  dict_get (Qt.row i / _cache_size m * _cache_size m) (_chunk_cache m) = Some rows ->
  0 <= Qt.row i - Qt.row i / _cache_size m * _cache_size m ->
  rows !! Z.to_nat (Qt.row i - Qt.row i / _cache_size m * _cache_size m) = Some r ->
  data m i Qt.DisplayRole
  = (py_bind (tuple_getitem r (Qt.column i)) (fun v => Return (Some v)), m).
Proof.
  intros Hv Hsz Hget Hoff Hr. unfold data. rewrite Hv. simpl.
  unfold py_floordiv. destruct (Z.eqb_spec (_cache_size m) 0); [done|].
  rewrite Hget. pose proof (lookup_lt_Some _ _ _ Hr) as Hlt.
  assert (E : ((Qt.row i - Qt.row i / _cache_size m * _cache_size m <? 0)
               || (Qt.row i - Qt.row i / _cache_size m * _cache_size m >=? len rows))
              = false).
  { apply orb_false_iff. unfold len. split; lia. }
  rewrite E.
  by rewrite Hr.
Qed.

End threaded_round_trip.

(** C1. The scenario: 3_000_000 rows with keys from 1 and windows of 1000
    rows.  The request for row 2_500_500 misses, returns [None] and emits
    the request for window 2_500_000; the worker reads from key 2_500_001
    and emits 1000 records, keys 2_500_001 to 2_501_000 in ascending order;
    once the slot has stored them, the request for the value of row
    2_500_500 returns the value of key 2_500_501. *)
Theorem C1_scenario (v : Z -> string) :
  let db := table3M v in
  let m0 := Threaded.SqliteTableModel_init db in
  let idx := Threaded.index m0 2500500 1 in
  let m1 := (Threaded.data m0 idx Qt.DisplayRole).2 in
  let w := Threaded.ChunkLoaderWorker_init (Threaded._first_id m0) in
  let fetch := (Threaded.load_chunk w db 2500000 1000).2 in
  let m2 := Threaded._on_chunk_loaded m1 fetch.1 fetch.2 in
  (Threaded._cache_size m0 = 1000 /\ Threaded.rowCount m0 = 3000000
   /\ Threaded._first_id m0 = 1)
  /\ Qt.row idx / Threaded._cache_size m0 * Threaded._cache_size m0 = 2500000
  /\ Threaded.data m0 idx Qt.DisplayRole = (Return None, m1)
  /\ Threaded.request_chunk m1 = [(2500000, 1000)]
  /\ Threaded.w_first_id w + 2500000 = 2500001
  /\ fetch = (2500000, dense_table 2500001 1000 v)
  /\ len fetch.2 <= 1000
  /\ fetch.2.*1 = seqZ 2500001 1000
  /\ Threaded.data m2 idx Qt.DisplayRole = (Return (Some (CellStr (v 2500501))), m2).
Proof.
  intros db m0 idx m1 w fetch m2.
  assert (Hcount : Sqlite.select_count db = 3000000)
    by (apply select_count_dense; lia).
  assert (Hmin : Sqlite.select_min_id db = Some 1)
    by (apply select_min_id_dense; lia).
  assert (Hsel : Sqlite.select_from db 2500001 1000 = dense_table 2500001 1000 v).
  { unfold db, table3M. rewrite select_from_dense by lia. f_equal. }
  clearbody db.
  assert (Hsz : Threaded._cache_size m0 = 1000) by reflexivity.
  assert (Hrc : Threaded.rowCount m0 = 3000000) by exact Hcount.
  assert (Hfirst : Threaded._first_id m0 = 1).
  { unfold m0, Threaded.SqliteTableModel_init. cbn [Threaded._first_id].
    by rewrite Hmin. }
  assert (Hidx : idx = {| Qt.isValid := true; Qt.row := 2500500; Qt.column := 1 |}).
  { unfold idx, Threaded.index. rewrite Hrc. reflexivity. }
  assert (Hcs : Qt.row idx / Threaded._cache_size m0 * Threaded._cache_size m0
                = 2500000).
  { rewrite Hidx, Hsz. reflexivity. }
  assert (Hmiss : Threaded.data m0 idx Qt.DisplayRole
                  = (Return None, Threaded._request_chunk m0 2500000)).
  { rewrite <- Hcs. apply data_miss.
    - by rewrite Hidx.
    - rewrite Hsz. lia.
    - reflexivity. }
  assert (Hreq : Threaded._request_chunk m0 2500000
                 = Threaded.emit_request_chunk
                     (Threaded.set_cache m0 ({[2500000]} ∪ ∅) []) 2500000 1000).
  { unfold Threaded._request_chunk.
    change (Threaded._pending_chunks m0) with (∅ : gset Z).
    change (Threaded._chunk_cache m0) with ([] : list (Z * list record)).
    change (Threaded._row_count m0) with (Sqlite.select_count db).
    rewrite Hcount. rewrite bool_decide_eq_false_2 by apply not_elem_of_empty.
    reflexivity. }
  assert (Hm1 : m1 = Threaded.emit_request_chunk
                       (Threaded.set_cache m0 ({[2500000]} ∪ ∅) []) 2500000 1000).
  { unfold m1. by rewrite Hmiss. }
  assert (Hfetch : fetch = (2500000, dense_table 2500001 1000 v)).
  { unfold fetch, Threaded.load_chunk. cbn [snd]. f_equal.
    change (Threaded.w_first_id (Threaded._ensure_connection w))
      with (Threaded._first_id m0).
    rewrite Hfirst. exact Hsel. }
  assert (Hsz2 : Threaded._cache_size m2 = 1000).
  { unfold m2. destruct (on_chunk_loaded_settings m1 fetch.1 fetch.2) as [-> _].
    by rewrite Hm1. }
  split; [done|]. split; [done|]. split; [by rewrite Hmiss, Hm1, Hreq|].
  split; [by rewrite Hm1|].
  split; [change (Threaded.w_first_id w) with (Threaded._first_id m0); by rewrite Hfirst|].
  split; [done|]. rewrite Hfetch. cbn [fst snd]. split; [|split].
  - unfold len. rewrite dense_table_length. lia.
  - apply dense_table_keys.
  - rewrite (data_hit m2 idx (dense_table 2500001 1000 v) (2500501, v 2500501)).
    + by rewrite Hidx.
    + by rewrite Hidx.
    + rewrite Hsz2. lia.
    + rewrite Hsz2, Hidx. cbn [Qt.row].
      change (2500500 / 1000 * 1000) with 2500000.
      unfold m2. rewrite Hfetch. apply on_chunk_loaded_resident.
    + rewrite Hsz2, Hidx. cbn [Qt.row]. by change (2500500 / 1000 * 1000) with 2500000.
    + rewrite Hsz2, Hidx. cbn [Qt.row].
      change (Z.to_nat (2500500 - 2500500 / 1000 * 1000)) with 500%nat.
      rewrite dense_table_lookup by lia. reflexivity.
Qed.

(** ** The detail pipeline of the single-window program *)

Section detail_pipeline_facts.
Import Thread.
Variable transform_fn : Z -> string -> py_result string.
Variable int_of_str : string -> py_result Z.
Implicit Types (w : MainWindow) (s : session) (t : DetailTransformTask).

(** A signal carries the tag of the task that emitted it. *)
Lemma run_request_id t sig :
  run transform_fn t = Return sig -> signal_request_id sig = _request_id t.
Proof.
  unfold run. destruct (transform_fn _ _) as [d|e].
  - by intros [= <-].
  - destruct (isinstance_NotImplementedError e); [by intros [= <-]|].
    destruct (isinstance_Exception e); [by intros [= <-]|done].
Qed.

(** Every selection change advances the counter by one, whatever branch the
    slot takes. *)
Lemma on_current_row_changed_id w current :
  _detail_request_id (_on_current_row_changed int_of_str w current)
  = _detail_request_id w + 1.
Proof.
  unfold _on_current_row_changed. destruct (negb _); [done|]. simpl.
  destruct (data _ _ _) as [[row_id|e] m]; [|done].
  destruct (data _ _ _) as [[row_value|e] m']; [|done].
  destruct row_id as [row_id|]; [|done].
  destruct row_value as [row_value|]; [|done]. simpl.
  by destruct (py_int _ _).
Qed.

(** The tasks a selection change leaves in the pool carry the new tag. *)
Lemma on_current_row_changed_pool w current :
  Forall (fun t => _request_id t = _detail_request_id w + 1)
    (_detail_thread_pool (_on_current_row_changed int_of_str w current))
  \/ _detail_thread_pool (_on_current_row_changed int_of_str w current)
     = _detail_thread_pool w.
Proof.
  unfold _on_current_row_changed. destruct (negb _); [by right|]. simpl.
  destruct (data _ _ _) as [[row_id|e] m]; [|by right].
  destruct (data _ _ _) as [[row_value|e] m']; [|by right].
  destruct row_id as [row_id|]; [|by right].
  destruct row_value as [row_value|]; [|by right]. simpl.
  destruct (py_int _ _); left; simpl; repeat constructor.
Qed.

Lemma deliver_id w sig : _detail_request_id (deliver w sig) = _detail_request_id w.
Proof.
  destruct sig; simpl; unfold _on_detail_ready, _on_detail_failed;
    by destruct (negb _).
Qed.

Lemma step_id_mono s ev :
  _detail_request_id (window s)
  <= _detail_request_id (window (step transform_fn int_of_str s ev)).
Proof.
  destruct ev as [current| |n]; simpl.
  - rewrite on_current_row_changed_id. lia.
  - by destruct (_detail_thread_pool (window s)).
  - destruct (posted s !! n); simpl; [by rewrite deliver_id|done].
Qed.

(** The counter never goes back. *)
Lemma run_session_id_mono s evs :
  _detail_request_id (window s)
  <= _detail_request_id (window (run_session transform_fn int_of_str s evs)).
Proof.
  unfold run_session. revert s. induction evs as [|ev evs IH]; intros s; [done|].
  simpl. etrans; [apply (step_id_mono s ev)|apply IH].
Qed.

(** A result whose tag is not the current one changes nothing. *)
Lemma stale_result_ignored w request_id payload :
  request_id <> _detail_request_id w ->
  _on_detail_ready w request_id payload = w
  /\ _on_detail_failed w request_id payload = w.
Proof.
  intros Hne. unfold _on_detail_ready, _on_detail_failed.
  by destruct (Z.eqb_spec request_id (_detail_request_id w)).
Qed.

(** A result with the current tag is shown. *)
Lemma current_result_applied w payload :
  detail_value (_on_detail_ready w (_detail_request_id w) payload) = payload
  /\ detail_value (_on_detail_failed w (_detail_request_id w) payload)
     = ("詳細表示の処理でエラーが発生しました: " ++ payload)%string.
Proof.
  unfold _on_detail_ready, _on_detail_failed. by rewrite Z.eqb_refl.
Qed.

End detail_pipeline_facts.

(** C4. Row A is selected, which makes the counter [g]; row B is selected
    before A's task has reported, which makes it [g + 1].  The task of A, if
    one was started, carries [g] and so does its signal; whatever happens in
    the session afterwards, a result tagged [g], success or failure,
    leaves the window as it is when it arrives.  A result tagged [g + 1]
    arriving while B is selected is shown: the value, or the error text. *)
Theorem C4_stale_result_discarded (transform_fn : Z -> string -> py_result string)
    (int_of_str : string -> py_result Z) (w : Thread.MainWindow)
    (A B : Qt.QModelIndex) (posted : list Thread.signal)
    (evs : list Thread.event) (payload : string) :
  let w1 := Thread._on_current_row_changed int_of_str w A in
  let g := Thread._detail_request_id w1 in
  let w2 := Thread._on_current_row_changed int_of_str w1 B in
  let later := Thread.run_session transform_fn int_of_str
                 {| Thread.window := w2; Thread.posted := posted |} evs in
  Thread._detail_request_id w2 = g + 1
  /\ (Forall (fun t => Thread._request_id t = g) (Thread._detail_thread_pool w1)
      \/ Thread._detail_thread_pool w1 = Thread._detail_thread_pool w)
  /\ (forall t sig, Thread._request_id t = g ->
        Thread.run transform_fn t = Return sig ->
        Thread.signal_request_id sig = g
        /\ Thread.deliver (Thread.window later) sig = Thread.window later)
  /\ Thread._on_detail_ready (Thread.window later) g payload = Thread.window later
  /\ Thread._on_detail_failed (Thread.window later) g payload = Thread.window later
  /\ Thread.detail_value (Thread._on_detail_ready w2 (g + 1) payload) = payload
  /\ Thread.detail_value (Thread._on_detail_failed w2 (g + 1) payload)
     = ("詳細表示の処理でエラーが発生しました: " ++ payload)%string.
Proof.
  intros w1 g w2 later.
  assert (Hw2 : Thread._detail_request_id w2 = g + 1)
    by apply on_current_row_changed_id.
  assert (Hlater : g <> Thread._detail_request_id (Thread.window later)).
  { pose proof (run_session_id_mono transform_fn int_of_str
                  {| Thread.window := w2; Thread.posted := posted |} evs) as Hm.
    fold later in Hm. simpl in Hm. lia. }
  split; [done|]. split.
  { unfold g, w1. rewrite on_current_row_changed_id.
    apply on_current_row_changed_pool. }
  split.
  { intros t sig Ht Hrun. apply run_request_id in Hrun. rewrite Ht in Hrun.
    split; [done|].
    destruct sig as [r d|r e]; simpl in *; subst r;
      by apply stale_result_ignored. }
  split; [by apply stale_result_ignored|]. split; [by apply stale_result_ignored|].
  rewrite <- Hw2. apply current_result_applied.
Qed.

Lemma C4_stale_result_discarded_witness :
  let w1 := Thread._on_current_row_changed no_int_of_str window3
              (Thread.index (Thread.model window3) 0 0) in
  let g := Thread._detail_request_id w1 in
  let w2 := Thread._on_current_row_changed no_int_of_str w1
              (Thread.index (Thread.model window3) 1 0) in
  let later := Thread.run_session Thread.transform_detail_data no_int_of_str
                 {| Thread.window := w2; Thread.posted := [] |}
                 [Thread.EvPoolRunsTask; Thread.EvDeliver 0] in
  Thread._detail_request_id w2 = g + 1
  /\ (Forall (fun t => Thread._request_id t = g) (Thread._detail_thread_pool w1)
      \/ Thread._detail_thread_pool w1 = Thread._detail_thread_pool window3)
  /\ (forall t sig, Thread._request_id t = g ->
        Thread.run Thread.transform_detail_data t = Return sig ->
        Thread.signal_request_id sig = g
        /\ Thread.deliver (Thread.window later) sig = Thread.window later)
  /\ Thread._on_detail_ready (Thread.window later) g "late" = Thread.window later
  /\ Thread._on_detail_failed (Thread.window later) g "late" = Thread.window later
  /\ Thread.detail_value (Thread._on_detail_ready w2 (g + 1) "late") = "late"%string
  /\ Thread.detail_value (Thread._on_detail_failed w2 (g + 1) "late")
     = ("詳細表示の処理でエラーが発生しました: " ++ "late")%string.
Proof.
  exact (C4_stale_result_discarded Thread.transform_detail_data no_int_of_str
           window3 (Thread.index (Thread.model window3) 0 0)
           (Thread.index (Thread.model window3) 1 0) []
           [Thread.EvPoolRunsTask; Thread.EvDeliver 0] "late").
Defined.

(** The session of the witness, step by step: the task of row 0 is dropped
    from the pool when row 1 is selected, the task of row 1 runs, and its
    signal, tagged 2, shows the raw value of row 1. *)
Example window3_session :
  Thread.detail_value
    (Thread.window
       (Thread.run_session Thread.transform_detail_data no_int_of_str
          {| Thread.window := window3; Thread.posted := [] |}
          [Thread.EvCurrentRowChanged (Thread.index (Thread.model window3) 0 0);
           Thread.EvCurrentRowChanged (Thread.index (Thread.model window3) 1 0);
           Thread.EvPoolRunsTask; Thread.EvDeliver 0]))
  = "beta"%string.
Proof. vm_compute. reflexivity. Qed.

(** C8. The extension point of the file raises [NotImplementedError], and
    then [run] emits [finished] with the raw row value.  For any
    [transform_fn] that raises [exc]: when [exc] is a [NotImplementedError]
    [run] emits [finished] with the raw value; when it is any other
    instance of [Exception], [run] raises nothing and emits [failed] with
    [str(exc)], and the slot shows the error text when the tag of the
    signal is the current counter and changes nothing when it is not. *)
Theorem C8_worker_boundary (transform_fn : Z -> string -> py_result string)
    (t : Thread.DetailTransformTask) (w : Thread.MainWindow) (exc : py_exception) :
  transform_fn (Thread._row_id t) (Thread._row_value t) = Raise exc ->
  Thread.run Thread.transform_detail_data t
  = Return (Thread.finished (Thread._request_id t) (Thread._row_value t))
  /\ (isinstance_NotImplementedError exc = true ->
      Thread.run transform_fn t
      = Return (Thread.finished (Thread._request_id t) (Thread._row_value t)))
  /\ (isinstance_NotImplementedError exc = false ->
      isinstance_Exception exc = true ->
      Thread.run transform_fn t
      = Return (Thread.failed (Thread._request_id t) (str_exc exc))
      /\ (Thread._request_id t = Thread._detail_request_id w ->
          Thread.detail_value
            (Thread.deliver w (Thread.failed (Thread._request_id t) (str_exc exc)))
          = ("詳細表示の処理でエラーが発生しました: " ++ str_exc exc)%string)
      /\ (Thread._request_id t <> Thread._detail_request_id w ->
          Thread.deliver w (Thread.failed (Thread._request_id t) (str_exc exc)) = w)).
Proof.
  intros Hraise. split; [done|]. unfold Thread.run. rewrite Hraise. split.
  - by intros ->.
  - intros -> ->. split; [done|]. split.
    + intros ->. apply current_result_applied.
    + intros Hne. simpl. by apply stale_result_ignored.
Qed.

Lemma C8_worker_boundary_witness :
  (Thread.run failing_transform task_of_row_1 = Return (Thread.failed 1 "boom")
   /\ Thread.detail_value (Thread.deliver window3_row_1 (Thread.failed 1 "boom"))
      = ("詳細表示の処理でエラーが発生しました: " ++ "boom")%string)
  /\ Thread.run Thread.transform_detail_data task_of_row_1
     = Return (Thread.finished 1 "beta").
Proof.
  destruct (C8_worker_boundary failing_transform task_of_row_1 window3_row_1
              (OtherException "boom") eq_refl) as (_ & _ & Hfail).
  destruct (Hfail eq_refl eq_refl) as (Hrun & Hshown & _).
  destruct (C8_worker_boundary Thread.transform_detail_data task_of_row_1
              window3_row_1 (NotImplementedError EmptyString) eq_refl) as (_ & Hraw & _).
  split; [split; [exact Hrun|exact (Hshown eq_refl)]|exact (Hraw eq_refl)].
Defined.

(** ** Seeding *)

Section seeding.
Variable BATCH_SIZE : Z.
Variable rng : Type.
Variable random_text : rng -> string * rng.
Hypothesis BATCH_SIZE_pos : 0 < BATCH_SIZE.

Lemma random_values_length n g :
  length (Database.random_values rng random_text n g).1 = n.
Proof.
  revert g. induction n as [|n IH]; intros g; simpl; [done|].
  destruct (random_text g) as [s g1]. specialize (IH g1).
  destruct (Database.random_values rng random_text n g1) as [l g2].
  simpl in *. by rewrite IH.
Qed.

(** [executemany] appends one row for each value and touches no other. *)
Lemma executemany_appends db values :
  exists new,
    Sqlite.texts (Sqlite.executemany db values) = Sqlite.texts db ++ new
    /\ new.*2 = values.
Proof.
  unfold Sqlite.executemany. revert db.
  induction values as [|x values IH]; intros db; simpl.
  - exists []. by rewrite app_nil_r.
  - destruct (IH (Sqlite.insert_value db x)) as (new & Heq & Hnew).
    eexists (_ :: new). split.
    + rewrite Heq. simpl. rewrite <- app_assoc. reflexivity.
    + by rewrite fmap_cons, Hnew.
Qed.

(** The loop, given fuel for every row still to insert, ends; it appends
    exactly [rows_to_insert] rows, in batches of 1 to [BATCH_SIZE] rows. *)
Lemma insert_loop_spec fuel rows_to_insert db commits g :
  0 <= rows_to_insert <= Z.of_nat fuel ->
  exists db' batches g' new,
    Database.insert_loop BATCH_SIZE rng random_text fuel rows_to_insert db commits g
    = Some (db', commits ++ batches, g')
    /\ Sqlite.texts db' = Sqlite.texts db ++ new
    /\ len new = rows_to_insert
    /\ foldr Z.add 0 batches = rows_to_insert
    /\ Forall (fun b => 0 < b <= BATCH_SIZE) batches.
Proof.
  revert rows_to_insert db commits g.
  induction fuel as [|fuel IH]; intros r db commits g Hr.
  - assert (r = 0) as -> by lia. simpl.
    exists db, [], g, []. rewrite !app_nil_r. by repeat split.
  - cbn [Database.insert_loop]. destruct (Z.gtb_spec r 0) as [Hpos|Hle].
    + pose proof (random_values_length (Z.to_nat (Z.min BATCH_SIZE r)) g) as Hlen.
      destruct (Database.random_values rng random_text
                  (Z.to_nat (Z.min BATCH_SIZE r)) g) as [values g1].
      simpl in Hlen.
      destruct (executemany_appends db values) as (new1 & Hnew1 & Hv1).
      destruct (IH (r - Z.min BATCH_SIZE r) (Sqlite.executemany db values)
                  (commits ++ [len values]) g1) as (db' & bs & g' & new2 & Heq & Ht & Hl & Hs & Hb);
        [lia|].
      exists db', (len values :: bs), g', (new1 ++ new2).
      assert (Hlen1 : len new1 = Z.min BATCH_SIZE r).
      { unfold len. rewrite <- (length_fmap snd new1), Hv1, Hlen. lia. }
      split; [by rewrite Heq, <- app_assoc|].
      split; [by rewrite Ht, Hnew1, <- app_assoc|].
      split; [unfold len in *; rewrite length_app; lia|].
      assert (Hlv : len values = Z.min BATCH_SIZE r) by (unfold len; lia).
      split; [simpl; lia|].
      constructor; [lia|done].
    + assert (r = 0) as -> by lia.
      exists db, [], g, []. rewrite !app_nil_r. by repeat split.
Qed.

End seeding.

(** C7. With a positive [BATCH_SIZE], [ensure_database] ends.  When the
    table holds [target_rows] rows or more, the database, the commits and
    the generator are as before.  When it holds fewer, the old rows stay in
    place, exactly [target_rows - current_rows] rows are appended, and they
    are committed in batches of at least 1 and at most [BATCH_SIZE] rows
    that add up to that number. *)
Theorem C7_idempotent_seeding (BATCH_SIZE : Z) (rng : Type)
    (random_text : rng -> string * rng) (db : Sqlite.database)
    (target_rows : Z) (g : rng) :
  0 < BATCH_SIZE ->
  exists db' batches g',
    Database.ensure_database BATCH_SIZE rng random_text db target_rows g
    = Some (db', batches, g')
    /\ (target_rows <= Sqlite.select_count (Sqlite.texts db) ->
        db' = db /\ batches = [] /\ g' = g)
    /\ (Sqlite.select_count (Sqlite.texts db) < target_rows ->
        Sqlite.select_count (Sqlite.texts db') = target_rows
        /\ (exists new,
              Sqlite.texts db' = Sqlite.texts db ++ new
              /\ len new = target_rows - Sqlite.select_count (Sqlite.texts db))
        /\ foldr Z.add 0 batches
           = target_rows - Sqlite.select_count (Sqlite.texts db)
        /\ Forall (fun b => 0 < b <= BATCH_SIZE) batches).
Proof.
  intros Hpos. unfold Database.ensure_database.
  destruct (Z.geb_spec (Sqlite.select_count (Sqlite.texts db)) target_rows)
    as [Hge|Hlt].
  - exists db, [], g. split; [done|]. split; [done|lia].
  - destruct (insert_loop_spec BATCH_SIZE rng random_text Hpos
                (Z.to_nat (target_rows - Sqlite.select_count (Sqlite.texts db)))
                (target_rows - Sqlite.select_count (Sqlite.texts db)) db [] g)
      as (db' & bs & g' & new & Heq & Ht & Hl & Hs & Hb); [lia|].
    exists db', bs, g'. split; [done|]. split; [lia|].
    intros _. split; [|split; [by exists new|done]].
    unfold Sqlite.select_count, len in *. rewrite Ht, length_app. lia.
Qed.

Lemma C7_idempotent_seeding_witness :
  exists db' batches g',
    Database.ensure_database 10000 nat counting_random_text database3 25000 0%nat
    = Some (db', batches, g')
    /\ (25000 <= Sqlite.select_count (Sqlite.texts database3) ->
        db' = database3 /\ batches = [] /\ g' = 0%nat)
    /\ (Sqlite.select_count (Sqlite.texts database3) < 25000 ->
        Sqlite.select_count (Sqlite.texts db') = 25000
        /\ (exists new,
              Sqlite.texts db' = Sqlite.texts database3 ++ new
              /\ len new = 25000 - Sqlite.select_count (Sqlite.texts database3))
        /\ foldr Z.add 0 batches
           = 25000 - Sqlite.select_count (Sqlite.texts database3)
        /\ Forall (fun b => 0 < b <= 10000) batches).
Proof.
  apply (C7_idempotent_seeding 10000 nat counting_random_text database3 25000 0%nat).
  lia.
Defined.

(** Two runs with batches of two rows: the first fills an empty file up to
    five rows in three commits, the second finds five rows and does
    nothing. *)
Example ensure_database_twice :
  let empty := {| Sqlite.texts := []; Sqlite.sqlite_sequence := 0 |} in
  match Database.ensure_database 2 nat counting_random_text empty 5 0%nat with
  | Some (db1, batches, g1) =>
      (Sqlite.texts db1).*1 = [1; 2; 3; 4; 5] /\ batches = [2; 2; 1]
      /\ Database.ensure_database 2 nat counting_random_text db1 5 g1
         = Some (db1, [], g1)
  | None => False
  end.
Proof. vm_compute. done. Qed.

(** * Further properties of the code *)

(** ** The keyset query on any table *)

Section keyset_query.
Implicit Types (r : record) (l t : list record).

(** Ascending order of the keys. *)
Let by_id : relation record := fun a b => a.1 <= b.1.

Lemma insert_by_id_perm r l : Sqlite.insert_by_id r l ≡ₚ r :: l.
Proof.
  induction l as [|x l IH]; simpl; [done|].
  destruct (r.1 <=? x.1); [done|]. rewrite IH. apply Permutation_swap.
Qed.

Lemma order_by_id_perm l : Sqlite.order_by_id l ≡ₚ l.
Proof.
  unfold Sqlite.order_by_id. induction l as [|x l IH]; simpl; [done|].
  by rewrite insert_by_id_perm, IH.
Qed.

Lemma insert_by_id_sorted r l :
  StronglySorted by_id l -> StronglySorted by_id (Sqlite.insert_by_id r l).
Proof.
  induction l as [|x l IH]; simpl; intros Hs.
  - repeat constructor.
  - apply StronglySorted_cons in Hs as [Hx Hl].
    destruct (Z.leb_spec r.1 x.1) as [Hle|Hgt].
    + apply StronglySorted_cons. split; [|by apply StronglySorted_cons].
      constructor; [done|].
      eapply Forall_impl; [exact Hx|]. unfold by_id. intros y Hy. lia.
    + apply StronglySorted_cons. split; [|by apply IH].
      rewrite insert_by_id_perm. constructor; [unfold by_id; lia|done].
Qed.

Lemma order_by_id_sorted l : StronglySorted by_id (Sqlite.order_by_id l).
Proof.
  unfold Sqlite.order_by_id. induction l as [|x l IH]; simpl.
  - constructor.
  - by apply insert_by_id_sorted.
Qed.

(** What [WHERE id >= ? ORDER BY id LIMIT ?] returns from any table, for a
    limit that is not negative. *)
Lemma select_from_contract t start_id lim :
  0 <= lim ->
  len (Sqlite.select_from t start_id lim) <= lim
  /\ Forall (fun r => start_id <= r.1 /\ r ∈ t) (Sqlite.select_from t start_id lim)
  /\ StronglySorted by_id (Sqlite.select_from t start_id lim)
  /\ exists rest,
       Sqlite.select_from t start_id lim ++ rest
       ≡ₚ filter (fun r => start_id <= r.1) t
       /\ (forall r r', r ∈ Sqlite.select_from t start_id lim -> r' ∈ rest ->
                        r.1 <= r'.1)
       /\ (len (Sqlite.select_from t start_id lim) < lim -> rest = []).
Proof.
  intros Hlim. unfold Sqlite.select_from, Sqlite.limit.
  destruct (Z.ltb_spec lim 0) as [?|_]; [lia|].
  set (sorted := Sqlite.order_by_id (filter (fun r => start_id <= r.1) t)).
  assert (Hperm : sorted ≡ₚ filter (fun r => start_id <= r.1) t)
    by apply order_by_id_perm.
  assert (Hsorted : StronglySorted by_id sorted) by apply order_by_id_sorted.
  rewrite <- (take_drop (Z.to_nat lim) sorted) in Hsorted, Hperm.
  split; [unfold len; rewrite length_take; lia|]. split; [|split].
  - apply Forall_forall. intros r Hr.
    assert (r ∈ filter (fun r => start_id <= r.1) t) as Hin.
    { rewrite <- Hperm. apply elem_of_app. by left. }
    by apply list_elem_of_filter in Hin.
  - by apply StronglySorted_app_1_l in Hsorted.
  - exists (drop (Z.to_nat lim) sorted). split; [done|]. split.
    + intros r r' Hr Hr'. by apply (StronglySorted_app_1_elem_of _ _ _ _ _ Hsorted).
    + unfold len. rewrite length_take. intros Hshort.
      apply drop_ge. lia.
Qed.

End keyset_query.

(** X1. For any table and any limit that is not negative, [load_chunk]
    emits the window start it was asked for with at most [chunk_size] rows;
    every row is a row of the table with an id of at least
    [_first_id + start_row]; the rows are in ascending order of id; and
    they are the rows with the smallest such ids: together with the rows
    left out they are the rows of the table from that id on, none left out
    has a smaller id than one returned, and none is left out when fewer
    than [chunk_size] rows come back. *)
Theorem X1_load_chunk_contract (w : Threaded.ChunkLoaderWorker)
    (db : list record) (start_row chunk_size : Z) :
  0 <= chunk_size ->
  let emitted := (Threaded.load_chunk w db start_row chunk_size).2 in
  let start_id := Threaded.w_first_id w + start_row in
  emitted.1 = start_row
  /\ len emitted.2 <= chunk_size
  /\ Forall (fun r => start_id <= r.1 /\ r ∈ db) emitted.2
  /\ StronglySorted (fun a b : record => a.1 <= b.1) emitted.2
  /\ exists rest,
       emitted.2 ++ rest ≡ₚ filter (fun r => start_id <= r.1) db
       /\ (forall r r', r ∈ emitted.2 -> r' ∈ rest -> r.1 <= r'.1)
       /\ (len emitted.2 < chunk_size -> rest = []).
Proof.
  intros Hlim emitted start_id. split; [done|].
  apply (select_from_contract db start_id chunk_size Hlim).
Qed.

Lemma X1_load_chunk_contract_witness :
  let emitted := (Threaded.load_chunk (Threaded.ChunkLoaderWorker_init 1)
                    five_rows 2 2).2 in
  emitted.1 = 2
  /\ len emitted.2 <= 2
  /\ Forall (fun r => 1 + 2 <= r.1 /\ r ∈ five_rows) emitted.2
  /\ StronglySorted (fun a b : record => a.1 <= b.1) emitted.2
  /\ exists rest,
       emitted.2 ++ rest ≡ₚ filter (fun r => 1 + 2 <= r.1) five_rows
       /\ (forall r r', r ∈ emitted.2 -> r' ∈ rest -> r.1 <= r'.1)
       /\ (len emitted.2 < 2 -> rest = []).
Proof.
  apply (X1_load_chunk_contract (Threaded.ChunkLoaderWorker_init 1) five_rows 2 2).
  lia.
Defined.

(** The query on five rows, from the third on, two at a time. *)
Example load_chunk_five_rows :
  (Threaded.load_chunk (Threaded.ChunkLoaderWorker_init 1) five_rows 2 2).2
  = (2, [(3, "gamma"); (4, "delta")]%string).
Proof. vm_compute. reflexivity. Qed.

(** ** The threaded model over its sessions *)

Section threaded_sessions.
Import Threaded.
Implicit Types (m : SqliteTableModel) (i : Qt.QModelIndex).

Lemma request_chunk_cases_range m c :
  _request_chunk m c = m
  \/ (0 <= c < _row_count m
      /\ _request_chunk m c
         = emit_request_chunk
             (set_cache m ({[c]} ∪ _pending_chunks m) (_chunk_cache m))
             c (_cache_size m)).
Proof.
  unfold _request_chunk.
  destruct (_ || _); [by left|].
  destruct (Z.ltb_spec c 0); [by left|].
  destruct (Z.geb_spec c (_row_count m)); [by left|].
  right. split; [lia|done].
Qed.

Lemma data_cases_aligned m i role :
  (data m i role).2 = m
  \/ exists q, (data m i role).2 = _request_chunk m (q * _cache_size m).
Proof.
  unfold data. destruct (_ || _); [by left|].
  destruct (py_floordiv _ _) as [q|e]; [|by left]. simpl.
  destruct (dict_get _ _) as [rows|]; simpl.
  - destruct (_ || _); [by left|]. destruct (rows !! _); by left.
  - right. by exists q.
Qed.

Lemma request_inv_request_chunk m q :
  _cache_size m = 1000 -> request_inv m ->
  request_inv (_request_chunk m (q * _cache_size m)).
Proof.
  intros Hsz [Hreq Hpend].
  destruct (request_chunk_cases_range m (q * _cache_size m)) as [->|[Hc ->]]; [done|].
  rewrite Hsz in *. split; simpl.
  - apply Forall_app. split; [done|]. constructor; [|done]. simpl.
    split; [done|]. split; [done|]. apply Z_mod_mult.
  - intros c [Hc'|Hc']%elem_of_union; apply elem_of_app.
    + right. apply elem_of_singleton in Hc'. subst c. apply list_elem_of_singleton. done.
    + left. by apply Hpend.
Qed.

Lemma request_inv_step m ev :
  cache_inv m -> request_inv m -> request_inv (step m ev).
Proof.
  intros Hinv Hr. destruct ev as [i role|c rows]; simpl.
  - destruct (data_cases_aligned m i role) as [->|[q ->]]; [done|].
    apply request_inv_request_chunk; [by destruct Hinv|done].
  - destruct Hr as [Hreq Hpend].
    destruct (on_chunk_loaded_settings m c rows) as (_ & _ & _ & Hrc & _).
    assert (Hrq : request_chunk (_on_chunk_loaded m c rows) = request_chunk m).
    { unfold _on_chunk_loaded. by destruct rows. }
    split.
    + by rewrite Hrq, Hrc.
    + intros c'. rewrite on_chunk_loaded_pending, Hrq.
      intros [Hc' _]%elem_of_difference. by apply Hpend.
Qed.

Lemma request_inv_run m evs :
  cache_inv m -> request_inv m -> request_inv (run m evs).
Proof.
  unfold run. revert m. induction evs as [|ev evs IH]; intros m Hinv Hr; [done|].
  simpl. apply IH; [by apply cache_inv_step|by apply request_inv_step].
Qed.

Lemma reachable_request_inv m : reachable m -> request_inv m.
Proof.
  intros (db & evs & ->). apply request_inv_run; [apply cache_inv_init|].
  split; simpl; [constructor|]. intros c Hc. by apply not_elem_of_empty in Hc.
Qed.

(** The counts taken at construction stay what they were. *)
Lemma step_snapshot m ev :
  _row_count (step m ev) = _row_count m /\ _first_id (step m ev) = _first_id m.
Proof.
  destruct ev as [i role|c rows]; simpl.
  - destruct (data_cases m i role) as [->|[c ->]]; [done|].
    by destruct (request_chunk_settings m c) as (_ & _ & _ & -> & -> & _).
  - by destruct (on_chunk_loaded_settings m c rows) as (_ & _ & _ & -> & ->).
Qed.

Lemma run_snapshot m evs :
  _row_count (run m evs) = _row_count m /\ _first_id (run m evs) = _first_id m.
Proof.
  unfold run. revert m. induction evs as [|ev evs IH]; intros m; [done|].
  simpl. destruct (IH (step m ev)) as [-> ->]. apply step_snapshot.
Qed.

(** [data] on an index the model built never raises. *)
Lemma data_returns m r c role :
  cache_inv m -> exists o, (data m (index m r c) role).1 = Return o.
Proof.
  intros (Hsz & _ & Hhd & _). unfold data.
  destruct (negb (Qt.isValid (index m r c)) || negb (role =? Qt.DisplayRole)) eqn:E;
    [by eexists|].
  apply orb_false_iff in E as [Hv _]. apply negb_false_iff in Hv.
  unfold py_floordiv. rewrite Hsz. simpl.
  destruct (dict_get _ _) as [rows|]; [|by eexists].
  destruct (_ || _) eqn:Eoff; [by eexists|].
  apply orb_false_iff in Eoff as [Hlo Hhi].
  destruct (rows !! _) as [rec|] eqn:Erow.
  - unfold index, Qt.index, columnCount in *. rewrite Hhd in *.
    destruct (_ && _) eqn:Eidx; [|done]. simpl.
    rewrite !andb_true_iff in Eidx. destruct Eidx as (((_ & Hc0) & _) & Hc2).
    change (len ["id"; "value"]%string) with 2 in Hc2.
    unfold tuple_getitem.
    assert (c = 0 \/ c = 1) as [-> | ->] by lia; simpl; by eexists.
  - apply lookup_ge_None in Erow. unfold len in Hhi. lia.
Qed.

End threaded_sessions.

(** X2. Every fetch request a reachable model has emitted is for a window
    start that is a multiple of 1000 and lies inside the table, and asks
    for 1000 rows. *)
Theorem X2_requests_are_windows (m : Threaded.SqliteTableModel) :
  Threaded.reachable m ->
  Forall (fun rq => rq.2 = 1000 /\ 0 <= rq.1 < Threaded.rowCount m
                    /\ rq.1 `mod` 1000 = 0)
    (Threaded.request_chunk m).
Proof. intros Hreach. by destruct (reachable_request_inv m Hreach). Qed.

Lemma X2_requests_are_windows_witness :
  Forall (fun rq => rq.2 = 1000 /\ 0 <= rq.1 < Threaded.rowCount model9000_requested
                    /\ rq.1 `mod` 1000 = 0)
    (Threaded.request_chunk model9000_requested).
Proof.
  apply (X2_requests_are_windows model9000_requested).
  apply model9000_requested_reachable.
Defined.

(** X3. In every reachable state a pending window has been requested, lies
    inside the table and is not in the cache. *)
Theorem X3_pending_windows (m : Threaded.SqliteTableModel) (c : Z) :
  Threaded.reachable m ->
  c ∈ Threaded._pending_chunks m ->
  (c, 1000) ∈ Threaded.request_chunk m
  /\ 0 <= c < Threaded.rowCount m
  /\ dict_get c (Threaded._chunk_cache m) = None.
Proof.
  intros Hreach Hc.
  destruct (reachable_request_inv m Hreach) as [Hreq Hpend].
  pose proof (reachable_cache_inv m Hreach) as (_ & _ & _ & _ & _ & Hdisj).
  pose proof (Hpend c Hc) as Hin. split; [done|]. split.
  - rewrite Forall_forall in Hreq. by destruct (Hreq _ Hin) as (_ & ? & _).
  - by apply dict_get_None, Hdisj.
Qed.

Lemma X3_pending_windows_witness :
  (0, 1000) ∈ Threaded.request_chunk model3_pending
  /\ 0 <= 0 < Threaded.rowCount model3_pending
  /\ dict_get 0 (Threaded._chunk_cache model3_pending) = None.
Proof.
  apply (X3_pending_windows model3_pending 0).
  - exists three_rows,
      [Threaded.EvData (Threaded.index model3 1 1) Qt.DisplayRole].
    reflexivity.
  - refine (bool_decide_unpack _ _). vm_compute. exact I.
Defined.

(** X4. In every reachable state, [data] on an index the model built with
    [index] returns, a value or [None], for every row, column and role: it
    raises nothing. *)
Theorem X4_data_never_raises (m : Threaded.SqliteTableModel) (r c role : Z) :
  Threaded.reachable m ->
  exists o, (Threaded.data m (Threaded.index m r c) role).1 = Return o.
Proof. intros Hreach. by apply data_returns, reachable_cache_inv. Qed.

Lemma X4_data_never_raises_witness :
  exists o,
    (Threaded.data model3_short (Threaded.index model3_short 0 1) Qt.DisplayRole).1
    = Return o.
Proof.
  apply (X4_data_never_raises model3_short 0 1 Qt.DisplayRole).
  exists three_rows,
    [Threaded.EvData (Threaded.index model3 1 1) Qt.DisplayRole;
     Threaded.EvChunkLoaded 0 [(1, "alpha"%string)]].
  reflexivity.
Defined.

(** ** The threaded model: how much it holds, and what it answers *)

Section threaded_contents.
Import Threaded.
Implicit Types (m : SqliteTableModel) (d : list (Z * list record)).

Lemma dict_setitem_Forall {V} (P : Z * V -> Prop) k v (d : list (Z * V)) :
  P (k, v) -> Forall P d -> Forall P (dict_setitem k v d).
Proof.
  intros Hkv. induction 1 as [|[k' v'] d Hx Hd IH]; simpl.
  - by constructor.
  - destruct (k' =? k); by constructor.
Qed.

Lemma evict_oldest_Forall (P : Z * list record -> Prop) max c d :
  Forall P d -> Forall P (evict_oldest max c d).
Proof.
  intros Hd. destruct (evict_oldest_suffix max c d) as (ev & Heq & _).
  rewrite Heq in Hd. by apply Forall_app in Hd as [_ ?].
Qed.

Lemma served_step_rows m ev :
  served ev ->
  Forall (fun kv => len kv.2 <= 1000) (_chunk_cache m) ->
  Forall (fun kv => len kv.2 <= 1000) (_chunk_cache (step m ev)).
Proof.
  intros Hev Hm. destruct ev as [i role|c rows]; simpl.
  - by rewrite data_cache.
  - destruct Hev as (w & db & ->). rewrite on_chunk_loaded_cache.
    apply evict_oldest_Forall, dict_setitem_Forall; [|done]. simpl.
    by destruct (select_from_contract db (w_first_id (_ensure_connection w) + c)
                   1000 ltac:(lia)) as [? _].
Qed.

Lemma served_run_rows m evs :
  Forall served evs ->
  Forall (fun kv => len kv.2 <= 1000) (_chunk_cache m) ->
  Forall (fun kv => len kv.2 <= 1000) (_chunk_cache (run m evs)).
Proof.
  unfold run. intros Hevs. revert m.
  induction Hevs as [|ev evs Hev _ IH]; intros m Hm; [done|].
  simpl. by apply IH, served_step_rows.
Qed.

Lemma cached_records_bound d :
  Forall (fun kv => len kv.2 <= 1000) d ->
  foldr (fun kv n => len kv.2 + n) 0 d <= 1000 * len d.
Proof.
  induction 1 as [|kv d Hkv _ IH]; simpl; [done|].
  unfold len in *. simpl. lia.
Qed.

(** A hit on a window that holds the rows of a dense table. *)
Lemma data_hit_dense m first n v p c :
  cache_inv m -> _row_count m = n -> 0 <= p < n ->
  dict_get (p / 1000 * 1000) (_chunk_cache m)
  = Some (dense_table (first + p / 1000 * 1000)
            (Z.min 1000 (n - p / 1000 * 1000)) v) ->
  c = 0 \/ c = 1 ->
  data m (index m p c) Qt.DisplayRole
  = (Return (Some (if c =? 0 then CellInt (first + p) else CellStr (v (first + p)))),
     m).
Proof.
  intros (Hsz & _ & Hhd & _) Hrc Hp Hget Hc.
  assert (Hidx : index m p c = {| Qt.isValid := true; Qt.row := p; Qt.column := c |}).
  { unfold index, Qt.index, rowCount, columnCount. rewrite Hrc, Hhd.
    change (len ["id"; "value"]%string) with 2.
    assert (E : ((0 <=? p) && (0 <=? c) && (p <? n) && (c <? 2)) = true).
    { rewrite !andb_true_iff. repeat split; lia. }
    by rewrite E. }
  pose proof (Z.mul_div_le p 1000 ltac:(lia)) as Hlo.
  pose proof (Z.mod_pos_bound p 1000 ltac:(lia)) as Hmod.
  pose proof (Z.div_mod p 1000 ltac:(lia)) as Hdm.
  rewrite (data_hit m (index m p c)
             (dense_table (first + p / 1000 * 1000)
                (Z.min 1000 (n - p / 1000 * 1000)) v)
             (first + p, v (first + p))).
  - rewrite Hidx. simpl. unfold tuple_getitem. simpl.
    by destruct Hc as [-> | ->].
  - by rewrite Hidx.
  - rewrite Hsz. lia.
  - by rewrite Hidx, Hsz.
  - rewrite Hidx, Hsz. simpl. lia.
  - rewrite Hidx, Hsz. cbn [Qt.row].
    rewrite dense_table_lookup by lia.
    replace (first + p / 1000 * 1000 + Z.of_nat (Z.to_nat (p - p / 1000 * 1000)))
      with (first + p) by lia.
    done.
Qed.

End threaded_contents.

(** X5. When every completion delivers what [load_chunk] read for a
    request of 1000 rows, the cache of the model never holds more than
    8000 records, whatever the table holds and whatever the view asks. *)
Theorem X5_cache_is_bounded (db : list record) (evs : list Threaded.event) :
  Forall served evs ->
  cached_records (Threaded.run (Threaded.SqliteTableModel_init db) evs) <= 8000.
Proof.
  intros Hevs. unfold cached_records.
  pose proof (cache_inv_run _ evs (cache_inv_init db)) as (_ & _ & _ & _ & Hlen & _).
  etrans; [apply cached_records_bound, served_run_rows; [done|constructor]|].
  lia.
Qed.

Lemma X5_cache_is_bounded_witness :
  cached_records
    (Threaded.run (Threaded.SqliteTableModel_init three_rows)
       [Threaded.EvData (Threaded.index model3 1 1) Qt.DisplayRole;
        Threaded.EvChunkLoaded 0
          (Threaded.load_chunk (Threaded.ChunkLoaderWorker_init 1) three_rows
             0 1000).2.2])
  <= 8000.
Proof.
  apply (X5_cache_is_bounded three_rows).
  repeat constructor.
  by exists (Threaded.ChunkLoaderWorker_init 1), three_rows.
Defined.

(** X6. Round trip of the threaded model.  Over a table with dense keys,
    in any state the model reached, once the rows the worker reads for the
    window of a position inside the table are delivered, [data] returns for
    that position the key [first + p] in column 0 and the value stored
    under that key in column 1, and leaves the model as it is. *)
Theorem X6_threaded_round_trip (first n : Z) (v : Z -> string)
    (evs : list Threaded.event) (p : Z) :
  0 <= p < n ->
  let db := dense_table first n v in
  let m := Threaded.run (Threaded.SqliteTableModel_init db) evs in
  let fetch := (Threaded.load_chunk
                  (Threaded.ChunkLoaderWorker_init (Threaded._first_id m))
                  db (p / 1000 * 1000) (Threaded._cache_size m)).2 in
  let m' := Threaded._on_chunk_loaded m fetch.1 fetch.2 in
  Threaded.data m' (Threaded.index m' p 0) Qt.DisplayRole
  = (Return (Some (CellInt (first + p))), m')
  /\ Threaded.data m' (Threaded.index m' p 1) Qt.DisplayRole
     = (Return (Some (CellStr (v (first + p)))), m').
Proof.
  intros Hp db m fetch m'.
  pose proof (cache_inv_run _ evs (cache_inv_init db)) as Hinv. fold m in Hinv.
  destruct (run_snapshot (Threaded.SqliteTableModel_init db) evs) as [Hrc Hfirst].
  fold m in Hrc, Hfirst.
  assert (Hcount : Threaded._row_count m = n).
  { rewrite Hrc. apply select_count_dense. lia. }
  assert (Hf : Threaded._first_id m = first).
  { rewrite Hfirst. unfold db. cbn [Threaded.SqliteTableModel_init Threaded._first_id].
    by rewrite select_min_id_dense by lia. }
  pose proof (Z.mul_div_le p 1000 ltac:(lia)) as Hlo.
  pose proof (Z.div_pos p 1000 ltac:(lia) ltac:(lia)) as Hq.
  assert (Hfetch : fetch = (p / 1000 * 1000,
                            dense_table (first + p / 1000 * 1000)
                              (Z.min 1000 (n - p / 1000 * 1000)) v)).
  { unfold fetch, Threaded.load_chunk. cbn [snd]. f_equal.
    change (Threaded.w_first_id (Threaded._ensure_connection
              (Threaded.ChunkLoaderWorker_init (Threaded._first_id m))))
      with (Threaded._first_id m).
    destruct Hinv as (-> & _). rewrite Hf. unfold db.
    rewrite select_from_dense by lia. f_equal. lia. }
  assert (Hinv' : cache_inv m') by (by apply cache_inv_on_chunk_loaded).
  assert (Hcount' : Threaded._row_count m' = n).
  { unfold m'. by destruct (on_chunk_loaded_settings m fetch.1 fetch.2)
      as (_ & _ & _ & -> & _). }
  assert (Hget : dict_get (p / 1000 * 1000) (Threaded._chunk_cache m')
                 = Some (dense_table (first + p / 1000 * 1000)
                           (Z.min 1000 (n - p / 1000 * 1000)) v)).
  { unfold m'. rewrite Hfetch. apply on_chunk_loaded_resident. }
  split.
  - by rewrite (data_hit_dense m' first n v p 0) by (done || by left).
  - by rewrite (data_hit_dense m' first n v p 1) by (done || by right).
Qed.

Lemma X6_threaded_round_trip_witness :
  let db := dense_table 1 3 (fun k => pretty k) in
  let m := Threaded.run (Threaded.SqliteTableModel_init db) [] in
  let fetch := (Threaded.load_chunk
                  (Threaded.ChunkLoaderWorker_init (Threaded._first_id m))
                  db (2 / 1000 * 1000) (Threaded._cache_size m)).2 in
  let m' := Threaded._on_chunk_loaded m fetch.1 fetch.2 in
  Threaded.data m' (Threaded.index m' 2 0) Qt.DisplayRole
  = (Return (Some (CellInt (1 + 2))), m')
  /\ Threaded.data m' (Threaded.index m' 2 1) Qt.DisplayRole
     = (Return (Some (CellStr (pretty (1 + 2)))), m').
Proof.
  apply (X6_threaded_round_trip 1 3 (fun k => pretty k) [] 2). lia.
Defined.

(** X7. Eviction is first in, first out.  In a reachable state, after
    completions for distinct windows none of which is resident, the cache
    is the old entries followed by the new ones in the order they
    completed, less as many of the oldest as exceed eight entries. *)
Theorem X7_eviction_is_fifo (m : Threaded.SqliteTableModel)
    (l : list (Z * list record)) :
  Threaded.reachable m ->
  NoDup l.*1 ->
  Forall (fun c => c ∉ dict_keys (Threaded._chunk_cache m)) l.*1 ->
  Threaded._chunk_cache (complete_fetches m l)
  = drop (Z.to_nat (len (Threaded._chunk_cache m) + len l - 8))
      (Threaded._chunk_cache m ++ l).
Proof.
  intros Hreach Hnd Hfresh. apply complete_fetches_fifo; [|done|].
  - by apply reachable_cache_inv.
  - by apply Forall_forall.
Qed.

Lemma X7_eviction_is_fifo_witness :
  Threaded._chunk_cache
    (complete_fetches model3_full [(8000, three_rows); (9000, [])])
  = drop (Z.to_nat (len (Threaded._chunk_cache model3_full)
                    + len [(8000, three_rows); (9000, @nil record)] - 8))
      (Threaded._chunk_cache model3_full ++ [(8000, three_rows); (9000, [])]).
Proof.
  apply (X7_eviction_is_fifo model3_full [(8000, three_rows); (9000, [])]).
  - exists three_rows,
      ((fun k => Threaded.EvChunkLoaded (1000 * k) []) <$> seqZ 0 8).
    reflexivity.
  - refine (bool_decide_unpack _ _). vm_compute. exact I.
  - refine (bool_decide_unpack _ _). vm_compute. exact I.
Defined.

(** ** The threaded model: the notification of a completed request *)

(** C6. The change notification of a fetch completion.  Over a table with
    dense keys, in any state the model reached, take any request the model
    emitted and the rows the worker reads for it from that table.  The
    completion carries the window start of the request and at least one
    row; once [_on_chunk_loaded] has run, the rows are in the cache under
    the window start, and the model has emitted one more change
    notification, from column 0 of row [window_start] to the last column of
    row [window_start + len rows - 1].  These are the rows of the window
    that the table has, and for every cell of the notified range [data] now
    returns the value of the table. *)
Theorem C6_change_notification (first n : Z) (v : Z -> string)
    (evs : list Threaded.event) (window_start size : Z) :
  let db := dense_table first n v in
  let m := Threaded.run (Threaded.SqliteTableModel_init db) evs in
  (window_start, size) ∈ Threaded.request_chunk m ->
  let completion := (Threaded.load_chunk
                       (Threaded.ChunkLoaderWorker_init (Threaded._first_id m))
                       db window_start size).2 in
  let rows := completion.2 in
  let m' := Threaded._on_chunk_loaded m completion.1 rows in
  completion.1 = window_start
  /\ rows <> []
  /\ dict_get window_start (Threaded._chunk_cache m') = Some rows
  /\ Threaded.dataChanged m'
     = Threaded.dataChanged m
       ++ [({| Qt.isValid := true; Qt.row := window_start; Qt.column := 0 |},
            {| Qt.isValid := true; Qt.row := window_start + len rows - 1;
               Qt.column := Threaded.columnCount m - 1 |})]
  /\ window_start + len rows
     = Z.min (window_start + 1000) (Threaded.rowCount m)
  /\ (forall p col,
        window_start <= p <= window_start + len rows - 1 ->
        0 <= col <= Threaded.columnCount m - 1 ->
        Threaded.data m' (Threaded.index m' p col) Qt.DisplayRole
        = (Return (Some (if col =? 0 then CellInt (first + p)
                         else CellStr (v (first + p)))), m')).
Proof.
  intros db m Hin completion rows m'.
  pose proof (cache_inv_run _ evs (cache_inv_init db)) as Hinv. fold m in Hinv.
  assert (Hreach : Threaded.reachable m) by (by exists db, evs).
  destruct (reachable_request_inv _ Hreach) as [Hreq _].
  rewrite Forall_forall in Hreq.
  destruct (Hreq _ Hin) as (Hsize & Hc & Hmod). cbn [fst snd] in Hsize, Hc, Hmod.
  destruct (run_snapshot (Threaded.SqliteTableModel_init db) evs) as [Hrc Hfirst].
  fold m in Hrc, Hfirst.
  assert (Hn : 0 < n).
  { destruct (decide (0 < n)) as [|Hn]; [done|].
    rewrite Hrc in Hc. unfold db in Hc.
    rewrite dense_table_nil in Hc by lia.
    change (0 <= window_start < 0) in Hc. lia. }
  assert (Hcount : Threaded._row_count m = n).
  { rewrite Hrc. apply select_count_dense. lia. }
  assert (Hf : Threaded._first_id m = first).
  { rewrite Hfirst. unfold db. cbn [Threaded.SqliteTableModel_init Threaded._first_id].
    by rewrite select_min_id_dense by lia. }
  assert (Hcompletion : completion
                        = (window_start,
                           dense_table (first + window_start)
                             (Z.min 1000 (n - window_start)) v)).
  { unfold completion, Threaded.load_chunk. cbn [snd]. f_equal.
    change (Threaded.w_first_id (Threaded._ensure_connection
              (Threaded.ChunkLoaderWorker_init (Threaded._first_id m))))
      with (Threaded._first_id m).
    rewrite Hf, Hsize. unfold db.
    rewrite select_from_dense by lia. f_equal. lia. }
  assert (Hlen : len rows = Z.min 1000 (n - window_start)).
  { unfold rows. rewrite Hcompletion. cbn [snd]. unfold len.
    rewrite dense_table_length. lia. }
  assert (Hrows : rows <> []).
  { intros E. rewrite E in Hlen. unfold len in Hlen. simpl in Hlen. lia. }
  assert (Hstart : completion.1 = window_start) by (by rewrite Hcompletion).
  assert (Hinv' : cache_inv m') by (by apply cache_inv_on_chunk_loaded).
  assert (Hcount' : Threaded._row_count m' = n).
  { unfold m'. by destruct (on_chunk_loaded_settings m completion.1 rows)
      as (_ & _ & _ & -> & _). }
  assert (Hget : dict_get window_start (Threaded._chunk_cache m') = Some rows).
  { unfold m'. rewrite Hstart. apply on_chunk_loaded_resident. }
  destruct Hinv as (_ & _ & Hhd & _).
  assert (Hcols : Threaded.columnCount m = 2).
  { unfold Threaded.columnCount. by rewrite Hhd. }
  split; [done|]. split; [done|]. split; [done|]. split; [|split].
  - unfold m'. rewrite Hstart, on_chunk_loaded_notifies by done.
    rewrite Hcols, Hhd, Hcount. unfold Qt.index.
    change (len ["id"; "value"]%string) with 2.
    rewrite (Z.min_l (window_start + len rows - 1) (n - 1)) by lia.
    assert (E1 : ((0 <=? window_start) && (0 <=? 0)
                  && (window_start <? n) && (0 <? 2)) = true).
    { rewrite !andb_true_iff. repeat split; lia. }
    assert (E2 : ((0 <=? window_start + len rows - 1) && (0 <=? 2 - 1)
                  && (window_start + len rows - 1 <? n) && (2 - 1 <? 2)) = true).
    { rewrite !andb_true_iff. repeat split; lia. }
    by rewrite E1, E2.
  - unfold Threaded.rowCount. lia.
  - intros p col Hp Hcol. rewrite Hcols in Hcol.
    assert (Hwin : p / 1000 * 1000 = window_start).
    { pose proof (Z.div_mod window_start 1000 ltac:(lia)) as Hdm.
      rewrite Hmod in Hdm.
      rewrite <- (Z.div_unique_pos p 1000 (window_start / 1000)
                    (p - window_start)) by lia.
      lia. }
    apply (data_hit_dense m' first n v p col); [done|done|lia| |lia].
    rewrite Hwin, Hget. unfold rows. by rewrite Hcompletion.
Qed.

Lemma C6_change_notification_witness :
  let db := dense_table 1 3 (fun k => pretty k) in
  let m := Threaded.run (Threaded.SqliteTableModel_init db)
             [Threaded.EvData
                (Threaded.index (Threaded.SqliteTableModel_init db) 1 1)
                Qt.DisplayRole] in
  (0, 1000) ∈ Threaded.request_chunk m
  /\ let completion := (Threaded.load_chunk
                          (Threaded.ChunkLoaderWorker_init (Threaded._first_id m))
                          db 0 1000).2 in
     let rows := completion.2 in
     let m' := Threaded._on_chunk_loaded m completion.1 rows in
     completion.1 = 0
     /\ rows <> []
     /\ dict_get 0 (Threaded._chunk_cache m') = Some rows
     /\ Threaded.dataChanged m'
        = Threaded.dataChanged m
          ++ [({| Qt.isValid := true; Qt.row := 0; Qt.column := 0 |},
               {| Qt.isValid := true; Qt.row := 0 + len rows - 1;
                  Qt.column := Threaded.columnCount m - 1 |})]
     /\ 0 + len rows = Z.min (0 + 1000) (Threaded.rowCount m)
     /\ (forall p col,
           0 <= p <= 0 + len rows - 1 ->
           0 <= col <= Threaded.columnCount m - 1 ->
           Threaded.data m' (Threaded.index m' p col) Qt.DisplayRole
           = (Return (Some (if col =? 0 then CellInt (1 + p)
                            else CellStr (pretty (1 + p)))), m')).
Proof.
  assert (Hin : (0, 1000)
                ∈ Threaded.request_chunk
                    (Threaded.run
                       (Threaded.SqliteTableModel_init
                          (dense_table 1 3 (fun k => pretty k)))
                       [Threaded.EvData
                          (Threaded.index
                             (Threaded.SqliteTableModel_init
                                (dense_table 1 3 (fun k => pretty k))) 1 1)
                          Qt.DisplayRole])).
  { refine (bool_decide_unpack _ _). vm_compute. exact I. }
  split; [exact Hin|].
  apply (C6_change_notification 1 3 (fun k => pretty k)
           [Threaded.EvData
              (Threaded.index
                 (Threaded.SqliteTableModel_init
                    (dense_table 1 3 (fun k => pretty k))) 1 1)
              Qt.DisplayRole] 0 1000).
  exact Hin.
Defined.

(** ** The window of the threaded program *)

Section threaded_window.
Import Threaded.
Variable transform_fn : Z -> string -> py_result string.
Variable int_of_str : string -> py_result Z.
Implicit Types (m : SqliteTableModel) (w : ThreadedWindow.MainWindow).

Lemma index_in_table m p c :
  cache_inv m -> 0 <= p < _row_count m -> c = 0 \/ c = 1 ->
  index m p c = {| Qt.isValid := true; Qt.row := p; Qt.column := c |}.
Proof.
  intros (_ & _ & Hhd & _) Hp Hc.
  unfold index, Qt.index, rowCount, columnCount. rewrite Hhd.
  change (len ["id"; "value"]%string) with 2.
  assert (E : ((0 <=? p) && (0 <=? c) && (p <? _row_count m) && (c <? 2)) = true).
  { rewrite !andb_true_iff. repeat split; lia. }
  by rewrite E.
Qed.

(** A request for a window inside the table that is not cached leaves the
    window pending. *)
Lemma request_chunk_in_table m c :
  cache_inv m -> 0 <= c < _row_count m ->
  dict_get c (_chunk_cache m) = None ->
  c ∈ _pending_chunks (_request_chunk m c)
  /\ cache_inv (_request_chunk m c)
  /\ _chunk_cache (_request_chunk m c) = _chunk_cache m
  /\ _row_count (_request_chunk m c) = _row_count m
  /\ _first_id (_request_chunk m c) = _first_id m.
Proof.
  intros Hinv Hc Hget.
  split; [|split; [by apply cache_inv_request_chunk|]].
  - unfold _request_chunk.
    destruct (bool_decide_reflect (c ∈ _pending_chunks m)) as [Hin|Hnin]; [done|].
    unfold dict_contains. rewrite Hget. simpl.
    destruct (Z.ltb_spec c 0); [lia|]. destruct (Z.geb_spec c (_row_count m)); [lia|].
    simpl. apply elem_of_union. left. by apply elem_of_singleton.
  - split; [apply request_chunk_cache|].
    by destruct (request_chunk_settings m c) as (_ & _ & _ & -> & -> & _).
Qed.

(** Selecting a row whose window is not cached shows the placeholder and
    leaves the window pending. *)
Lemma select_uncached w current p :
  cache_inv (ThreadedWindow.model w) ->
  Qt.isValid current = true -> Qt.row current = p ->
  0 <= p < _row_count (ThreadedWindow.model w) ->
  dict_get (p / 1000 * 1000) (_chunk_cache (ThreadedWindow.model w)) = None ->
  exists m',
    ThreadedWindow.select transform_fn int_of_str w current
    = {| ThreadedWindow.model := m';
         ThreadedWindow.detail_value := "Loading...";
         ThreadedWindow.currentIndex := current |}
    /\ p / 1000 * 1000 ∈ _pending_chunks m'
    /\ cache_inv m'
    /\ _chunk_cache m' = _chunk_cache (ThreadedWindow.model w)
    /\ _row_count m' = _row_count (ThreadedWindow.model w)
    /\ _first_id m' = _first_id (ThreadedWindow.model w).
Proof.
  intros Hinv Hv Hrow Hp Hget. set (m := ThreadedWindow.model w) in *.
  pose proof Hinv as (Hsz & _).
  pose proof (Z.mul_div_le p 1000 ltac:(lia)) as Hlo.
  pose proof (Z.div_pos p 1000 ltac:(lia) ltac:(lia)) as Hq.
  destruct (request_chunk_in_table m (p / 1000 * 1000) Hinv ltac:(lia) Hget)
    as (Hpend1 & Hinv1 & Hcache1 & Hrc1 & Hf1).
  set (m1 := _request_chunk m (p / 1000 * 1000)) in *.
  assert (Hget1 : dict_get (p / 1000 * 1000) (_chunk_cache m1) = None)
    by (by rewrite Hcache1).
  assert (Hm2 : _request_chunk m1 (p / 1000 * 1000) = m1)
    by (apply request_chunk_noop; by left).
  exists m1. split; [|done].
  unfold ThreadedWindow.select, ThreadedWindow._on_current_row_changed.
  rewrite Hv, Hrow. cbn [negb ThreadedWindow.model]. fold m.
  rewrite (index_in_table m p 0), (index_in_table m p 1)
    by solve [done | lia | left; done | right; done].
  rewrite (data_miss m) by (done || (rewrite Hsz; lia) || by rewrite Hsz).
  rewrite Hsz. cbn [Qt.row]. fold m1.
  pose proof Hinv1 as (Hsz1 & _).
  rewrite (data_miss m1) by (done || (rewrite Hsz1; lia) || by rewrite Hsz1).
  rewrite Hsz1. cbn [Qt.row]. by rewrite Hm2.
Qed.

(** Selecting or re-reading a row whose window holds the rows of a dense
    table shows what the extension point makes of the row: its result, the
    raw value when it is not implemented, and the text as it was when it
    raises anything else. *)
Lemma on_current_row_changed_cached w current first n v p :
  cache_inv (ThreadedWindow.model w) ->
  _row_count (ThreadedWindow.model w) = n ->
  Qt.isValid current = true -> Qt.row current = p -> 0 <= p < n ->
  dict_get (p / 1000 * 1000) (_chunk_cache (ThreadedWindow.model w))
  = Some (dense_table (first + p / 1000 * 1000)
            (Z.min 1000 (n - p / 1000 * 1000)) v) ->
  ThreadedWindow._on_current_row_changed transform_fn int_of_str w current
  = match transform_fn (first + p) (v (first + p)) with
    | Return d => ThreadedWindow.setPlainText w d
    | Raise exc =>
        if isinstance_NotImplementedError exc
        then ThreadedWindow.setPlainText w (v (first + p))
        else w
    end.
Proof.
  intros Hinv Hrc Hv Hrow Hp Hget.
  unfold ThreadedWindow._on_current_row_changed. rewrite Hv, Hrow. cbn [negb].
  rewrite (data_hit_dense _ first n v p 0) by (done || by left).
  rewrite (data_hit_dense _ first n v p 1) by (done || by right).
  cbn [Z.eqb Thread.py_int Thread.py_str py_bind].
  assert (Hw : ThreadedWindow.set_model w (ThreadedWindow.model w) = w)
    by (by destruct w).
  rewrite Hw. by destruct (transform_fn _ _) as [d|exc].
Qed.

End threaded_window.

(** X8. The window of the threaded program, over a table with dense keys.
    When the user selects a row inside the table whose window is not
    cached, the detail pane shows "Loading..." and the window is pending.
    When the rows the worker reads for that window are delivered, the
    notification of the model makes the window read the row again, and the
    pane shows what the extension point returns for the key and the value
    of the row; the value itself when the extension point is not
    implemented; and still "Loading..." when it raises anything else. *)
Theorem X8_loading_then_value (transform_fn : Z -> string -> py_result string)
    (int_of_str : string -> py_result Z) (first n : Z) (v : Z -> string)
    (evs : list Threaded.event) (text : string) (ci : Qt.QModelIndex)
    (p c0 : Z) :
  0 <= p < n -> c0 = 0 \/ c0 = 1 ->
  let db := dense_table first n v in
  let m := Threaded.run (Threaded.SqliteTableModel_init db) evs in
  dict_get (p / 1000 * 1000) (Threaded._chunk_cache m) = None ->
  let w := {| ThreadedWindow.model := m;
              ThreadedWindow.detail_value := text;
              ThreadedWindow.currentIndex := ci |} in
  let w1 := ThreadedWindow.select transform_fn int_of_str w
              (Threaded.index m p c0) in
  let rows := (Threaded.load_chunk
                 (Threaded.ChunkLoaderWorker_init
                    (Threaded._first_id (ThreadedWindow.model w1)))
                 db (p / 1000 * 1000)
                 (Threaded._cache_size (ThreadedWindow.model w1))).2.2 in
  let w2 := ThreadedWindow.chunk_loaded transform_fn int_of_str w1
              (p / 1000 * 1000) rows in
  ThreadedWindow.detail_value w1 = "Loading..."%string
  /\ p / 1000 * 1000 ∈ Threaded._pending_chunks (ThreadedWindow.model w1)
  /\ ThreadedWindow.detail_value w2
     = match transform_fn (first + p) (v (first + p)) with
       | Return d => d
       | Raise exc =>
           if isinstance_NotImplementedError exc then v (first + p)
           else "Loading..."%string
       end.
Proof.
  intros Hp Hc0 db m Hmiss w w1 rows w2.
  pose proof (cache_inv_run _ evs (cache_inv_init db)) as Hinv. fold m in Hinv.
  destruct (run_snapshot (Threaded.SqliteTableModel_init db) evs) as [Hrc Hfirst].
  fold m in Hrc, Hfirst.
  assert (Hcount : Threaded._row_count m = n).
  { rewrite Hrc. apply select_count_dense. lia. }
  assert (Hf : Threaded._first_id m = first).
  { rewrite Hfirst. unfold db. cbn [Threaded.SqliteTableModel_init Threaded._first_id].
    by rewrite select_min_id_dense by lia. }
  pose proof (Z.mul_div_le p 1000 ltac:(lia)) as Hlo.
  pose proof (Z.div_pos p 1000 ltac:(lia) ltac:(lia)) as Hq.
  pose proof (Z.mod_pos_bound p 1000 ltac:(lia)) as Hmod.
  pose proof (Z.div_mod p 1000 ltac:(lia)) as Hdm.
  assert (Hcur : Threaded.index m p c0
                 = {| Qt.isValid := true; Qt.row := p; Qt.column := c0 |})
    by (apply index_in_table; [done|lia|done]).
  destruct (select_uncached transform_fn int_of_str w (Threaded.index m p c0) p)
    as (m1 & Hw1 & Hpend1 & Hinv1 & Hcache1 & Hrc1 & Hf1);
    [done|by rewrite Hcur|by rewrite Hcur|simpl; lia|done|].
  fold w1 in Hw1. simpl in Hrc1, Hf1, Hcache1.
  assert (Hrows : rows = dense_table (first + p / 1000 * 1000)
                           (Z.min 1000 (n - p / 1000 * 1000)) v).
  { unfold rows, Threaded.load_chunk. rewrite Hw1. cbn [snd ThreadedWindow.model].
    change (Threaded.w_first_id (Threaded._ensure_connection
              (Threaded.ChunkLoaderWorker_init (Threaded._first_id m1))))
      with (Threaded._first_id m1).
    destruct Hinv1 as (-> & _). rewrite Hf1, Hf. unfold db.
    rewrite select_from_dense by lia. f_equal. lia. }
  split; [by rewrite Hw1|]. split; [by rewrite Hw1|].
  clearbody rows. subst rows.
  set (rows := dense_table (first + p / 1000 * 1000)
                 (Z.min 1000 (n - p / 1000 * 1000)) v) in *.
  assert (Hlen : len rows = Z.min 1000 (n - p / 1000 * 1000)).
  { unfold len, rows. rewrite dense_table_length. lia. }
  assert (Hne : rows <> []).
  { intros E. rewrite E in Hlen. unfold len in Hlen. simpl in Hlen. lia. }
  set (m2 := Threaded._on_chunk_loaded m1 (p / 1000 * 1000) rows).
  assert (Hinv2 : cache_inv m2) by (by apply cache_inv_on_chunk_loaded).
  assert (Hrc2 : Threaded._row_count m2 = n).
  { unfold m2. destruct (on_chunk_loaded_settings m1 (p / 1000 * 1000) rows)
      as (_ & _ & _ & -> & _). lia. }
  assert (Hget2 : dict_get (p / 1000 * 1000) (Threaded._chunk_cache m2) = Some rows)
    by apply on_chunk_loaded_resident.
  assert (Hnote : drop (length (Threaded.dataChanged m1)) (Threaded.dataChanged m2)
                  = [({| Qt.isValid := true; Qt.row := p / 1000 * 1000;
                         Qt.column := 0 |},
                      {| Qt.isValid := true;
                         Qt.row := Z.min (p / 1000 * 1000 + len rows - 1) (n - 1);
                         Qt.column := 1 |})]).
  { unfold m2. rewrite on_chunk_loaded_notifies by done. rewrite drop_app_length.
    pose proof Hinv1 as (_ & _ & Hhd & _). rewrite Hhd.
    change (len ["id"; "value"]%string) with 2. change (2 - 1) with 1.
    pose proof (index_in_table m1 (p / 1000 * 1000) 0 Hinv1) as E1.
    pose proof (index_in_table m1
                  (Z.min (p / 1000 * 1000 + len rows - 1) (Threaded._row_count m1 - 1))
                  1 Hinv1) as E2.
    unfold Threaded.index, Threaded.rowCount, Threaded.columnCount in E1, E2.
    rewrite Hhd in E1, E2. change (len ["id"; "value"]%string) with 2 in E1, E2.
    rewrite E1, E2 by (lia || by left || by right). by rewrite Hrc1, Hcount. }
  unfold w2, ThreadedWindow.chunk_loaded. rewrite Hw1. cbn [ThreadedWindow.model].
  fold m2. rewrite Hnote. cbn [foldl fst snd].
  unfold ThreadedWindow._on_model_data_changed.
  cbn [ThreadedWindow.set_model ThreadedWindow.currentIndex]. rewrite Hcur.
  cbn [Qt.isValid Qt.row negb].
  assert (Hcover : ((p / 1000 * 1000 <=? p)
                    && (p <=? Z.min (p / 1000 * 1000 + len rows - 1) (n - 1))) = true).
  { rewrite andb_true_iff. split; lia. }
  rewrite Hcover.
  rewrite (on_current_row_changed_cached transform_fn int_of_str _ _ first n v p);
    try done.
  by destruct (transform_fn _ _) as [d|exc]; [|destruct (isinstance_NotImplementedError exc)].
Qed.

Lemma X8_loading_then_value_witness :
  let db := dense_table 1 3 (fun k => pretty k) in
  let m := Threaded.run (Threaded.SqliteTableModel_init db) [] in
  let w := {| ThreadedWindow.model := m;
              ThreadedWindow.detail_value := EmptyString;
              ThreadedWindow.currentIndex := Qt.invalid_index |} in
  let w1 := ThreadedWindow.select Thread.transform_detail_data no_int_of_str w
              (Threaded.index m 1 0) in
  let rows := (Threaded.load_chunk
                 (Threaded.ChunkLoaderWorker_init
                    (Threaded._first_id (ThreadedWindow.model w1)))
                 db (1 / 1000 * 1000)
                 (Threaded._cache_size (ThreadedWindow.model w1))).2.2 in
  let w2 := ThreadedWindow.chunk_loaded Thread.transform_detail_data
              no_int_of_str w1 (1 / 1000 * 1000) rows in
  ThreadedWindow.detail_value w1 = "Loading..."%string
  /\ 1 / 1000 * 1000 ∈ Threaded._pending_chunks (ThreadedWindow.model w1)
  /\ ThreadedWindow.detail_value w2
     = match Thread.transform_detail_data (1 + 1) (pretty (1 + 1)) with
       | Return d => d
       | Raise exc =>
           if isinstance_NotImplementedError exc then pretty (1 + 1)
           else "Loading..."%string
       end.
Proof.
  apply (X8_loading_then_value Thread.transform_detail_data no_int_of_str
           1 3 (fun k => pretty k) [] EmptyString Qt.invalid_index 1 0).
  - lia.
  - by left.
  - reflexivity.
Defined.

(** The same session, evaluated: the pane shows the value of the second
    row once the window has arrived. *)
Example window_over_three_rows :
  let w := ThreadedWindow.MainWindow_init Thread.transform_detail_data
             no_int_of_str three_rows in
  ThreadedWindow.detail_value w = "Loading..."%string
  /\ ThreadedWindow.detail_value
       (ThreadedWindow.chunk_loaded Thread.transform_detail_data no_int_of_str
          (ThreadedWindow.select Thread.transform_detail_data no_int_of_str w
             (Threaded.index (ThreadedWindow.model w) 1 0))
          0 three_rows)
     = "beta"%string.
Proof. vm_compute. done. Qed.

(** ** The synchronous model *)

Section sync_model.
Import Thread.
Implicit Types (m : SqliteTableModel).

Lemma sync_inv_init first n v :
  0 < n -> sync_inv first n v (SqliteTableModel_init (dense_table first n v)).
Proof.
  intros Hn. unfold sync_inv. simpl.
  rewrite select_count_dense by lia. rewrite select_min_id_dense by done.
  repeat split; try done. by left.
Qed.

Lemma sync_index_in_table first n v m p c :
  sync_inv first n v m -> 0 <= p < n -> c = 0 \/ c = 1 ->
  index m p c = {| Qt.isValid := true; Qt.row := p; Qt.column := c |}.
Proof.
  intros (_ & Hrc & _ & _ & Hhd & _) Hp Hc.
  unfold index, Qt.index, rowCount, columnCount. rewrite Hrc, Hhd.
  change (len ["id"; "value"]%string) with 2.
  assert (E : ((0 <=? p) && (0 <=? c) && (p <? n) && (c <? 2)) = true).
  { rewrite !andb_true_iff. repeat split; lia. }
  by rewrite E.
Qed.

(** After [_ensure_cache] for a row of the table, the cache holds that row
    at its offset, and the model is consistent as before. *)
Lemma ensure_cache_dense first n v m p :
  sync_inv first n v m -> 0 <= p < n ->
  sync_inv first n v (_ensure_cache m p)
  /\ 0 <= p - _cache_start (_ensure_cache m p)
  /\ _cache_rows (_ensure_cache m p)
     !! Z.to_nat (p - _cache_start (_ensure_cache m p))
     = Some (first + p, v (first + p)).
Proof.
  intros Hinv Hp. pose proof Hinv as (Hconn & Hrc & Hf & Hsz & Hhd & Hcache).
  unfold _ensure_cache.
  destruct ((_cache_start m <=? p) && (p <? _cache_start m + len (_cache_rows m)))
    eqn:Ein.
  - apply andb_true_iff in Ein as [Hlo Hhi].
    apply Z.leb_le in Hlo. apply Z.ltb_lt in Hhi.
    destruct Hcache as [Hnil|[Hstart Hrows]].
    + rewrite Hnil in Hhi. unfold len in Hhi. simpl in Hhi. lia.
    + split; [done|]. split; [lia|].
      rewrite Hrows in Hhi |- *. unfold len in Hhi.
      rewrite dense_table_length in Hhi.
      rewrite dense_table_lookup by lia.
      replace (first + _cache_start m + Z.of_nat (Z.to_nat (p - _cache_start m)))
        with (first + p) by lia.
      done.
  - rewrite Hsz, Hf, Hconn. change (1000 / 2) with 500.
    assert (Hs : 0 <= Z.max 0 (p - 500) <= p) by lia.
    rewrite select_from_dense by lia.
    replace (first + n - (first + Z.max 0 (p - 500))) with (n - Z.max 0 (p - 500))
      by lia.
    cbn [_cache_start _cache_rows]. split; [|split; [lia|]].
    + unfold sync_inv. cbn. repeat split; try done. right. split; [lia|done].
    + rewrite dense_table_lookup by lia.
      replace (first + Z.max 0 (p - 500) + Z.of_nat (Z.to_nat (p - Z.max 0 (p - 500))))
        with (first + p) by lia.
      done.
Qed.

(** [data] for a cell of the table answers with the key or the value of the
    row at that position. *)
Lemma sync_data_dense first n v m p c :
  sync_inv first n v m -> 0 <= p < n -> c = 0 \/ c = 1 ->
  data m (index m p c) Qt.DisplayRole
  = (Return (Some (if c =? 0 then CellInt (first + p) else CellStr (v (first + p)))),
     _ensure_cache m p)
  /\ sync_inv first n v (_ensure_cache m p).
Proof.
  intros Hinv Hp Hc.
  destruct (ensure_cache_dense first n v m p Hinv Hp) as (Hinv' & Hoff & Hrow).
  split; [|done].
  rewrite (sync_index_in_table first n v m p c) by done.
  unfold data. cbn [Qt.isValid Qt.row Qt.column negb orb Z.eqb Qt.DisplayRole].
  pose proof (lookup_lt_Some _ _ _ Hrow) as Hlt.
  assert (E : ((p - _cache_start (_ensure_cache m p) <? 0)
               || (p - _cache_start (_ensure_cache m p)
                   >=? len (_cache_rows (_ensure_cache m p)))) = false).
  { apply orb_false_iff. unfold len. split; lia. }
  rewrite E, Hrow. unfold tuple_getitem. by destruct Hc as [-> | ->].
Qed.

(** Any request for an index the model built keeps the model consistent. *)
Lemma sync_data_inv first n v m r c role :
  sync_inv first n v m -> sync_inv first n v (data m (index m r c) role).2.
Proof.
  intros Hinv. pose proof Hinv as (_ & Hrc & _ & _ & Hhd & _).
  unfold data.
  destruct (negb (Qt.isValid (index m r c)) || negb (role =? Qt.DisplayRole)) eqn:E;
    [done|].
  apply orb_false_iff in E as [Hv _]. apply negb_false_iff in Hv.
  unfold index, Qt.index, rowCount, columnCount in *. rewrite Hrc, Hhd in *.
  destruct (_ && _) eqn:Eidx; [|done]. cbn [Qt.row Qt.column].
  rewrite !andb_true_iff in Eidx. destruct Eidx as (((Hr0 & _) & Hrn) & _).
  destruct (ensure_cache_dense first n v m r Hinv ltac:(lia)) as (Hinv' & _).
  destruct (_ || _); [done|]. by destruct (_ !! _).
Qed.

Lemma sync_requests_inv first n v m calls :
  sync_inv first n v m -> sync_inv first n v (sync_requests m calls).
Proof.
  unfold sync_requests. revert m.
  induction calls as [|[[r c] role] calls IH]; intros m Hinv; [done|].
  simpl. by apply IH, sync_data_inv.
Qed.

(** The cache never outgrows the window size, whatever the table holds. *)
Lemma ensure_cache_bound m row :
  0 <= _cache_size m -> len (_cache_rows m) <= _cache_size m ->
  len (_cache_rows (_ensure_cache m row)) <= _cache_size (_ensure_cache m row)
  /\ _cache_size (_ensure_cache m row) = _cache_size m.
Proof.
  intros Hsz Hlen. unfold _ensure_cache. destruct (_ && _); [done|].
  cbn [_cache_rows _cache_size]. split; [|done].
  by destruct (select_from_contract (conn m)
                 (_first_id m + Z.max 0 (row - _cache_size m / 2))
                 (_cache_size m) Hsz) as [? _].
Qed.

Lemma sync_data_bound m i role :
  0 <= _cache_size m -> len (_cache_rows m) <= _cache_size m ->
  len (_cache_rows (data m i role).2) <= _cache_size (data m i role).2
  /\ _cache_size (data m i role).2 = _cache_size m.
Proof.
  intros Hsz Hlen. unfold data. destruct (_ || _); [done|].
  destruct (ensure_cache_bound m (Qt.row i) Hsz Hlen) as [Hb Heq].
  destruct (_ || _); [done|]. by destruct (_ !! _).
Qed.

End sync_model.

(** X9. Round trip of the synchronous model.  Over a table with dense
    keys, after any requests the view made, [data] for a position inside
    the table returns the key [first + p] in column 0 and the value stored
    under that key in column 1: the model loads the rows around the
    position when it does not hold them, and never answers [None]. *)
Theorem X9_sync_round_trip (first n : Z) (v : Z -> string)
    (calls : list (Z * Z * Z)) (p : Z) :
  0 <= p < n ->
  let m := sync_requests (Thread.SqliteTableModel_init (dense_table first n v))
             calls in
  (Thread.data m (Thread.index m p 0) Qt.DisplayRole).1
  = Return (Some (CellInt (first + p)))
  /\ (Thread.data m (Thread.index m p 1) Qt.DisplayRole).1
     = Return (Some (CellStr (v (first + p)))).
Proof.
  intros Hp m.
  assert (Hinv : sync_inv first n v m)
    by (apply sync_requests_inv, sync_inv_init; lia).
  destruct (sync_data_dense first n v m p 0 Hinv Hp (or_introl eq_refl)) as [-> _].
  destruct (sync_data_dense first n v m p 1 Hinv Hp (or_intror eq_refl)) as [-> _].
  done.
Qed.

Lemma X9_sync_round_trip_witness :
  let m := sync_requests
             (Thread.SqliteTableModel_init (dense_table 1 3 (fun k => pretty k)))
             [(2, 1, Qt.DisplayRole)] in
  (Thread.data m (Thread.index m 0 0) Qt.DisplayRole).1
  = Return (Some (CellInt (1 + 0)))
  /\ (Thread.data m (Thread.index m 0 1) Qt.DisplayRole).1
     = Return (Some (CellStr (pretty (1 + 0)))).
Proof.
  apply (X9_sync_round_trip 1 3 (fun k => pretty k) [(2, 1, Qt.DisplayRole)] 0).
  lia.
Defined.

(** X10. The cache of the synchronous model holds at most 1000 rows, for
    any table and after any requests, whatever indexes they carry. *)
Theorem X10_sync_cache_bound (db : list record)
    (calls : list (Qt.QModelIndex * Z)) :
  len (Thread._cache_rows
         (foldl (fun m c => (Thread.data m c.1 c.2).2)
            (Thread.SqliteTableModel_init db) calls))
  <= 1000.
Proof.
  assert (H : forall m, Thread._cache_size m = 1000 ->
            len (Thread._cache_rows m) <= 1000 ->
            len (Thread._cache_rows
                   (foldl (fun m c => (Thread.data m c.1 c.2).2) m calls)) <= 1000).
  { induction calls as [|[i role] calls IH]; intros m Hsz Hlen; [done|].
    simpl. destruct (sync_data_bound m i role) as [Hb Heq]; [lia|lia|].
    apply IH; [by rewrite Heq|]. by rewrite Heq, Hsz in Hb. }
  apply H; [done|]. unfold len. simpl. lia.
Qed.

(** ** The callers of the synchronous model *)

Section sync_callers.
Import Thread.
Variable transform_fn : Z -> string -> py_result string.
Variable int_of_str : string -> py_result Z.
Implicit Types (m : SqliteTableModel).

(** When the table has lost its rows and the cache is empty, every request
    is answered with [None], and that stays so. *)
Lemma sync_data_emptied m i role :
  conn m = [] -> _cache_rows m = [] ->
  exists m',
    data m i role = (Return None, m')
    /\ conn m' = [] /\ _cache_rows m' = []
    /\ _row_count m' = _row_count m /\ _headers m' = _headers m.
Proof.
  intros Hconn Hrows. unfold data.
  destruct (_ || _); [by exists m|].
  unfold _ensure_cache. rewrite Hrows.
  assert (E : ((_cache_start m <=? Qt.row i)
               && (Qt.row i <? _cache_start m + len (@nil record))) = false).
  { apply andb_false_iff. unfold len. simpl.
    destruct (Z.leb_spec (_cache_start m) (Qt.row i)); [right|by left].
    apply Z.ltb_ge. lia. }
  rewrite E. cbn [_cache_start _cache_rows]. rewrite Hconn.
  assert (Hsel : forall s lim, Sqlite.select_from [] s lim = [])
    by (intros s lim; unfold Sqlite.select_from, Sqlite.limit;
        rewrite filter_nil; simpl; destruct (lim <? 0); [done|apply take_nil]).
  rewrite Hsel.
  assert (E2 : forall o, ((o <? 0) || (o >=? len (@nil record))) = true).
  { intros o. unfold len. change (Z.of_nat (length (@nil record))) with 0.
    destruct (Z.ltb_spec o 0); [done|].
    destruct (Z.geb_spec o 0); [done|lia]. }
  rewrite E2. eexists. split; [done|]. done.
Qed.

End sync_callers.

(** X11. The controller over a table with dense keys.  When the current
    index is valid and on a row inside the table, [on_current_row_changed]
    shows what the extension point returns for the key and the value of
    the row, or the value itself when the extension point is not
    implemented, and raises nothing; when the extension point raises
    anything else, this exception leaves the handler and the text stays as
    it was. *)
Theorem X11_controller_shows_row (transform_fn : Z -> string -> py_result string)
    (int_of_str : string -> py_result Z) (first n : Z) (v : Z -> string)
    (calls : list (Z * Z * Z)) (text : string) (current : Qt.QModelIndex)
    (p : Z) :
  0 <= p < n -> Qt.isValid current = true -> Qt.row current = p ->
  let m := sync_requests (Thread.SqliteTableModel_init (dense_table first n v))
             calls in
  let r := Mvc.on_current_row_changed transform_fn int_of_str
             {| Mvc.model := m; Mvc.detail_value := text |} current in
  match transform_fn (first + p) (v (first + p)) with
  | Return d => r.1 = Return tt /\ Mvc.detail_value r.2 = d
  | Raise exc =>
      if isinstance_NotImplementedError exc
      then r.1 = Return tt /\ Mvc.detail_value r.2 = v (first + p)
      else r.1 = Raise exc /\ Mvc.detail_value r.2 = text
  end.
Proof.
  intros Hp Hv Hrow m r.
  assert (Hinv : sync_inv first n v m)
    by (apply sync_requests_inv, sync_inv_init; lia).
  destruct (sync_data_dense first n v m p 0 Hinv Hp (or_introl eq_refl))
    as [Hid Hinv1].
  destruct (sync_data_dense first n v (Thread._ensure_cache m p) p 1 Hinv1 Hp
              (or_intror eq_refl)) as [Hval _].
  rewrite (sync_index_in_table first n v _ p 1 Hinv1) in Hval by (lia || by right).
  rewrite <- (sync_index_in_table first n v m p 1 Hinv) in Hval by (lia || by right).
  subst r. unfold Mvc.on_current_row_changed, Mvc.get_row_data_indexes.
  rewrite Hv, Hrow. cbn [negb Mvc.model]. rewrite Hid, Hval.
  cbn [Z.eqb Mvc.py_int Mvc.py_str Thread.py_int Thread.py_str py_bind].
  destruct (transform_fn _ _) as [d|exc]; [done|].
  by destruct (isinstance_NotImplementedError exc).
Qed.

Lemma X11_controller_shows_row_witness :
  let m := sync_requests
             (Thread.SqliteTableModel_init (dense_table 1 3 (fun k => pretty k)))
             [] in
  let r := Mvc.on_current_row_changed Thread.transform_detail_data no_int_of_str
             {| Mvc.model := m; Mvc.detail_value := EmptyString |}
             {| Qt.isValid := true; Qt.row := 2; Qt.column := 0 |} in
  match Thread.transform_detail_data (1 + 2) (pretty (1 + 2)) with
  | Return d => r.1 = Return tt /\ Mvc.detail_value r.2 = d
  | Raise exc =>
      if isinstance_NotImplementedError exc
      then r.1 = Return tt /\ Mvc.detail_value r.2 = pretty (1 + 2)
      else r.1 = Raise exc /\ Mvc.detail_value r.2 = EmptyString
  end.
Proof.
  apply (X11_controller_shows_row Thread.transform_detail_data no_int_of_str
           1 3 (fun k => pretty k) [] EmptyString
           {| Qt.isValid := true; Qt.row := 2; Qt.column := 0 |} 2).
  - lia.
  - reflexivity.
  - reflexivity.
Defined.

(** X12. The controller does not test what [data] returned.  When the
    table has lost its rows since the model counted them and the cache is
    empty, [data] answers [None] for a valid current index, [int(None)]
    raises, the handler catches [NotImplementedError] only, and the
    exception leaves it with the text of the pane as it was. *)
Theorem X12_controller_raises_on_missing_row
    (transform_fn : Z -> string -> py_result string)
    (int_of_str : string -> py_result Z) (c : Mvc.MainController)
    (current : Qt.QModelIndex) :
  Thread.conn (Mvc.model c) = [] -> Thread._cache_rows (Mvc.model c) = [] ->
  Qt.isValid current = true ->
  exists msg m',
    Mvc.on_current_row_changed transform_fn int_of_str c current
    = (Raise (OtherException msg),
       {| Mvc.model := m'; Mvc.detail_value := Mvc.detail_value c |}).
Proof.
  intros Hconn Hrows Hv.
  unfold Mvc.on_current_row_changed, Mvc.get_row_data_indexes. rewrite Hv.
  cbn [negb].
  destruct (sync_data_emptied (Mvc.model c)
              (Thread.index (Mvc.model c) (Qt.row current) 0) Qt.DisplayRole
              Hconn Hrows) as (m1 & -> & Hconn1 & Hrows1 & _).
  destruct (sync_data_emptied m1
              (Thread.index (Mvc.model c) (Qt.row current) 1) Qt.DisplayRole
              Hconn1 Hrows1) as (m2 & -> & _).
  simpl. by eexists _, m2.
Qed.

Lemma X12_controller_raises_on_missing_row_witness :
  exists msg m',
    Mvc.on_current_row_changed Thread.transform_detail_data no_int_of_str
      emptied_controller {| Qt.isValid := true; Qt.row := 1; Qt.column := 0 |}
    = (Raise (OtherException msg),
       {| Mvc.model := m'; Mvc.detail_value := Mvc.detail_value emptied_controller |}).
Proof.
  apply (X12_controller_raises_on_missing_row Thread.transform_detail_data
           no_int_of_str emptied_controller
           {| Qt.isValid := true; Qt.row := 1; Qt.column := 0 |});
    reflexivity.
Defined.

(** X13. The window of the single-window program does test what [data]
    returned.  In the same situation its slot advances the counter, starts
    no task, leaves the tasks that wait and the text of the pane as they
    were, and raises nothing. *)
Theorem X13_window_skips_missing_row (int_of_str : string -> py_result Z)
    (w : Thread.MainWindow) (current : Qt.QModelIndex) :
  Thread.conn (Thread.model w) = [] -> Thread._cache_rows (Thread.model w) = [] ->
  Qt.isValid current = true ->
  let w' := Thread._on_current_row_changed int_of_str w current in
  Thread._detail_request_id w' = Thread._detail_request_id w + 1
  /\ Thread._detail_thread_pool w' = Thread._detail_thread_pool w
  /\ Thread.detail_value w' = Thread.detail_value w.
Proof.
  intros Hconn Hrows Hv w'. subst w'.
  unfold Thread._on_current_row_changed. rewrite Hv. cbn [negb].
  cbn [Thread.set_request_id Thread.model].
  destruct (sync_data_emptied (Thread.model w)
              (Thread.index (Thread.model w) (Qt.row current) 0) Qt.DisplayRole
              Hconn Hrows) as (m1 & -> & Hconn1 & Hrows1 & _).
  destruct (sync_data_emptied m1
              (Thread.index (Thread.model w) (Qt.row current) 1) Qt.DisplayRole
              Hconn1 Hrows1) as (m2 & -> & _).
  done.
Qed.

Lemma X13_window_skips_missing_row_witness :
  let w' := Thread._on_current_row_changed no_int_of_str emptied_window
              {| Qt.isValid := true; Qt.row := 1; Qt.column := 0 |} in
  Thread._detail_request_id w' = Thread._detail_request_id emptied_window + 1
  /\ Thread._detail_thread_pool w' = Thread._detail_thread_pool emptied_window
  /\ Thread.detail_value w' = Thread.detail_value emptied_window.
Proof.
  apply (X13_window_skips_missing_row no_int_of_str emptied_window
           {| Qt.isValid := true; Qt.row := 1; Qt.column := 0 |});
    reflexivity.
Defined.

(** ** Seeding and the keys of the table *)

Section seeding_keys.
Variable BATCH_SIZE : Z.
Variable rng : Type.
Variable random_text : rng -> string * rng.
Hypothesis BATCH_SIZE_pos : 0 < BATCH_SIZE.

Lemma max_id_bounds (t : list record) :
  0 <= Sqlite.max_id t
  /\ Forall (fun r => r.1 <= Sqlite.max_id t) t
  /\ (Sqlite.max_id t = 0 \/ Sqlite.max_id t ∈ t.*1).
Proof.
  unfold Sqlite.max_id. induction t as [|r t (IH0 & IHle & IHin)]; simpl.
  - split; [done|]. split; [constructor|by left].
  - split; [lia|]. split.
    + constructor; [lia|]. eapply Forall_impl; [exact IHle|].
      simpl. intros x Hx. lia.
    + destruct (Z.max_spec r.1 (foldr (fun r m => Z.max r.1 m) 0 t))
        as [[_ ->]|[_ ->]].
      * destruct IHin as [->|Hin]; [by left|]. right. by apply elem_of_cons; right.
      * right. apply elem_of_cons. by left.
Qed.

Lemma max_id_dense (t : list record) k :
  0 <= k -> t.*1 = seqZ 1 k -> Sqlite.max_id t = k.
Proof.
  intros Hk Hkeys. destruct (max_id_bounds t) as (H0 & Hle & Hin).
  assert (Hub : Sqlite.max_id t <= k).
  { destruct Hin as [->|Hin]; [done|]. rewrite Hkeys in Hin.
    apply elem_of_seqZ in Hin. lia. }
  destruct (decide (k = 0)) as [->|Hne]; [lia|].
  assert (Hkin : k ∈ t.*1) by (rewrite Hkeys; apply elem_of_seqZ; lia).
  apply list_elem_of_fmap in Hkin as (r & -> & Hr).
  rewrite Forall_forall in Hle. specialize (Hle r Hr). lia.
Qed.

Lemma insert_value_dense db k x :
  dense_db k db -> dense_db (k + 1) (Sqlite.insert_value db x).
Proof.
  intros (Hk & Hkeys & Hseq). unfold Sqlite.insert_value.
  rewrite Hseq, (max_id_dense _ k Hk Hkeys), Z.max_id.
  split; [lia|]. split; [|done]. cbn [Sqlite.texts].
  rewrite fmap_app, Hkeys. rewrite (seqZ_app 1 k 1) by lia.
  f_equal. rewrite seqZ_cons by lia. rewrite seqZ_nil by lia.
  simpl. f_equal. lia.
Qed.

Lemma executemany_dense db k values :
  dense_db k db -> dense_db (k + len values) (Sqlite.executemany db values).
Proof.
  unfold Sqlite.executemany. revert db k.
  induction values as [|x values IH]; intros db k Hd.
  - unfold len. simpl. by rewrite Z.add_0_r.
  - simpl. apply (insert_value_dense _ _ x), IH in Hd.
    unfold len in *. rewrite length_cons.
    by replace (k + Z.of_nat (S (length values)))
      with (k + 1 + Z.of_nat (length values)) by lia.
Qed.

Lemma insert_loop_dense fuel rows_to_insert db commits g k res :
  dense_db k db ->
  Database.insert_loop BATCH_SIZE rng random_text fuel rows_to_insert db commits g
  = Some res ->
  exists k', k <= k' /\ dense_db k' res.1.1.
Proof.
  revert rows_to_insert db commits g k.
  induction fuel as [|fuel IH]; intros r db commits g k Hd; cbn [Database.insert_loop].
  - destruct (r >? 0); [done|]. intros [= <-]. exists k. split; [lia|done].
  - destruct (r >? 0); [|intros [= <-]; exists k; split; [lia|done]].
    destruct (Database.random_values rng random_text _ g) as [values g1].
    intros Hres.
    apply IH with (k := k + len values) in Hres as (k' & Hk' & Hd');
      [|by apply executemany_dense].
    exists k'. split; [unfold len in *; lia|done].
Qed.

Lemma dense_db_count db k :
  dense_db k db -> Sqlite.select_count (Sqlite.texts db) = k.
Proof.
  intros (Hk & Hkeys & _). unfold Sqlite.select_count, len.
  rewrite <- (length_fmap fst), Hkeys, length_seqZ. lia.
Qed.

(** A table whose keys are dense is a dense table. *)
Lemma keys_dense_table (t : list record) a n :
  t.*1 = seqZ a n ->
  t = dense_table a n
        (fun key => default EmptyString (snd <$> t !! Z.to_nat (key - a))).
Proof.
  intros Hkeys. apply list_eq. intros i. unfold dense_table.
  rewrite list_lookup_fmap.
  assert (Hlen : length t = Z.to_nat n)
    by (by rewrite <- (length_fmap fst), Hkeys, length_seqZ).
  destruct (t !! i) as [[key val]|] eqn:Ei.
  - pose proof (lookup_lt_Some _ _ _ Ei) as Hlt.
    assert (Hkey : t.*1 !! i = Some key) by (by rewrite list_lookup_fmap, Ei).
    rewrite Hkeys in Hkey. apply lookup_seqZ in Hkey as [-> Hi].
    rewrite lookup_seqZ_lt by done. simpl.
    replace (Z.to_nat (a + Z.of_nat i - a)) with i by lia.
    by rewrite Ei.
  - apply lookup_ge_None in Ei. rewrite lookup_seqZ_ge by lia. done.
Qed.

End seeding_keys.

(** X14. Seeding keeps the keys dense.  On a database file whose keys are 1
    to [k] without a gap and whose counter stands at [k], as a fresh file
    (k = 0) or a file that only this routine ever filled, [ensure_database]
    ends and leaves the keys 1 to [max k target_rows] without a gap: the
    table is a dense table, the model built over it counts
    [max k target_rows] rows, and takes 1 for its first key when there is a
    row. *)
Theorem X14_seeding_keeps_keys_dense (BATCH_SIZE : Z) (rng : Type)
    (random_text : rng -> string * rng) (db : Sqlite.database)
    (target_rows : Z) (g : rng) (k : Z) :
  0 < BATCH_SIZE -> dense_db k db ->
  exists db' batches g',
    Database.ensure_database BATCH_SIZE rng random_text db target_rows g
    = Some (db', batches, g')
    /\ dense_db (Z.max k target_rows) db'
    /\ (exists v, Sqlite.texts db' = dense_table 1 (Z.max k target_rows) v)
    /\ Threaded.rowCount (Threaded.SqliteTableModel_init (Sqlite.texts db'))
       = Z.max k target_rows
    /\ (0 < Z.max k target_rows ->
        Threaded._first_id (Threaded.SqliteTableModel_init (Sqlite.texts db')) = 1).
Proof.
  intros Hpos Hd. pose proof (dense_db_count db k Hd) as Hcount.
  assert (Hres : exists db' batches g',
            Database.ensure_database BATCH_SIZE rng random_text db target_rows g
            = Some (db', batches, g')
            /\ dense_db (Z.max k target_rows) db').
  { unfold Database.ensure_database. rewrite Hcount.
    destruct (Z.geb_spec k target_rows) as [Hge|Hlt].
    - exists db, [], g. split; [done|]. by rewrite Z.max_l by lia.
    - destruct (insert_loop_spec BATCH_SIZE rng random_text Hpos
                  (Z.to_nat (target_rows - k)) (target_rows - k) db [] g)
        as (db' & bs & g' & new & Heq & Ht & Hl & _); [lia|].
      exists db', bs, g'. split; [done|].
      destruct (insert_loop_dense BATCH_SIZE rng random_text _ _ _ _ _ k _ Hd Heq)
        as (k' & _ & Hd').
      simpl in Hd'. pose proof (dense_db_count db' k' Hd') as Hcount'.
      unfold Sqlite.select_count, len in Hcount, Hcount', Hl.
      rewrite Ht, length_app in Hcount'.
      by replace (Z.max k target_rows) with k' by lia. }
  destruct Hres as (db' & bs & g' & Heq & Hd').
  exists db', bs, g'. split; [done|]. split; [done|].
  pose proof Hd' as (_ & Hkeys & _).
  pose proof (keys_dense_table _ _ _ Hkeys) as Htable.
  split; [by eexists|]. split.
  - apply (dense_db_count db' _ Hd').
  - intros Hrows. cbn [Threaded.SqliteTableModel_init Threaded._first_id].
    rewrite Htable. by rewrite select_min_id_dense.
Qed.

Lemma X14_seeding_keeps_keys_dense_witness :
  exists db' batches g',
    Database.ensure_database 10000 nat counting_random_text fresh_database
      25000 0%nat
    = Some (db', batches, g')
    /\ dense_db (Z.max 0 25000) db'
    /\ (exists v, Sqlite.texts db' = dense_table 1 (Z.max 0 25000) v)
    /\ Threaded.rowCount (Threaded.SqliteTableModel_init (Sqlite.texts db'))
       = Z.max 0 25000
    /\ (0 < Z.max 0 25000 ->
        Threaded._first_id (Threaded.SqliteTableModel_init (Sqlite.texts db')) = 1).
Proof.
  apply (X14_seeding_keeps_keys_dense 10000 nat counting_random_text
           fresh_database 25000 0%nat 0).
  - lia.
  - repeat split. lia.
Defined.

(** X15. Seeding twice is seeding once.  With a positive [BATCH_SIZE], when
    a run of [ensure_database] has ended, a second run with the same target
    finds enough rows: it returns the same database, commits nothing and
    draws no value. *)
Theorem X15_second_seeding_is_noop (BATCH_SIZE : Z) (rng : Type)
    (random_text : rng -> string * rng) (db db' : Sqlite.database)
    (target_rows : Z) (g g' : rng) (batches : list Z) :
  0 < BATCH_SIZE ->
  Database.ensure_database BATCH_SIZE rng random_text db target_rows g
  = Some (db', batches, g') ->
  Database.ensure_database BATCH_SIZE rng random_text db' target_rows g'
  = Some (db', [], g').
Proof.
  intros Hpos. unfold Database.ensure_database.
  destruct (Z.geb_spec (Sqlite.select_count (Sqlite.texts db)) target_rows)
    as [Hge|Hlt].
  - intros [= <- _ <-].
    by destruct (Z.geb_spec (Sqlite.select_count (Sqlite.texts db)) target_rows);
      [|lia].
  - destruct (insert_loop_spec BATCH_SIZE rng random_text Hpos
                (Z.to_nat (target_rows - Sqlite.select_count (Sqlite.texts db)))
                (target_rows - Sqlite.select_count (Sqlite.texts db)) db [] g)
      as (db1 & bs & g1 & new & Heq & Ht & Hl & _); [lia|].
    rewrite Heq. intros [= <- _ <-].
    assert (Hcount : Sqlite.select_count (Sqlite.texts db1) = target_rows).
    { unfold Sqlite.select_count, len in *. rewrite Ht, length_app. lia. }
    rewrite Hcount.
    by destruct (Z.geb_spec target_rows target_rows); [|lia].
Qed.

Lemma X15_second_seeding_is_noop_witness :
  Database.ensure_database 2 nat counting_random_text
    {| Sqlite.texts := [(1, "text"); (2, "text"); (3, "text")]%string;
       Sqlite.sqlite_sequence := 3 |} 3 3%nat
  = Some ({| Sqlite.texts := [(1, "text"); (2, "text"); (3, "text")]%string;
             Sqlite.sqlite_sequence := 3 |}, [], 3%nat).
Proof.
  apply (X15_second_seeding_is_noop 2 nat counting_random_text fresh_database
           _ 3 0%nat 3%nat [2; 1]).
  - lia.
  - vm_compute. reflexivity.
Defined.

(** ** Sessions of the single-window program *)

Section detail_sessions.
Import Thread.
Variable transform_fn : Z -> string -> py_result string.
Variable int_of_str : string -> py_result Z.
Implicit Types (w : MainWindow) (s : session).

(** A selection change leaves the pool as it was, or empties it and starts
    at most one task, tagged with the new counter. *)
Lemma on_current_row_changed_pool_cases w current :
  _detail_thread_pool (_on_current_row_changed int_of_str w current)
  = _detail_thread_pool w
  \/ ((length (_detail_thread_pool (_on_current_row_changed int_of_str w current))
       <= 1)%nat
      /\ Forall (fun t => _request_id t = _detail_request_id w + 1)
           (_detail_thread_pool (_on_current_row_changed int_of_str w current))).
Proof.
  unfold _on_current_row_changed. destruct (negb _); [by left|]. simpl.
  destruct (data _ _ _) as [[row_id|e] m]; [|by left].
  destruct (data _ _ _) as [[row_value|e] m']; [|by left].
  destruct row_id as [row_id|]; [|by left].
  destruct row_value as [row_value|]; [|by left]. simpl.
  destruct (py_int _ _); right; simpl; (split; [lia|repeat constructor]).
Qed.

Lemma deliver_pool w sig :
  _detail_thread_pool (deliver w sig) = _detail_thread_pool w.
Proof.
  destruct sig; simpl; unfold _on_detail_ready, _on_detail_failed;
    by destruct (negb _).
Qed.

Lemma session_inv_step s ev :
  session_inv s -> session_inv (step transform_fn int_of_str s ev).
Proof.
  intros (H0 & Hlen & Hpool & Hposted). destruct ev as [current| |n]; simpl.
  - unfold session_inv. simpl. rewrite on_current_row_changed_id.
    split; [lia|].
    destruct (on_current_row_changed_pool_cases (window s) current)
      as [->|[Hl Hp]].
    + split; [done|]. split.
      * eapply Forall_impl; [exact Hpool|]. simpl. intros t Ht. lia.
      * eapply Forall_impl; [exact Hposted|]. simpl. intros t Ht. lia.
    + split; [done|]. split.
      * eapply Forall_impl; [exact Hp|]. simpl. intros t Ht. lia.
      * eapply Forall_impl; [exact Hposted|]. simpl. intros t Ht. lia.
  - destruct (_detail_thread_pool (window s)) as [|task rest] eqn:Ep;
      [by unfold session_inv; rewrite Ep|].
    apply Forall_cons in Hpool as [Ht Hrest]. simpl in Hlen.
    unfold session_inv. simpl. split; [done|]. split; [lia|]. split; [done|].
    destruct (run transform_fn task) as [sig|e] eqn:Er; [|done].
    apply Forall_app. split; [done|]. constructor; [|done].
    by rewrite (run_request_id transform_fn task sig Er).
  - destruct (posted s !! n) as [sig|] eqn:En; [|done].
    unfold session_inv. simpl. rewrite deliver_id, deliver_pool.
    split; [done|]. split; [done|]. split; [done|].
    rewrite delete_take_drop. apply Forall_app. split.
    + by apply Forall_take.
    + by apply Forall_drop.
Qed.

Lemma session_inv_run s evs :
  session_inv s -> session_inv (run_session transform_fn int_of_str s evs).
Proof.
  unfold run_session. revert s. induction evs as [|ev evs IH]; intros s Hs; [done|].
  simpl. by apply IH, session_inv_step.
Qed.

Lemma step_counts s ev :
  _detail_request_id (window (step transform_fn int_of_str s ev))
  = _detail_request_id (window s) + (if is_selection_change ev then 1 else 0).
Proof.
  destruct ev as [current| |n]; simpl.
  - apply on_current_row_changed_id.
  - destruct (_detail_thread_pool (window s)); simpl; lia.
  - destruct (posted s !! n); simpl; [rewrite deliver_id|]; lia.
Qed.

Lemma run_session_counts s evs :
  _detail_request_id (window (run_session transform_fn int_of_str s evs))
  = _detail_request_id (window s) + selection_changes evs.
Proof.
  unfold run_session, selection_changes. revert s.
  induction evs as [|ev evs IH]; intros s.
  - unfold len. simpl. lia.
  - simpl. rewrite IH, step_counts. unfold len.
    destruct (is_selection_change ev) eqn:E.
    + rewrite filter_cons_True by done. simpl. lia.
    + rewrite filter_cons_False by (by rewrite E). lia.
Qed.

End detail_sessions.

(** X16. In every session of the single-window program, from the window
    before its first selection (the selection of row 0 that [__init__]
    makes is the first event of such a session) and through any selections,
    task runs and deliveries in any order: the counter is the number of
    selection changes so far, at most one task waits in the pool, and every
    waiting task and every signal not yet delivered carries a tag from 1 to
    the counter. *)
Theorem X16_session_invariant (transform_fn : Z -> string -> py_result string)
    (int_of_str : string -> py_result Z) (db : list record)
    (evs : list Thread.event) :
  let s := Thread.run_session transform_fn int_of_str
             {| Thread.window := Thread.MainWindow_init db; Thread.posted := [] |}
             evs in
  Thread._detail_request_id (Thread.window s) = selection_changes evs
  /\ (length (Thread._detail_thread_pool (Thread.window s)) <= 1)%nat
  /\ Forall (fun t => 1 <= Thread._request_id t
                      <= Thread._detail_request_id (Thread.window s))
       (Thread._detail_thread_pool (Thread.window s))
  /\ Forall (fun sig => 1 <= Thread.signal_request_id sig
                        <= Thread._detail_request_id (Thread.window s))
       (Thread.posted s).
Proof.
  intros s. split.
  - unfold s. by rewrite run_session_counts.
  - assert (Hinv : session_inv s).
    { apply session_inv_run. unfold session_inv. simpl.
      split; [done|]. split; [lia|]. split; constructor. }
    by destruct Hinv as (_ & ? & ? & ?).
Qed.

(** X17. From the selection to the pane, over a table with dense keys.
    When a row inside the table is selected, its task runs and its signal
    is delivered, the pane shows what the extension point returns for the
    key and the value of the row; the value itself when the extension
    point is not implemented; the error text with [str(exc)] when it
    raises another [Exception]; and what it showed before when the
    exception is not an [Exception], for then the task emits nothing.  No
    task is left waiting. *)
Theorem X17_selection_shows_detail
    (transform_fn : Z -> string -> py_result string)
    (int_of_str : string -> py_result Z) (first n : Z) (v : Z -> string)
    (calls : list (Z * Z * Z)) (text : string) (g : Z)
    (pool : list Thread.DetailTransformTask) (posted : list Thread.signal)
    (current : Qt.QModelIndex) (p : Z) :
  0 <= p < n -> Qt.isValid current = true -> Qt.row current = p ->
  let m := sync_requests (Thread.SqliteTableModel_init (dense_table first n v))
             calls in
  let w := {| Thread.model := m;
              Thread.detail_value := text;
              Thread._detail_request_id := g;
              Thread._detail_thread_pool := pool |} in
  let s := Thread.run_session transform_fn int_of_str
             {| Thread.window := w; Thread.posted := posted |}
             [Thread.EvCurrentRowChanged current; Thread.EvPoolRunsTask;
              Thread.EvDeliver (length posted)] in
  Thread.detail_value (Thread.window s)
  = match transform_fn (first + p) (v (first + p)) with
    | Return d => d
    | Raise exc =>
        if isinstance_NotImplementedError exc then v (first + p)
        else if isinstance_Exception exc
             then ("詳細表示の処理でエラーが発生しました: " ++ str_exc exc)%string
             else text
    end
  /\ Thread._detail_thread_pool (Thread.window s) = [].
Proof.
  intros Hp Hv Hrow m w s.
  assert (Hinv : sync_inv first n v m)
    by (apply sync_requests_inv, sync_inv_init; lia).
  destruct (sync_data_dense first n v m p 0 Hinv Hp (or_introl eq_refl))
    as [Hid Hinv1].
  destruct (sync_data_dense first n v (Thread._ensure_cache m p) p 1 Hinv1 Hp
              (or_intror eq_refl)) as [Hval _].
  rewrite (sync_index_in_table first n v _ p 1 Hinv1) in Hval by (lia || by right).
  rewrite <- (sync_index_in_table first n v m p 1 Hinv) in Hval by (lia || by right).
  assert (Hsel : Thread._on_current_row_changed int_of_str w current
                 = {| Thread.model :=
                        Thread._ensure_cache (Thread._ensure_cache m p) p;
                      Thread.detail_value := text;
                      Thread._detail_request_id := g + 1;
                      Thread._detail_thread_pool :=
                        [{| Thread._request_id := g + 1;
                            Thread._row_id := first + p;
                            Thread._row_value := v (first + p) |}] |}).
  { unfold Thread._on_current_row_changed, w. rewrite Hv, Hrow.
    cbn [negb Thread.set_request_id Thread.model].
    rewrite Hid, Hval. reflexivity. }
  unfold s, Thread.run_session. cbn [foldl Thread.step Thread.window Thread.posted].
  rewrite Hsel. cbn [Thread._detail_thread_pool Thread.set_pool Thread.model
                     Thread.detail_value Thread._detail_request_id].
  unfold Thread.run. cbn [Thread._row_id Thread._row_value Thread._request_id].
  destruct (transform_fn (first + p) (v (first + p))) as [d|exc].
  - cbn [Thread.posted]. rewrite lookup_app_r, Nat.sub_diag by lia.
    cbn [lookup list_lookup Thread.window Thread.deliver].
    unfold Thread._on_detail_ready. cbn [Thread._detail_request_id].
    by rewrite Z.eqb_refl.
  - destruct (isinstance_NotImplementedError exc).
    + cbn [Thread.posted]. rewrite lookup_app_r, Nat.sub_diag by lia.
      cbn [lookup list_lookup Thread.window Thread.deliver].
      unfold Thread._on_detail_ready. cbn [Thread._detail_request_id].
      by rewrite Z.eqb_refl.
    + destruct (isinstance_Exception exc).
      * cbn [Thread.posted]. rewrite lookup_app_r, Nat.sub_diag by lia.
        cbn [lookup list_lookup Thread.window Thread.deliver].
        unfold Thread._on_detail_failed. cbn [Thread._detail_request_id].
        by rewrite Z.eqb_refl.
      * cbn [Thread.posted]. by rewrite lookup_ge_None_2 by lia.
Qed.

Lemma X17_selection_shows_detail_witness :
  let m := sync_requests
             (Thread.SqliteTableModel_init (dense_table 1 3 (fun k => pretty k)))
             [] in
  let w := {| Thread.model := m;
              Thread.detail_value := EmptyString;
              Thread._detail_request_id := 0;
              Thread._detail_thread_pool := [] |} in
  let s := Thread.run_session failing_transform no_int_of_str
             {| Thread.window := w; Thread.posted := [] |}
             [Thread.EvCurrentRowChanged
                {| Qt.isValid := true; Qt.row := 2; Qt.column := 0 |};
              Thread.EvPoolRunsTask;
              Thread.EvDeliver (length (@nil Thread.signal))] in
  Thread.detail_value (Thread.window s)
  = match failing_transform (1 + 2) (pretty (1 + 2)) with
    | Return d => d
    | Raise exc =>
        if isinstance_NotImplementedError exc then pretty (1 + 2)
        else if isinstance_Exception exc
             then ("詳細表示の処理でエラーが発生しました: " ++ str_exc exc)%string
             else EmptyString
    end
  /\ Thread._detail_thread_pool (Thread.window s) = [].
Proof.
  apply (X17_selection_shows_detail failing_transform no_int_of_str 1 3
           (fun k => pretty k) [] EmptyString 0 [] []
           {| Qt.isValid := true; Qt.row := 2; Qt.column := 0 |} 2).
  - lia.
  - reflexivity.
  - reflexivity.
Defined.

(** X18. The start of the threaded window.  Over an empty table the window
    selects nothing: the model emits no request and the pane stays empty.
    Over any table with a row, the window selects row 0: the pane shows
    "Loading..." and window 0 is pending and has been requested. *)
Theorem X18_window_start (transform_fn : Z -> string -> py_result string)
    (int_of_str : string -> py_result Z) (db : list record) :
  let w := ThreadedWindow.MainWindow_init transform_fn int_of_str db in
  (db = [] ->
   Threaded.request_chunk (ThreadedWindow.model w) = []
   /\ ThreadedWindow.detail_value w = EmptyString
   /\ Qt.isValid (ThreadedWindow.currentIndex w) = false)
  /\ (db <> [] ->
      ThreadedWindow.detail_value w = "Loading..."%string
      /\ 0 ∈ Threaded._pending_chunks (ThreadedWindow.model w)
      /\ Threaded.request_chunk (ThreadedWindow.model w) = [(0, 1000)]
      /\ Qt.row (ThreadedWindow.currentIndex w) = 0).
Proof.
  intros w. split.
  - intros ->. done.
  - intros Hne. subst w. unfold ThreadedWindow.MainWindow_init.
    cbn [ThreadedWindow.model].
    set (m := Threaded.SqliteTableModel_init db).
    assert (Hrows : 0 < Threaded._row_count m).
    { destruct db; [done|]. unfold m. simpl. unfold Sqlite.select_count, len.
      simpl. lia. }
    destruct (Z.gtb_spec (Threaded.rowCount m) 0) as [_|Hle];
      [|unfold Threaded.rowCount in Hle; lia].
    pose proof (cache_inv_init db) as Hinv. fold m in Hinv.
    assert (Hidx : Threaded.index m 0 0
                   = {| Qt.isValid := true; Qt.row := 0; Qt.column := 0 |})
      by (apply index_in_table; [done|lia|by left]).
    assert (Hreq : Threaded._request_chunk m 0
                   = Threaded.emit_request_chunk
                       (Threaded.set_cache m ({[0]} ∪ ∅) []) 0 1000).
    { unfold Threaded._request_chunk.
      change (Threaded._pending_chunks m) with (∅ : gset Z).
      change (Threaded._chunk_cache m) with (@nil (Z * list record)).
      rewrite bool_decide_eq_false_2 by apply not_elem_of_empty.
      destruct (Z.geb_spec 0 (Threaded._row_count m)); [lia|]. reflexivity. }
    destruct (select_uncached transform_fn int_of_str
                {| ThreadedWindow.model := m;
                   ThreadedWindow.detail_value := EmptyString;
                   ThreadedWindow.currentIndex := Qt.invalid_index |}
                (Threaded.index m 0 0) 0)
      as (m1 & Hsel & Hpend & _);
      [done|by rewrite Hidx|by rewrite Hidx|cbn [ThreadedWindow.model]; lia|done|].
    rewrite Hsel. cbn [ThreadedWindow.detail_value ThreadedWindow.model
                       ThreadedWindow.currentIndex].
    split; [done|]. split; [done|]. split; [|by rewrite Hidx].
    assert (Hm1 : m1 = Threaded._request_chunk m 0).
    { unfold ThreadedWindow.select, ThreadedWindow._on_current_row_changed in Hsel.
      rewrite Hidx in Hsel. cbn [negb Qt.isValid Qt.row ThreadedWindow.model] in Hsel.
      rewrite Hidx in Hsel.
      rewrite (data_miss m) in Hsel by done.
      change (0 / Threaded._cache_size m * Threaded._cache_size m) with 0 in Hsel.
      assert (Hidx1 : Threaded.index m 0 1
                      = {| Qt.isValid := true; Qt.row := 0; Qt.column := 1 |})
        by (apply index_in_table; [done|lia|by right]).
      rewrite Hidx1 in Hsel.
      rewrite (data_miss (Threaded._request_chunk m 0)) in Hsel;
        [| done | by rewrite Hreq | by rewrite Hreq].
      rewrite Hreq in Hsel.
      change (Qt.row {| Qt.isValid := true; Qt.row := 0; Qt.column := 1 |}
              / Threaded._cache_size _ * Threaded._cache_size _) with 0 in Hsel.
      rewrite <- Hreq in Hsel.
      rewrite (request_chunk_noop (Threaded._request_chunk m 0) 0) in Hsel.
      - by injection Hsel as <-.
      - left. rewrite Hreq. simpl. apply elem_of_union. left.
        by apply elem_of_singleton. }
    by rewrite Hm1, Hreq.
Qed.

Lemma X18_window_start_witness :
  (Threaded.request_chunk
     (ThreadedWindow.model
        (ThreadedWindow.MainWindow_init Thread.transform_detail_data
           no_int_of_str [])) = []
   /\ ThreadedWindow.detail_value
        (ThreadedWindow.MainWindow_init Thread.transform_detail_data
           no_int_of_str []) = EmptyString)
  /\ (ThreadedWindow.detail_value
        (ThreadedWindow.MainWindow_init Thread.transform_detail_data
           no_int_of_str three_rows) = "Loading..."%string
      /\ Threaded.request_chunk
           (ThreadedWindow.model
              (ThreadedWindow.MainWindow_init Thread.transform_detail_data
                 no_int_of_str three_rows)) = [(0, 1000)]).
Proof.
  destruct (X18_window_start Thread.transform_detail_data no_int_of_str [])
    as [Hempty _].
  destruct (X18_window_start Thread.transform_detail_data no_int_of_str three_rows)
    as [_ Hrows].
  destruct (Hempty eq_refl) as (He1 & He2 & _).
  destruct (Hrows ltac:(discriminate)) as (Hr1 & _ & Hr3 & _).
  split; [split; [exact He1|exact He2]|split; [exact Hr1|exact Hr3]].
Defined.
